(** * Audio-asset service: admission guard, validator, persister and store

    A shallow embedding of the Python sources

      - [app/utils/helpers.py]        (normaliser, validator, persister)
      - [app/models/audio.py]         (pydantic models and their validators)
      - [app/services/audio_service.py] (the document-store operations)
      - [app/routers/audio.py]        (upload, lookup and delete handlers)
      - [app/middleware/security.py]  (the admission guard)

    Python [str] values are modelled as [string], holding their UTF-8
    encoding. *)

From Stdlib Require Import ZArith QArith Lia Ascii Sorted.
From stdpp Require Import base option list strings pretty gmap.

Open Scope Z_scope.

(** ** Python string primitives

    A Python [str] is kept as its UTF-8 encoding, so that a Rocq string
    literal reads as the Python literal spelt the same. The functions that
    work on characters ([str.lower], [str.strip], [str.title], [int]) first
    cut the bytes into characters; a byte that starts no well-formed
    sequence stands for itself, which no [str] gives rise to. The functions
    that only compare ([in], [startswith], [split] on an ASCII separator,
    [==]) work on the bytes, which agrees with Python on every [str]. *)

Module Py.

Definition code (c : ascii) : N := Ascii.N_of_ascii c.
Definition byte (n : N) : ascii := Ascii.ascii_of_N n.

Definition is_upper (c : ascii) : bool :=
  let n := Ascii.nat_of_ascii c in (65 <=? n)%nat && (n <=? 90)%nat.

Definition is_lower (c : ascii) : bool :=
  let n := Ascii.nat_of_ascii c in (97 <=? n)%nat && (n <=? 122)%nat.

Definition is_digit (c : ascii) : bool :=
  let n := Ascii.nat_of_ascii c in (48 <=? n)%nat && (n <=? 57)%nat.

(** *** Characters *)

(** A continuation byte of UTF-8. *)
Definition is_cont (c : ascii) : bool :=
  ((128 <=? code c) && (code c <? 192))%N.

(** The number of continuation bytes a byte from 128 on announces; 0 for a
    byte that cannot start a sequence. *)
Definition need (c : ascii) : nat :=
  let n := code c in
  if (n <? 194)%N then 0%nat
  else if (n <? 224)%N then 1%nat
  else if (n <? 240)%N then 2%nat
  else if (n <? 248)%N then 3%nat
  else 0%nat.

(** The payload of the lead byte of a sequence of [k] continuation bytes. *)
Definition lead_payload (k : nat) (c : ascii) : N :=
  match k with
  | 1%nat => code c - 192
  | 2%nat => code c - 224
  | _ => code c - 240
  end%N.

(** The next [k] bytes, if they are continuation bytes, added to [acc]. *)
Fixpoint conts (k : nat) (s : string) (acc : N) : option N :=
  match k with
  | O => Some acc
  | S k' =>
      match s with
      | String c s' =>
          if is_cont c then conts k' s' (acc * 64 + (code c - 128))%N
          else None
      | EmptyString => None
      end
  end.

(** The character a string starts with: its code point and the number of
    bytes that follow its first byte. *)
Definition head_char (s : string) : option (N * nat) :=
  match s with
  | EmptyString => None
  | String b r =>
      if (code b <? 128)%N then Some (code b, O)
      else
        match need b with
        | O => None
        | k => option_map (fun cp => (cp, k)) (conts k r (lead_payload k b))
        end
  end.

Fixpoint take (k : nat) (s : string) : string :=
  match k, s with
  | S k', String c s' => String c (take k' s')
  | _, _ => EmptyString
  end.

(** The characters of a string, each as the bytes that spell it. *)
Fixpoint chars_go (skip : nat) (s : string) : list string :=
  match s with
  | EmptyString => []
  | String b r =>
      match skip with
      | S k => chars_go k r
      | O =>
          match head_char s with
          | Some (_, k) => String b (take k r) :: chars_go k r
          | None => String b EmptyString :: chars_go O r
          end
      end
  end.
Definition chars (s : string) : list string := chars_go O s.

(** [ord(c)] of a character; [None] for a byte that is none. *)
Definition ord (c : string) : option N := option_map fst (head_char c).

(** The UTF-8 encoding of a code point. *)
Definition utf8 (cp : N) : string :=
  (if cp <? 128 then String (byte cp) EmptyString
   else if cp <? 2048 then
     String (byte (192 + cp / 64)) (String (byte (128 + cp mod 64)) EmptyString)
   else if cp <? 65536 then
     String (byte (224 + cp / 4096))
       (String (byte (128 + (cp / 64) mod 64))
          (String (byte (128 + cp mod 64)) EmptyString))
   else
     String (byte (240 + cp / 262144))
       (String (byte (128 + (cp / 4096) mod 64))
          (String (byte (128 + (cp / 64) mod 64))
             (String (byte (128 + cp mod 64)) EmptyString))))%N.

(** [''.join(l)] *)
Fixpoint cat (l : list string) : string :=
  match l with
  | [] => EmptyString
  | x :: l' => x +:+ cat l'
  end.

Definition utf8s (l : list N) : string := cat (List.map utf8 l).

(** *** Tables of the Unicode character database

    The tables below are those of Unicode 14.0.0, which CPython 3.11 is
    built with, for the code points from 128 on; the ASCII range is written
    out in the functions that use them. *)

(** [ToLowerFull]: the code points [str.lower] changes, with their images. *)
Definition lower_table : list (N * list N) :=
  [
   (192, [224]); (193, [225]); (194, [226]); (195, [227]); (196, [228]);
   (197, [229]); (198, [230]); (199, [231]); (200, [232]); (201, [233]);
   (202, [234]); (203, [235]); (204, [236]); (205, [237]); (206, [238]);
   (207, [239]); (208, [240]); (209, [241]); (210, [242]); (211, [243]);
   (212, [244]); (213, [245]); (214, [246]); (216, [248]); (217, [249]);
   (218, [250]); (219, [251]); (220, [252]); (221, [253]); (222, [254]);
   (256, [257]); (258, [259]); (260, [261]); (262, [263]); (264, [265]);
   (266, [267]); (268, [269]); (270, [271]); (272, [273]); (274, [275]);
   (276, [277]); (278, [279]); (280, [281]); (282, [283]); (284, [285]);
   (286, [287]); (288, [289]); (290, [291]); (292, [293]); (294, [295]);
   (296, [297]); (298, [299]); (300, [301]); (302, [303]); (304, [105;
   775]); (306, [307]); (308, [309]); (310, [311]); (313, [314]); (315,
   [316]); (317, [318]); (319, [320]); (321, [322]); (323, [324]); (325,
   [326]); (327, [328]); (330, [331]); (332, [333]); (334, [335]); (336,
   [337]); (338, [339]); (340, [341]); (342, [343]); (344, [345]); (346,
   [347]); (348, [349]); (350, [351]); (352, [353]); (354, [355]); (356,
   [357]); (358, [359]); (360, [361]); (362, [363]); (364, [365]); (366,
   [367]); (368, [369]); (370, [371]); (372, [373]); (374, [375]); (376,
   [255]); (377, [378]); (379, [380]); (381, [382]); (385, [595]); (386,
   [387]); (388, [389]); (390, [596]); (391, [392]); (393, [598]); (394,
   [599]); (395, [396]); (398, [477]); (399, [601]); (400, [603]); (401,
   [402]); (403, [608]); (404, [611]); (406, [617]); (407, [616]); (408,
   [409]); (412, [623]); (413, [626]); (415, [629]); (416, [417]); (418,
   [419]); (420, [421]); (422, [640]); (423, [424]); (425, [643]); (428,
   [429]); (430, [648]); (431, [432]); (433, [650]); (434, [651]); (435,
   [436]); (437, [438]); (439, [658]); (440, [441]); (444, [445]); (452,
   [454]); (453, [454]); (455, [457]); (456, [457]); (458, [460]); (459,
   [460]); (461, [462]); (463, [464]); (465, [466]); (467, [468]); (469,
   [470]); (471, [472]); (473, [474]); (475, [476]); (478, [479]); (480,
   [481]); (482, [483]); (484, [485]); (486, [487]); (488, [489]); (490,
   [491]); (492, [493]); (494, [495]); (497, [499]); (498, [499]); (500,
   [501]); (502, [405]); (503, [447]); (504, [505]); (506, [507]); (508,
   [509]); (510, [511]); (512, [513]); (514, [515]); (516, [517]); (518,
   [519]); (520, [521]); (522, [523]); (524, [525]); (526, [527]); (528,
   [529]); (530, [531]); (532, [533]); (534, [535]); (536, [537]); (538,
   [539]); (540, [541]); (542, [543]); (544, [414]); (546, [547]); (548,
   [549]); (550, [551]); (552, [553]); (554, [555]); (556, [557]); (558,
   [559]); (560, [561]); (562, [563]); (570, [11365]); (571, [572]); (573,
   [410]); (574, [11366]); (577, [578]); (579, [384]); (580, [649]); (581,
   [652]); (582, [583]); (584, [585]); (586, [587]); (588, [589]); (590,
   [591]); (880, [881]); (882, [883]); (886, [887]); (895, [1011]); (902,
   [940]); (904, [941]); (905, [942]); (906, [943]); (908, [972]); (910,
   [973]); (911, [974]); (913, [945]); (914, [946]); (915, [947]); (916,
   [948]); (917, [949]); (918, [950]); (919, [951]); (920, [952]); (921,
   [953]); (922, [954]); (923, [955]); (924, [956]); (925, [957]); (926,
   [958]); (927, [959]); (928, [960]); (929, [961]); (931, [963]); (932,
   [964]); (933, [965]); (934, [966]); (935, [967]); (936, [968]); (937,
   [969]); (938, [970]); (939, [971]); (975, [983]); (984, [985]); (986,
   [987]); (988, [989]); (990, [991]); (992, [993]); (994, [995]); (996,
   [997]); (998, [999]); (1000, [1001]); (1002, [1003]); (1004, [1005]);
   (1006, [1007]); (1012, [952]); (1015, [1016]); (1017, [1010]); (1018,
   [1019]); (1021, [891]); (1022, [892]); (1023, [893]); (1024, [1104]);
   (1025, [1105]); (1026, [1106]); (1027, [1107]); (1028, [1108]); (1029,
   [1109]); (1030, [1110]); (1031, [1111]); (1032, [1112]); (1033, [1113]);
   (1034, [1114]); (1035, [1115]); (1036, [1116]); (1037, [1117]); (1038,
   [1118]); (1039, [1119]); (1040, [1072]); (1041, [1073]); (1042, [1074]);
   (1043, [1075]); (1044, [1076]); (1045, [1077]); (1046, [1078]); (1047,
   [1079]); (1048, [1080]); (1049, [1081]); (1050, [1082]); (1051, [1083]);
   (1052, [1084]); (1053, [1085]); (1054, [1086]); (1055, [1087]); (1056,
   [1088]); (1057, [1089]); (1058, [1090]); (1059, [1091]); (1060, [1092]);
   (1061, [1093]); (1062, [1094]); (1063, [1095]); (1064, [1096]); (1065,
   [1097]); (1066, [1098]); (1067, [1099]); (1068, [1100]); (1069, [1101]);
   (1070, [1102]); (1071, [1103]); (1120, [1121]); (1122, [1123]); (1124,
   [1125]); (1126, [1127]); (1128, [1129]); (1130, [1131]); (1132, [1133]);
   (1134, [1135]); (1136, [1137]); (1138, [1139]); (1140, [1141]); (1142,
   [1143]); (1144, [1145]); (1146, [1147]); (1148, [1149]); (1150, [1151]);
   (1152, [1153]); (1162, [1163]); (1164, [1165]); (1166, [1167]); (1168,
   [1169]); (1170, [1171]); (1172, [1173]); (1174, [1175]); (1176, [1177]);
   (1178, [1179]); (1180, [1181]); (1182, [1183]); (1184, [1185]); (1186,
   [1187]); (1188, [1189]); (1190, [1191]); (1192, [1193]); (1194, [1195]);
   (1196, [1197]); (1198, [1199]); (1200, [1201]); (1202, [1203]); (1204,
   [1205]); (1206, [1207]); (1208, [1209]); (1210, [1211]); (1212, [1213]);
   (1214, [1215]); (1216, [1231]); (1217, [1218]); (1219, [1220]); (1221,
   [1222]); (1223, [1224]); (1225, [1226]); (1227, [1228]); (1229, [1230]);
   (1232, [1233]); (1234, [1235]); (1236, [1237]); (1238, [1239]); (1240,
   [1241]); (1242, [1243]); (1244, [1245]); (1246, [1247]); (1248, [1249]);
   (1250, [1251]); (1252, [1253]); (1254, [1255]); (1256, [1257]); (1258,
   [1259]); (1260, [1261]); (1262, [1263]); (1264, [1265]); (1266, [1267]);
   (1268, [1269]); (1270, [1271]); (1272, [1273]); (1274, [1275]); (1276,
   [1277]); (1278, [1279]); (1280, [1281]); (1282, [1283]); (1284, [1285]);
   (1286, [1287]); (1288, [1289]); (1290, [1291]); (1292, [1293]); (1294,
   [1295]); (1296, [1297]); (1298, [1299]); (1300, [1301]); (1302, [1303]);
   (1304, [1305]); (1306, [1307]); (1308, [1309]); (1310, [1311]); (1312,
   [1313]); (1314, [1315]); (1316, [1317]); (1318, [1319]); (1320, [1321]);
   (1322, [1323]); (1324, [1325]); (1326, [1327]); (1329, [1377]); (1330,
   [1378]); (1331, [1379]); (1332, [1380]); (1333, [1381]); (1334, [1382]);
   (1335, [1383]); (1336, [1384]); (1337, [1385]); (1338, [1386]); (1339,
   [1387]); (1340, [1388]); (1341, [1389]); (1342, [1390]); (1343, [1391]);
   (1344, [1392]); (1345, [1393]); (1346, [1394]); (1347, [1395]); (1348,
   [1396]); (1349, [1397]); (1350, [1398]); (1351, [1399]); (1352, [1400]);
   (1353, [1401]); (1354, [1402]); (1355, [1403]); (1356, [1404]); (1357,
   [1405]); (1358, [1406]); (1359, [1407]); (1360, [1408]); (1361, [1409]);
   (1362, [1410]); (1363, [1411]); (1364, [1412]); (1365, [1413]); (1366,
   [1414]); (4256, [11520]); (4257, [11521]); (4258, [11522]); (4259,
   [11523]); (4260, [11524]); (4261, [11525]); (4262, [11526]); (4263,
   [11527]); (4264, [11528]); (4265, [11529]); (4266, [11530]); (4267,
   [11531]); (4268, [11532]); (4269, [11533]); (4270, [11534]); (4271,
   [11535]); (4272, [11536]); (4273, [11537]); (4274, [11538]); (4275,
   [11539]); (4276, [11540]); (4277, [11541]); (4278, [11542]); (4279,
   [11543]); (4280, [11544]); (4281, [11545]); (4282, [11546]); (4283,
   [11547]); (4284, [11548]); (4285, [11549]); (4286, [11550]); (4287,
   [11551]); (4288, [11552]); (4289, [11553]); (4290, [11554]); (4291,
   [11555]); (4292, [11556]); (4293, [11557]); (4295, [11559]); (4301,
   [11565]); (5024, [43888]); (5025, [43889]); (5026, [43890]); (5027,
   [43891]); (5028, [43892]); (5029, [43893]); (5030, [43894]); (5031,
   [43895]); (5032, [43896]); (5033, [43897]); (5034, [43898]); (5035,
   [43899]); (5036, [43900]); (5037, [43901]); (5038, [43902]); (5039,
   [43903]); (5040, [43904]); (5041, [43905]); (5042, [43906]); (5043,
   [43907]); (5044, [43908]); (5045, [43909]); (5046, [43910]); (5047,
   [43911]); (5048, [43912]); (5049, [43913]); (5050, [43914]); (5051,
   [43915]); (5052, [43916]); (5053, [43917]); (5054, [43918]); (5055,
   [43919]); (5056, [43920]); (5057, [43921]); (5058, [43922]); (5059,
   [43923]); (5060, [43924]); (5061, [43925]); (5062, [43926]); (5063,
   [43927]); (5064, [43928]); (5065, [43929]); (5066, [43930]); (5067,
   [43931]); (5068, [43932]); (5069, [43933]); (5070, [43934]); (5071,
   [43935]); (5072, [43936]); (5073, [43937]); (5074, [43938]); (5075,
   [43939]); (5076, [43940]); (5077, [43941]); (5078, [43942]); (5079,
   [43943]); (5080, [43944]); (5081, [43945]); (5082, [43946]); (5083,
   [43947]); (5084, [43948]); (5085, [43949]); (5086, [43950]); (5087,
   [43951]); (5088, [43952]); (5089, [43953]); (5090, [43954]); (5091,
   [43955]); (5092, [43956]); (5093, [43957]); (5094, [43958]); (5095,
   [43959]); (5096, [43960]); (5097, [43961]); (5098, [43962]); (5099,
   [43963]); (5100, [43964]); (5101, [43965]); (5102, [43966]); (5103,
   [43967]); (5104, [5112]); (5105, [5113]); (5106, [5114]); (5107, [5115]);
   (5108, [5116]); (5109, [5117]); (7312, [4304]); (7313, [4305]); (7314,
   [4306]); (7315, [4307]); (7316, [4308]); (7317, [4309]); (7318, [4310]);
   (7319, [4311]); (7320, [4312]); (7321, [4313]); (7322, [4314]); (7323,
   [4315]); (7324, [4316]); (7325, [4317]); (7326, [4318]); (7327, [4319]);
   (7328, [4320]); (7329, [4321]); (7330, [4322]); (7331, [4323]); (7332,
   [4324]); (7333, [4325]); (7334, [4326]); (7335, [4327]); (7336, [4328]);
   (7337, [4329]); (7338, [4330]); (7339, [4331]); (7340, [4332]); (7341,
   [4333]); (7342, [4334]); (7343, [4335]); (7344, [4336]); (7345, [4337]);
   (7346, [4338]); (7347, [4339]); (7348, [4340]); (7349, [4341]); (7350,
   [4342]); (7351, [4343]); (7352, [4344]); (7353, [4345]); (7354, [4346]);
   (7357, [4349]); (7358, [4350]); (7359, [4351]); (7680, [7681]); (7682,
   [7683]); (7684, [7685]); (7686, [7687]); (7688, [7689]); (7690, [7691]);
   (7692, [7693]); (7694, [7695]); (7696, [7697]); (7698, [7699]); (7700,
   [7701]); (7702, [7703]); (7704, [7705]); (7706, [7707]); (7708, [7709]);
   (7710, [7711]); (7712, [7713]); (7714, [7715]); (7716, [7717]); (7718,
   [7719]); (7720, [7721]); (7722, [7723]); (7724, [7725]); (7726, [7727]);
   (7728, [7729]); (7730, [7731]); (7732, [7733]); (7734, [7735]); (7736,
   [7737]); (7738, [7739]); (7740, [7741]); (7742, [7743]); (7744, [7745]);
   (7746, [7747]); (7748, [7749]); (7750, [7751]); (7752, [7753]); (7754,
   [7755]); (7756, [7757]); (7758, [7759]); (7760, [7761]); (7762, [7763]);
   (7764, [7765]); (7766, [7767]); (7768, [7769]); (7770, [7771]); (7772,
   [7773]); (7774, [7775]); (7776, [7777]); (7778, [7779]); (7780, [7781]);
   (7782, [7783]); (7784, [7785]); (7786, [7787]); (7788, [7789]); (7790,
   [7791]); (7792, [7793]); (7794, [7795]); (7796, [7797]); (7798, [7799]);
   (7800, [7801]); (7802, [7803]); (7804, [7805]); (7806, [7807]); (7808,
   [7809]); (7810, [7811]); (7812, [7813]); (7814, [7815]); (7816, [7817]);
   (7818, [7819]); (7820, [7821]); (7822, [7823]); (7824, [7825]); (7826,
   [7827]); (7828, [7829]); (7838, [223]); (7840, [7841]); (7842, [7843]);
   (7844, [7845]); (7846, [7847]); (7848, [7849]); (7850, [7851]); (7852,
   [7853]); (7854, [7855]); (7856, [7857]); (7858, [7859]); (7860, [7861]);
   (7862, [7863]); (7864, [7865]); (7866, [7867]); (7868, [7869]); (7870,
   [7871]); (7872, [7873]); (7874, [7875]); (7876, [7877]); (7878, [7879]);
   (7880, [7881]); (7882, [7883]); (7884, [7885]); (7886, [7887]); (7888,
   [7889]); (7890, [7891]); (7892, [7893]); (7894, [7895]); (7896, [7897]);
   (7898, [7899]); (7900, [7901]); (7902, [7903]); (7904, [7905]); (7906,
   [7907]); (7908, [7909]); (7910, [7911]); (7912, [7913]); (7914, [7915]);
   (7916, [7917]); (7918, [7919]); (7920, [7921]); (7922, [7923]); (7924,
   [7925]); (7926, [7927]); (7928, [7929]); (7930, [7931]); (7932, [7933]);
   (7934, [7935]); (7944, [7936]); (7945, [7937]); (7946, [7938]); (7947,
   [7939]); (7948, [7940]); (7949, [7941]); (7950, [7942]); (7951, [7943]);
   (7960, [7952]); (7961, [7953]); (7962, [7954]); (7963, [7955]); (7964,
   [7956]); (7965, [7957]); (7976, [7968]); (7977, [7969]); (7978, [7970]);
   (7979, [7971]); (7980, [7972]); (7981, [7973]); (7982, [7974]); (7983,
   [7975]); (7992, [7984]); (7993, [7985]); (7994, [7986]); (7995, [7987]);
   (7996, [7988]); (7997, [7989]); (7998, [7990]); (7999, [7991]); (8008,
   [8000]); (8009, [8001]); (8010, [8002]); (8011, [8003]); (8012, [8004]);
   (8013, [8005]); (8025, [8017]); (8027, [8019]); (8029, [8021]); (8031,
   [8023]); (8040, [8032]); (8041, [8033]); (8042, [8034]); (8043, [8035]);
   (8044, [8036]); (8045, [8037]); (8046, [8038]); (8047, [8039]); (8072,
   [8064]); (8073, [8065]); (8074, [8066]); (8075, [8067]); (8076, [8068]);
   (8077, [8069]); (8078, [8070]); (8079, [8071]); (8088, [8080]); (8089,
   [8081]); (8090, [8082]); (8091, [8083]); (8092, [8084]); (8093, [8085]);
   (8094, [8086]); (8095, [8087]); (8104, [8096]); (8105, [8097]); (8106,
   [8098]); (8107, [8099]); (8108, [8100]); (8109, [8101]); (8110, [8102]);
   (8111, [8103]); (8120, [8112]); (8121, [8113]); (8122, [8048]); (8123,
   [8049]); (8124, [8115]); (8136, [8050]); (8137, [8051]); (8138, [8052]);
   (8139, [8053]); (8140, [8131]); (8152, [8144]); (8153, [8145]); (8154,
   [8054]); (8155, [8055]); (8168, [8160]); (8169, [8161]); (8170, [8058]);
   (8171, [8059]); (8172, [8165]); (8184, [8056]); (8185, [8057]); (8186,
   [8060]); (8187, [8061]); (8188, [8179]); (8486, [969]); (8490, [107]);
   (8491, [229]); (8498, [8526]); (8544, [8560]); (8545, [8561]); (8546,
   [8562]); (8547, [8563]); (8548, [8564]); (8549, [8565]); (8550, [8566]);
   (8551, [8567]); (8552, [8568]); (8553, [8569]); (8554, [8570]); (8555,
   [8571]); (8556, [8572]); (8557, [8573]); (8558, [8574]); (8559, [8575]);
   (8579, [8580]); (9398, [9424]); (9399, [9425]); (9400, [9426]); (9401,
   [9427]); (9402, [9428]); (9403, [9429]); (9404, [9430]); (9405, [9431]);
   (9406, [9432]); (9407, [9433]); (9408, [9434]); (9409, [9435]); (9410,
   [9436]); (9411, [9437]); (9412, [9438]); (9413, [9439]); (9414, [9440]);
   (9415, [9441]); (9416, [9442]); (9417, [9443]); (9418, [9444]); (9419,
   [9445]); (9420, [9446]); (9421, [9447]); (9422, [9448]); (9423, [9449]);
   (11264, [11312]); (11265, [11313]); (11266, [11314]); (11267, [11315]);
   (11268, [11316]); (11269, [11317]); (11270, [11318]); (11271, [11319]);
   (11272, [11320]); (11273, [11321]); (11274, [11322]); (11275, [11323]);
   (11276, [11324]); (11277, [11325]); (11278, [11326]); (11279, [11327]);
   (11280, [11328]); (11281, [11329]); (11282, [11330]); (11283, [11331]);
   (11284, [11332]); (11285, [11333]); (11286, [11334]); (11287, [11335]);
   (11288, [11336]); (11289, [11337]); (11290, [11338]); (11291, [11339]);
   (11292, [11340]); (11293, [11341]); (11294, [11342]); (11295, [11343]);
   (11296, [11344]); (11297, [11345]); (11298, [11346]); (11299, [11347]);
   (11300, [11348]); (11301, [11349]); (11302, [11350]); (11303, [11351]);
   (11304, [11352]); (11305, [11353]); (11306, [11354]); (11307, [11355]);
   (11308, [11356]); (11309, [11357]); (11310, [11358]); (11311, [11359]);
   (11360, [11361]); (11362, [619]); (11363, [7549]); (11364, [637]);
   (11367, [11368]); (11369, [11370]); (11371, [11372]); (11373, [593]);
   (11374, [625]); (11375, [592]); (11376, [594]); (11378, [11379]); (11381,
   [11382]); (11390, [575]); (11391, [576]); (11392, [11393]); (11394,
   [11395]); (11396, [11397]); (11398, [11399]); (11400, [11401]); (11402,
   [11403]); (11404, [11405]); (11406, [11407]); (11408, [11409]); (11410,
   [11411]); (11412, [11413]); (11414, [11415]); (11416, [11417]); (11418,
   [11419]); (11420, [11421]); (11422, [11423]); (11424, [11425]); (11426,
   [11427]); (11428, [11429]); (11430, [11431]); (11432, [11433]); (11434,
   [11435]); (11436, [11437]); (11438, [11439]); (11440, [11441]); (11442,
   [11443]); (11444, [11445]); (11446, [11447]); (11448, [11449]); (11450,
   [11451]); (11452, [11453]); (11454, [11455]); (11456, [11457]); (11458,
   [11459]); (11460, [11461]); (11462, [11463]); (11464, [11465]); (11466,
   [11467]); (11468, [11469]); (11470, [11471]); (11472, [11473]); (11474,
   [11475]); (11476, [11477]); (11478, [11479]); (11480, [11481]); (11482,
   [11483]); (11484, [11485]); (11486, [11487]); (11488, [11489]); (11490,
   [11491]); (11499, [11500]); (11501, [11502]); (11506, [11507]); (42560,
   [42561]); (42562, [42563]); (42564, [42565]); (42566, [42567]); (42568,
   [42569]); (42570, [42571]); (42572, [42573]); (42574, [42575]); (42576,
   [42577]); (42578, [42579]); (42580, [42581]); (42582, [42583]); (42584,
   [42585]); (42586, [42587]); (42588, [42589]); (42590, [42591]); (42592,
   [42593]); (42594, [42595]); (42596, [42597]); (42598, [42599]); (42600,
   [42601]); (42602, [42603]); (42604, [42605]); (42624, [42625]); (42626,
   [42627]); (42628, [42629]); (42630, [42631]); (42632, [42633]); (42634,
   [42635]); (42636, [42637]); (42638, [42639]); (42640, [42641]); (42642,
   [42643]); (42644, [42645]); (42646, [42647]); (42648, [42649]); (42650,
   [42651]); (42786, [42787]); (42788, [42789]); (42790, [42791]); (42792,
   [42793]); (42794, [42795]); (42796, [42797]); (42798, [42799]); (42802,
   [42803]); (42804, [42805]); (42806, [42807]); (42808, [42809]); (42810,
   [42811]); (42812, [42813]); (42814, [42815]); (42816, [42817]); (42818,
   [42819]); (42820, [42821]); (42822, [42823]); (42824, [42825]); (42826,
   [42827]); (42828, [42829]); (42830, [42831]); (42832, [42833]); (42834,
   [42835]); (42836, [42837]); (42838, [42839]); (42840, [42841]); (42842,
   [42843]); (42844, [42845]); (42846, [42847]); (42848, [42849]); (42850,
   [42851]); (42852, [42853]); (42854, [42855]); (42856, [42857]); (42858,
   [42859]); (42860, [42861]); (42862, [42863]); (42873, [42874]); (42875,
   [42876]); (42877, [7545]); (42878, [42879]); (42880, [42881]); (42882,
   [42883]); (42884, [42885]); (42886, [42887]); (42891, [42892]); (42893,
   [613]); (42896, [42897]); (42898, [42899]); (42902, [42903]); (42904,
   [42905]); (42906, [42907]); (42908, [42909]); (42910, [42911]); (42912,
   [42913]); (42914, [42915]); (42916, [42917]); (42918, [42919]); (42920,
   [42921]); (42922, [614]); (42923, [604]); (42924, [609]); (42925, [620]);
   (42926, [618]); (42928, [670]); (42929, [647]); (42930, [669]); (42931,
   [43859]); (42932, [42933]); (42934, [42935]); (42936, [42937]); (42938,
   [42939]); (42940, [42941]); (42942, [42943]); (42944, [42945]); (42946,
   [42947]); (42948, [42900]); (42949, [642]); (42950, [7566]); (42951,
   [42952]); (42953, [42954]); (42960, [42961]); (42966, [42967]); (42968,
   [42969]); (42997, [42998]); (65313, [65345]); (65314, [65346]); (65315,
   [65347]); (65316, [65348]); (65317, [65349]); (65318, [65350]); (65319,
   [65351]); (65320, [65352]); (65321, [65353]); (65322, [65354]); (65323,
   [65355]); (65324, [65356]); (65325, [65357]); (65326, [65358]); (65327,
   [65359]); (65328, [65360]); (65329, [65361]); (65330, [65362]); (65331,
   [65363]); (65332, [65364]); (65333, [65365]); (65334, [65366]); (65335,
   [65367]); (65336, [65368]); (65337, [65369]); (65338, [65370]); (66560,
   [66600]); (66561, [66601]); (66562, [66602]); (66563, [66603]); (66564,
   [66604]); (66565, [66605]); (66566, [66606]); (66567, [66607]); (66568,
   [66608]); (66569, [66609]); (66570, [66610]); (66571, [66611]); (66572,
   [66612]); (66573, [66613]); (66574, [66614]); (66575, [66615]); (66576,
   [66616]); (66577, [66617]); (66578, [66618]); (66579, [66619]); (66580,
   [66620]); (66581, [66621]); (66582, [66622]); (66583, [66623]); (66584,
   [66624]); (66585, [66625]); (66586, [66626]); (66587, [66627]); (66588,
   [66628]); (66589, [66629]); (66590, [66630]); (66591, [66631]); (66592,
   [66632]); (66593, [66633]); (66594, [66634]); (66595, [66635]); (66596,
   [66636]); (66597, [66637]); (66598, [66638]); (66599, [66639]); (66736,
   [66776]); (66737, [66777]); (66738, [66778]); (66739, [66779]); (66740,
   [66780]); (66741, [66781]); (66742, [66782]); (66743, [66783]); (66744,
   [66784]); (66745, [66785]); (66746, [66786]); (66747, [66787]); (66748,
   [66788]); (66749, [66789]); (66750, [66790]); (66751, [66791]); (66752,
   [66792]); (66753, [66793]); (66754, [66794]); (66755, [66795]); (66756,
   [66796]); (66757, [66797]); (66758, [66798]); (66759, [66799]); (66760,
   [66800]); (66761, [66801]); (66762, [66802]); (66763, [66803]); (66764,
   [66804]); (66765, [66805]); (66766, [66806]); (66767, [66807]); (66768,
   [66808]); (66769, [66809]); (66770, [66810]); (66771, [66811]); (66928,
   [66967]); (66929, [66968]); (66930, [66969]); (66931, [66970]); (66932,
   [66971]); (66933, [66972]); (66934, [66973]); (66935, [66974]); (66936,
   [66975]); (66937, [66976]); (66938, [66977]); (66940, [66979]); (66941,
   [66980]); (66942, [66981]); (66943, [66982]); (66944, [66983]); (66945,
   [66984]); (66946, [66985]); (66947, [66986]); (66948, [66987]); (66949,
   [66988]); (66950, [66989]); (66951, [66990]); (66952, [66991]); (66953,
   [66992]); (66954, [66993]); (66956, [66995]); (66957, [66996]); (66958,
   [66997]); (66959, [66998]); (66960, [66999]); (66961, [67000]); (66962,
   [67001]); (66964, [67003]); (66965, [67004]); (68736, [68800]); (68737,
   [68801]); (68738, [68802]); (68739, [68803]); (68740, [68804]); (68741,
   [68805]); (68742, [68806]); (68743, [68807]); (68744, [68808]); (68745,
   [68809]); (68746, [68810]); (68747, [68811]); (68748, [68812]); (68749,
   [68813]); (68750, [68814]); (68751, [68815]); (68752, [68816]); (68753,
   [68817]); (68754, [68818]); (68755, [68819]); (68756, [68820]); (68757,
   [68821]); (68758, [68822]); (68759, [68823]); (68760, [68824]); (68761,
   [68825]); (68762, [68826]); (68763, [68827]); (68764, [68828]); (68765,
   [68829]); (68766, [68830]); (68767, [68831]); (68768, [68832]); (68769,
   [68833]); (68770, [68834]); (68771, [68835]); (68772, [68836]); (68773,
   [68837]); (68774, [68838]); (68775, [68839]); (68776, [68840]); (68777,
   [68841]); (68778, [68842]); (68779, [68843]); (68780, [68844]); (68781,
   [68845]); (68782, [68846]); (68783, [68847]); (68784, [68848]); (68785,
   [68849]); (68786, [68850]); (71840, [71872]); (71841, [71873]); (71842,
   [71874]); (71843, [71875]); (71844, [71876]); (71845, [71877]); (71846,
   [71878]); (71847, [71879]); (71848, [71880]); (71849, [71881]); (71850,
   [71882]); (71851, [71883]); (71852, [71884]); (71853, [71885]); (71854,
   [71886]); (71855, [71887]); (71856, [71888]); (71857, [71889]); (71858,
   [71890]); (71859, [71891]); (71860, [71892]); (71861, [71893]); (71862,
   [71894]); (71863, [71895]); (71864, [71896]); (71865, [71897]); (71866,
   [71898]); (71867, [71899]); (71868, [71900]); (71869, [71901]); (71870,
   [71902]); (71871, [71903]); (93760, [93792]); (93761, [93793]); (93762,
   [93794]); (93763, [93795]); (93764, [93796]); (93765, [93797]); (93766,
   [93798]); (93767, [93799]); (93768, [93800]); (93769, [93801]); (93770,
   [93802]); (93771, [93803]); (93772, [93804]); (93773, [93805]); (93774,
   [93806]); (93775, [93807]); (93776, [93808]); (93777, [93809]); (93778,
   [93810]); (93779, [93811]); (93780, [93812]); (93781, [93813]); (93782,
   [93814]); (93783, [93815]); (93784, [93816]); (93785, [93817]); (93786,
   [93818]); (93787, [93819]); (93788, [93820]); (93789, [93821]); (93790,
   [93822]); (93791, [93823]); (125184, [125218]); (125185, [125219]);
   (125186, [125220]); (125187, [125221]); (125188, [125222]); (125189,
   [125223]); (125190, [125224]); (125191, [125225]); (125192, [125226]);
   (125193, [125227]); (125194, [125228]); (125195, [125229]); (125196,
   [125230]); (125197, [125231]); (125198, [125232]); (125199, [125233]);
   (125200, [125234]); (125201, [125235]); (125202, [125236]); (125203,
   [125237]); (125204, [125238]); (125205, [125239]); (125206, [125240]);
   (125207, [125241]); (125208, [125242]); (125209, [125243]); (125210,
   [125244]); (125211, [125245]); (125212, [125246]); (125213, [125247]);
   (125214, [125248]); (125215, [125249]); (125216, [125250]); (125217,
   [125251])
  ]%N.

(** [ToTitleFull]: the code points [str.title] changes when they start a
    word, with their images. *)
Definition title_table : list (N * list N) :=
  [
   (181, [924]); (223, [83; 115]); (224, [192]); (225, [193]); (226, [194]);
   (227, [195]); (228, [196]); (229, [197]); (230, [198]); (231, [199]);
   (232, [200]); (233, [201]); (234, [202]); (235, [203]); (236, [204]);
   (237, [205]); (238, [206]); (239, [207]); (240, [208]); (241, [209]);
   (242, [210]); (243, [211]); (244, [212]); (245, [213]); (246, [214]);
   (248, [216]); (249, [217]); (250, [218]); (251, [219]); (252, [220]);
   (253, [221]); (254, [222]); (255, [376]); (257, [256]); (259, [258]);
   (261, [260]); (263, [262]); (265, [264]); (267, [266]); (269, [268]);
   (271, [270]); (273, [272]); (275, [274]); (277, [276]); (279, [278]);
   (281, [280]); (283, [282]); (285, [284]); (287, [286]); (289, [288]);
   (291, [290]); (293, [292]); (295, [294]); (297, [296]); (299, [298]);
   (301, [300]); (303, [302]); (305, [73]); (307, [306]); (309, [308]);
   (311, [310]); (314, [313]); (316, [315]); (318, [317]); (320, [319]);
   (322, [321]); (324, [323]); (326, [325]); (328, [327]); (329, [700; 78]);
   (331, [330]); (333, [332]); (335, [334]); (337, [336]); (339, [338]);
   (341, [340]); (343, [342]); (345, [344]); (347, [346]); (349, [348]);
   (351, [350]); (353, [352]); (355, [354]); (357, [356]); (359, [358]);
   (361, [360]); (363, [362]); (365, [364]); (367, [366]); (369, [368]);
   (371, [370]); (373, [372]); (375, [374]); (378, [377]); (380, [379]);
   (382, [381]); (383, [83]); (384, [579]); (387, [386]); (389, [388]);
   (392, [391]); (396, [395]); (402, [401]); (405, [502]); (409, [408]);
   (410, [573]); (414, [544]); (417, [416]); (419, [418]); (421, [420]);
   (424, [423]); (429, [428]); (432, [431]); (436, [435]); (438, [437]);
   (441, [440]); (445, [444]); (447, [503]); (452, [453]); (454, [453]);
   (455, [456]); (457, [456]); (458, [459]); (460, [459]); (462, [461]);
   (464, [463]); (466, [465]); (468, [467]); (470, [469]); (472, [471]);
   (474, [473]); (476, [475]); (477, [398]); (479, [478]); (481, [480]);
   (483, [482]); (485, [484]); (487, [486]); (489, [488]); (491, [490]);
   (493, [492]); (495, [494]); (496, [74; 780]); (497, [498]); (499, [498]);
   (501, [500]); (505, [504]); (507, [506]); (509, [508]); (511, [510]);
   (513, [512]); (515, [514]); (517, [516]); (519, [518]); (521, [520]);
   (523, [522]); (525, [524]); (527, [526]); (529, [528]); (531, [530]);
   (533, [532]); (535, [534]); (537, [536]); (539, [538]); (541, [540]);
   (543, [542]); (547, [546]); (549, [548]); (551, [550]); (553, [552]);
   (555, [554]); (557, [556]); (559, [558]); (561, [560]); (563, [562]);
   (572, [571]); (575, [11390]); (576, [11391]); (578, [577]); (583, [582]);
   (585, [584]); (587, [586]); (589, [588]); (591, [590]); (592, [11375]);
   (593, [11373]); (594, [11376]); (595, [385]); (596, [390]); (598, [393]);
   (599, [394]); (601, [399]); (603, [400]); (604, [42923]); (608, [403]);
   (609, [42924]); (611, [404]); (613, [42893]); (614, [42922]); (616,
   [407]); (617, [406]); (618, [42926]); (619, [11362]); (620, [42925]);
   (623, [412]); (625, [11374]); (626, [413]); (629, [415]); (637, [11364]);
   (640, [422]); (642, [42949]); (643, [425]); (647, [42929]); (648, [430]);
   (649, [580]); (650, [433]); (651, [434]); (652, [581]); (658, [439]);
   (669, [42930]); (670, [42928]); (837, [921]); (881, [880]); (883, [882]);
   (887, [886]); (891, [1021]); (892, [1022]); (893, [1023]); (912, [921;
   776; 769]); (940, [902]); (941, [904]); (942, [905]); (943, [906]); (944,
   [933; 776; 769]); (945, [913]); (946, [914]); (947, [915]); (948, [916]);
   (949, [917]); (950, [918]); (951, [919]); (952, [920]); (953, [921]);
   (954, [922]); (955, [923]); (956, [924]); (957, [925]); (958, [926]);
   (959, [927]); (960, [928]); (961, [929]); (962, [931]); (963, [931]);
   (964, [932]); (965, [933]); (966, [934]); (967, [935]); (968, [936]);
   (969, [937]); (970, [938]); (971, [939]); (972, [908]); (973, [910]);
   (974, [911]); (976, [914]); (977, [920]); (981, [934]); (982, [928]);
   (983, [975]); (985, [984]); (987, [986]); (989, [988]); (991, [990]);
   (993, [992]); (995, [994]); (997, [996]); (999, [998]); (1001, [1000]);
   (1003, [1002]); (1005, [1004]); (1007, [1006]); (1008, [922]); (1009,
   [929]); (1010, [1017]); (1011, [895]); (1013, [917]); (1016, [1015]);
   (1019, [1018]); (1072, [1040]); (1073, [1041]); (1074, [1042]); (1075,
   [1043]); (1076, [1044]); (1077, [1045]); (1078, [1046]); (1079, [1047]);
   (1080, [1048]); (1081, [1049]); (1082, [1050]); (1083, [1051]); (1084,
   [1052]); (1085, [1053]); (1086, [1054]); (1087, [1055]); (1088, [1056]);
   (1089, [1057]); (1090, [1058]); (1091, [1059]); (1092, [1060]); (1093,
   [1061]); (1094, [1062]); (1095, [1063]); (1096, [1064]); (1097, [1065]);
   (1098, [1066]); (1099, [1067]); (1100, [1068]); (1101, [1069]); (1102,
   [1070]); (1103, [1071]); (1104, [1024]); (1105, [1025]); (1106, [1026]);
   (1107, [1027]); (1108, [1028]); (1109, [1029]); (1110, [1030]); (1111,
   [1031]); (1112, [1032]); (1113, [1033]); (1114, [1034]); (1115, [1035]);
   (1116, [1036]); (1117, [1037]); (1118, [1038]); (1119, [1039]); (1121,
   [1120]); (1123, [1122]); (1125, [1124]); (1127, [1126]); (1129, [1128]);
   (1131, [1130]); (1133, [1132]); (1135, [1134]); (1137, [1136]); (1139,
   [1138]); (1141, [1140]); (1143, [1142]); (1145, [1144]); (1147, [1146]);
   (1149, [1148]); (1151, [1150]); (1153, [1152]); (1163, [1162]); (1165,
   [1164]); (1167, [1166]); (1169, [1168]); (1171, [1170]); (1173, [1172]);
   (1175, [1174]); (1177, [1176]); (1179, [1178]); (1181, [1180]); (1183,
   [1182]); (1185, [1184]); (1187, [1186]); (1189, [1188]); (1191, [1190]);
   (1193, [1192]); (1195, [1194]); (1197, [1196]); (1199, [1198]); (1201,
   [1200]); (1203, [1202]); (1205, [1204]); (1207, [1206]); (1209, [1208]);
   (1211, [1210]); (1213, [1212]); (1215, [1214]); (1218, [1217]); (1220,
   [1219]); (1222, [1221]); (1224, [1223]); (1226, [1225]); (1228, [1227]);
   (1230, [1229]); (1231, [1216]); (1233, [1232]); (1235, [1234]); (1237,
   [1236]); (1239, [1238]); (1241, [1240]); (1243, [1242]); (1245, [1244]);
   (1247, [1246]); (1249, [1248]); (1251, [1250]); (1253, [1252]); (1255,
   [1254]); (1257, [1256]); (1259, [1258]); (1261, [1260]); (1263, [1262]);
   (1265, [1264]); (1267, [1266]); (1269, [1268]); (1271, [1270]); (1273,
   [1272]); (1275, [1274]); (1277, [1276]); (1279, [1278]); (1281, [1280]);
   (1283, [1282]); (1285, [1284]); (1287, [1286]); (1289, [1288]); (1291,
   [1290]); (1293, [1292]); (1295, [1294]); (1297, [1296]); (1299, [1298]);
   (1301, [1300]); (1303, [1302]); (1305, [1304]); (1307, [1306]); (1309,
   [1308]); (1311, [1310]); (1313, [1312]); (1315, [1314]); (1317, [1316]);
   (1319, [1318]); (1321, [1320]); (1323, [1322]); (1325, [1324]); (1327,
   [1326]); (1377, [1329]); (1378, [1330]); (1379, [1331]); (1380, [1332]);
   (1381, [1333]); (1382, [1334]); (1383, [1335]); (1384, [1336]); (1385,
   [1337]); (1386, [1338]); (1387, [1339]); (1388, [1340]); (1389, [1341]);
   (1390, [1342]); (1391, [1343]); (1392, [1344]); (1393, [1345]); (1394,
   [1346]); (1395, [1347]); (1396, [1348]); (1397, [1349]); (1398, [1350]);
   (1399, [1351]); (1400, [1352]); (1401, [1353]); (1402, [1354]); (1403,
   [1355]); (1404, [1356]); (1405, [1357]); (1406, [1358]); (1407, [1359]);
   (1408, [1360]); (1409, [1361]); (1410, [1362]); (1411, [1363]); (1412,
   [1364]); (1413, [1365]); (1414, [1366]); (1415, [1333; 1410]); (5112,
   [5104]); (5113, [5105]); (5114, [5106]); (5115, [5107]); (5116, [5108]);
   (5117, [5109]); (7296, [1042]); (7297, [1044]); (7298, [1054]); (7299,
   [1057]); (7300, [1058]); (7301, [1058]); (7302, [1066]); (7303, [1122]);
   (7304, [42570]); (7545, [42877]); (7549, [11363]); (7566, [42950]);
   (7681, [7680]); (7683, [7682]); (7685, [7684]); (7687, [7686]); (7689,
   [7688]); (7691, [7690]); (7693, [7692]); (7695, [7694]); (7697, [7696]);
   (7699, [7698]); (7701, [7700]); (7703, [7702]); (7705, [7704]); (7707,
   [7706]); (7709, [7708]); (7711, [7710]); (7713, [7712]); (7715, [7714]);
   (7717, [7716]); (7719, [7718]); (7721, [7720]); (7723, [7722]); (7725,
   [7724]); (7727, [7726]); (7729, [7728]); (7731, [7730]); (7733, [7732]);
   (7735, [7734]); (7737, [7736]); (7739, [7738]); (7741, [7740]); (7743,
   [7742]); (7745, [7744]); (7747, [7746]); (7749, [7748]); (7751, [7750]);
   (7753, [7752]); (7755, [7754]); (7757, [7756]); (7759, [7758]); (7761,
   [7760]); (7763, [7762]); (7765, [7764]); (7767, [7766]); (7769, [7768]);
   (7771, [7770]); (7773, [7772]); (7775, [7774]); (7777, [7776]); (7779,
   [7778]); (7781, [7780]); (7783, [7782]); (7785, [7784]); (7787, [7786]);
   (7789, [7788]); (7791, [7790]); (7793, [7792]); (7795, [7794]); (7797,
   [7796]); (7799, [7798]); (7801, [7800]); (7803, [7802]); (7805, [7804]);
   (7807, [7806]); (7809, [7808]); (7811, [7810]); (7813, [7812]); (7815,
   [7814]); (7817, [7816]); (7819, [7818]); (7821, [7820]); (7823, [7822]);
   (7825, [7824]); (7827, [7826]); (7829, [7828]); (7830, [72; 817]); (7831,
   [84; 776]); (7832, [87; 778]); (7833, [89; 778]); (7834, [65; 702]);
   (7835, [7776]); (7841, [7840]); (7843, [7842]); (7845, [7844]); (7847,
   [7846]); (7849, [7848]); (7851, [7850]); (7853, [7852]); (7855, [7854]);
   (7857, [7856]); (7859, [7858]); (7861, [7860]); (7863, [7862]); (7865,
   [7864]); (7867, [7866]); (7869, [7868]); (7871, [7870]); (7873, [7872]);
   (7875, [7874]); (7877, [7876]); (7879, [7878]); (7881, [7880]); (7883,
   [7882]); (7885, [7884]); (7887, [7886]); (7889, [7888]); (7891, [7890]);
   (7893, [7892]); (7895, [7894]); (7897, [7896]); (7899, [7898]); (7901,
   [7900]); (7903, [7902]); (7905, [7904]); (7907, [7906]); (7909, [7908]);
   (7911, [7910]); (7913, [7912]); (7915, [7914]); (7917, [7916]); (7919,
   [7918]); (7921, [7920]); (7923, [7922]); (7925, [7924]); (7927, [7926]);
   (7929, [7928]); (7931, [7930]); (7933, [7932]); (7935, [7934]); (7936,
   [7944]); (7937, [7945]); (7938, [7946]); (7939, [7947]); (7940, [7948]);
   (7941, [7949]); (7942, [7950]); (7943, [7951]); (7952, [7960]); (7953,
   [7961]); (7954, [7962]); (7955, [7963]); (7956, [7964]); (7957, [7965]);
   (7968, [7976]); (7969, [7977]); (7970, [7978]); (7971, [7979]); (7972,
   [7980]); (7973, [7981]); (7974, [7982]); (7975, [7983]); (7984, [7992]);
   (7985, [7993]); (7986, [7994]); (7987, [7995]); (7988, [7996]); (7989,
   [7997]); (7990, [7998]); (7991, [7999]); (8000, [8008]); (8001, [8009]);
   (8002, [8010]); (8003, [8011]); (8004, [8012]); (8005, [8013]); (8016,
   [933; 787]); (8017, [8025]); (8018, [933; 787; 768]); (8019, [8027]);
   (8020, [933; 787; 769]); (8021, [8029]); (8022, [933; 787; 834]); (8023,
   [8031]); (8032, [8040]); (8033, [8041]); (8034, [8042]); (8035, [8043]);
   (8036, [8044]); (8037, [8045]); (8038, [8046]); (8039, [8047]); (8048,
   [8122]); (8049, [8123]); (8050, [8136]); (8051, [8137]); (8052, [8138]);
   (8053, [8139]); (8054, [8154]); (8055, [8155]); (8056, [8184]); (8057,
   [8185]); (8058, [8170]); (8059, [8171]); (8060, [8186]); (8061, [8187]);
   (8064, [8072]); (8065, [8073]); (8066, [8074]); (8067, [8075]); (8068,
   [8076]); (8069, [8077]); (8070, [8078]); (8071, [8079]); (8080, [8088]);
   (8081, [8089]); (8082, [8090]); (8083, [8091]); (8084, [8092]); (8085,
   [8093]); (8086, [8094]); (8087, [8095]); (8096, [8104]); (8097, [8105]);
   (8098, [8106]); (8099, [8107]); (8100, [8108]); (8101, [8109]); (8102,
   [8110]); (8103, [8111]); (8112, [8120]); (8113, [8121]); (8114, [8122;
   837]); (8115, [8124]); (8116, [902; 837]); (8118, [913; 834]); (8119,
   [913; 834; 837]); (8126, [921]); (8130, [8138; 837]); (8131, [8140]);
   (8132, [905; 837]); (8134, [919; 834]); (8135, [919; 834; 837]); (8144,
   [8152]); (8145, [8153]); (8146, [921; 776; 768]); (8147, [921; 776;
   769]); (8150, [921; 834]); (8151, [921; 776; 834]); (8160, [8168]);
   (8161, [8169]); (8162, [933; 776; 768]); (8163, [933; 776; 769]); (8164,
   [929; 787]); (8165, [8172]); (8166, [933; 834]); (8167, [933; 776; 834]);
   (8178, [8186; 837]); (8179, [8188]); (8180, [911; 837]); (8182, [937;
   834]); (8183, [937; 834; 837]); (8526, [8498]); (8560, [8544]); (8561,
   [8545]); (8562, [8546]); (8563, [8547]); (8564, [8548]); (8565, [8549]);
   (8566, [8550]); (8567, [8551]); (8568, [8552]); (8569, [8553]); (8570,
   [8554]); (8571, [8555]); (8572, [8556]); (8573, [8557]); (8574, [8558]);
   (8575, [8559]); (8580, [8579]); (9424, [9398]); (9425, [9399]); (9426,
   [9400]); (9427, [9401]); (9428, [9402]); (9429, [9403]); (9430, [9404]);
   (9431, [9405]); (9432, [9406]); (9433, [9407]); (9434, [9408]); (9435,
   [9409]); (9436, [9410]); (9437, [9411]); (9438, [9412]); (9439, [9413]);
   (9440, [9414]); (9441, [9415]); (9442, [9416]); (9443, [9417]); (9444,
   [9418]); (9445, [9419]); (9446, [9420]); (9447, [9421]); (9448, [9422]);
   (9449, [9423]); (11312, [11264]); (11313, [11265]); (11314, [11266]);
   (11315, [11267]); (11316, [11268]); (11317, [11269]); (11318, [11270]);
   (11319, [11271]); (11320, [11272]); (11321, [11273]); (11322, [11274]);
   (11323, [11275]); (11324, [11276]); (11325, [11277]); (11326, [11278]);
   (11327, [11279]); (11328, [11280]); (11329, [11281]); (11330, [11282]);
   (11331, [11283]); (11332, [11284]); (11333, [11285]); (11334, [11286]);
   (11335, [11287]); (11336, [11288]); (11337, [11289]); (11338, [11290]);
   (11339, [11291]); (11340, [11292]); (11341, [11293]); (11342, [11294]);
   (11343, [11295]); (11344, [11296]); (11345, [11297]); (11346, [11298]);
   (11347, [11299]); (11348, [11300]); (11349, [11301]); (11350, [11302]);
   (11351, [11303]); (11352, [11304]); (11353, [11305]); (11354, [11306]);
   (11355, [11307]); (11356, [11308]); (11357, [11309]); (11358, [11310]);
   (11359, [11311]); (11361, [11360]); (11365, [570]); (11366, [574]);
   (11368, [11367]); (11370, [11369]); (11372, [11371]); (11379, [11378]);
   (11382, [11381]); (11393, [11392]); (11395, [11394]); (11397, [11396]);
   (11399, [11398]); (11401, [11400]); (11403, [11402]); (11405, [11404]);
   (11407, [11406]); (11409, [11408]); (11411, [11410]); (11413, [11412]);
   (11415, [11414]); (11417, [11416]); (11419, [11418]); (11421, [11420]);
   (11423, [11422]); (11425, [11424]); (11427, [11426]); (11429, [11428]);
   (11431, [11430]); (11433, [11432]); (11435, [11434]); (11437, [11436]);
   (11439, [11438]); (11441, [11440]); (11443, [11442]); (11445, [11444]);
   (11447, [11446]); (11449, [11448]); (11451, [11450]); (11453, [11452]);
   (11455, [11454]); (11457, [11456]); (11459, [11458]); (11461, [11460]);
   (11463, [11462]); (11465, [11464]); (11467, [11466]); (11469, [11468]);
   (11471, [11470]); (11473, [11472]); (11475, [11474]); (11477, [11476]);
   (11479, [11478]); (11481, [11480]); (11483, [11482]); (11485, [11484]);
   (11487, [11486]); (11489, [11488]); (11491, [11490]); (11500, [11499]);
   (11502, [11501]); (11507, [11506]); (11520, [4256]); (11521, [4257]);
   (11522, [4258]); (11523, [4259]); (11524, [4260]); (11525, [4261]);
   (11526, [4262]); (11527, [4263]); (11528, [4264]); (11529, [4265]);
   (11530, [4266]); (11531, [4267]); (11532, [4268]); (11533, [4269]);
   (11534, [4270]); (11535, [4271]); (11536, [4272]); (11537, [4273]);
   (11538, [4274]); (11539, [4275]); (11540, [4276]); (11541, [4277]);
   (11542, [4278]); (11543, [4279]); (11544, [4280]); (11545, [4281]);
   (11546, [4282]); (11547, [4283]); (11548, [4284]); (11549, [4285]);
   (11550, [4286]); (11551, [4287]); (11552, [4288]); (11553, [4289]);
   (11554, [4290]); (11555, [4291]); (11556, [4292]); (11557, [4293]);
   (11559, [4295]); (11565, [4301]); (42561, [42560]); (42563, [42562]);
   (42565, [42564]); (42567, [42566]); (42569, [42568]); (42571, [42570]);
   (42573, [42572]); (42575, [42574]); (42577, [42576]); (42579, [42578]);
   (42581, [42580]); (42583, [42582]); (42585, [42584]); (42587, [42586]);
   (42589, [42588]); (42591, [42590]); (42593, [42592]); (42595, [42594]);
   (42597, [42596]); (42599, [42598]); (42601, [42600]); (42603, [42602]);
   (42605, [42604]); (42625, [42624]); (42627, [42626]); (42629, [42628]);
   (42631, [42630]); (42633, [42632]); (42635, [42634]); (42637, [42636]);
   (42639, [42638]); (42641, [42640]); (42643, [42642]); (42645, [42644]);
   (42647, [42646]); (42649, [42648]); (42651, [42650]); (42787, [42786]);
   (42789, [42788]); (42791, [42790]); (42793, [42792]); (42795, [42794]);
   (42797, [42796]); (42799, [42798]); (42803, [42802]); (42805, [42804]);
   (42807, [42806]); (42809, [42808]); (42811, [42810]); (42813, [42812]);
   (42815, [42814]); (42817, [42816]); (42819, [42818]); (42821, [42820]);
   (42823, [42822]); (42825, [42824]); (42827, [42826]); (42829, [42828]);
   (42831, [42830]); (42833, [42832]); (42835, [42834]); (42837, [42836]);
   (42839, [42838]); (42841, [42840]); (42843, [42842]); (42845, [42844]);
   (42847, [42846]); (42849, [42848]); (42851, [42850]); (42853, [42852]);
   (42855, [42854]); (42857, [42856]); (42859, [42858]); (42861, [42860]);
   (42863, [42862]); (42874, [42873]); (42876, [42875]); (42879, [42878]);
   (42881, [42880]); (42883, [42882]); (42885, [42884]); (42887, [42886]);
   (42892, [42891]); (42897, [42896]); (42899, [42898]); (42900, [42948]);
   (42903, [42902]); (42905, [42904]); (42907, [42906]); (42909, [42908]);
   (42911, [42910]); (42913, [42912]); (42915, [42914]); (42917, [42916]);
   (42919, [42918]); (42921, [42920]); (42933, [42932]); (42935, [42934]);
   (42937, [42936]); (42939, [42938]); (42941, [42940]); (42943, [42942]);
   (42945, [42944]); (42947, [42946]); (42952, [42951]); (42954, [42953]);
   (42961, [42960]); (42967, [42966]); (42969, [42968]); (42998, [42997]);
   (43859, [42931]); (43888, [5024]); (43889, [5025]); (43890, [5026]);
   (43891, [5027]); (43892, [5028]); (43893, [5029]); (43894, [5030]);
   (43895, [5031]); (43896, [5032]); (43897, [5033]); (43898, [5034]);
   (43899, [5035]); (43900, [5036]); (43901, [5037]); (43902, [5038]);
   (43903, [5039]); (43904, [5040]); (43905, [5041]); (43906, [5042]);
   (43907, [5043]); (43908, [5044]); (43909, [5045]); (43910, [5046]);
   (43911, [5047]); (43912, [5048]); (43913, [5049]); (43914, [5050]);
   (43915, [5051]); (43916, [5052]); (43917, [5053]); (43918, [5054]);
   (43919, [5055]); (43920, [5056]); (43921, [5057]); (43922, [5058]);
   (43923, [5059]); (43924, [5060]); (43925, [5061]); (43926, [5062]);
   (43927, [5063]); (43928, [5064]); (43929, [5065]); (43930, [5066]);
   (43931, [5067]); (43932, [5068]); (43933, [5069]); (43934, [5070]);
   (43935, [5071]); (43936, [5072]); (43937, [5073]); (43938, [5074]);
   (43939, [5075]); (43940, [5076]); (43941, [5077]); (43942, [5078]);
   (43943, [5079]); (43944, [5080]); (43945, [5081]); (43946, [5082]);
   (43947, [5083]); (43948, [5084]); (43949, [5085]); (43950, [5086]);
   (43951, [5087]); (43952, [5088]); (43953, [5089]); (43954, [5090]);
   (43955, [5091]); (43956, [5092]); (43957, [5093]); (43958, [5094]);
   (43959, [5095]); (43960, [5096]); (43961, [5097]); (43962, [5098]);
   (43963, [5099]); (43964, [5100]); (43965, [5101]); (43966, [5102]);
   (43967, [5103]); (64256, [70; 102]); (64257, [70; 105]); (64258, [70;
   108]); (64259, [70; 102; 105]); (64260, [70; 102; 108]); (64261, [83;
   116]); (64262, [83; 116]); (64275, [1348; 1398]); (64276, [1348; 1381]);
   (64277, [1348; 1387]); (64278, [1358; 1398]); (64279, [1348; 1389]);
   (65345, [65313]); (65346, [65314]); (65347, [65315]); (65348, [65316]);
   (65349, [65317]); (65350, [65318]); (65351, [65319]); (65352, [65320]);
   (65353, [65321]); (65354, [65322]); (65355, [65323]); (65356, [65324]);
   (65357, [65325]); (65358, [65326]); (65359, [65327]); (65360, [65328]);
   (65361, [65329]); (65362, [65330]); (65363, [65331]); (65364, [65332]);
   (65365, [65333]); (65366, [65334]); (65367, [65335]); (65368, [65336]);
   (65369, [65337]); (65370, [65338]); (66600, [66560]); (66601, [66561]);
   (66602, [66562]); (66603, [66563]); (66604, [66564]); (66605, [66565]);
   (66606, [66566]); (66607, [66567]); (66608, [66568]); (66609, [66569]);
   (66610, [66570]); (66611, [66571]); (66612, [66572]); (66613, [66573]);
   (66614, [66574]); (66615, [66575]); (66616, [66576]); (66617, [66577]);
   (66618, [66578]); (66619, [66579]); (66620, [66580]); (66621, [66581]);
   (66622, [66582]); (66623, [66583]); (66624, [66584]); (66625, [66585]);
   (66626, [66586]); (66627, [66587]); (66628, [66588]); (66629, [66589]);
   (66630, [66590]); (66631, [66591]); (66632, [66592]); (66633, [66593]);
   (66634, [66594]); (66635, [66595]); (66636, [66596]); (66637, [66597]);
   (66638, [66598]); (66639, [66599]); (66776, [66736]); (66777, [66737]);
   (66778, [66738]); (66779, [66739]); (66780, [66740]); (66781, [66741]);
   (66782, [66742]); (66783, [66743]); (66784, [66744]); (66785, [66745]);
   (66786, [66746]); (66787, [66747]); (66788, [66748]); (66789, [66749]);
   (66790, [66750]); (66791, [66751]); (66792, [66752]); (66793, [66753]);
   (66794, [66754]); (66795, [66755]); (66796, [66756]); (66797, [66757]);
   (66798, [66758]); (66799, [66759]); (66800, [66760]); (66801, [66761]);
   (66802, [66762]); (66803, [66763]); (66804, [66764]); (66805, [66765]);
   (66806, [66766]); (66807, [66767]); (66808, [66768]); (66809, [66769]);
   (66810, [66770]); (66811, [66771]); (66967, [66928]); (66968, [66929]);
   (66969, [66930]); (66970, [66931]); (66971, [66932]); (66972, [66933]);
   (66973, [66934]); (66974, [66935]); (66975, [66936]); (66976, [66937]);
   (66977, [66938]); (66979, [66940]); (66980, [66941]); (66981, [66942]);
   (66982, [66943]); (66983, [66944]); (66984, [66945]); (66985, [66946]);
   (66986, [66947]); (66987, [66948]); (66988, [66949]); (66989, [66950]);
   (66990, [66951]); (66991, [66952]); (66992, [66953]); (66993, [66954]);
   (66995, [66956]); (66996, [66957]); (66997, [66958]); (66998, [66959]);
   (66999, [66960]); (67000, [66961]); (67001, [66962]); (67003, [66964]);
   (67004, [66965]); (68800, [68736]); (68801, [68737]); (68802, [68738]);
   (68803, [68739]); (68804, [68740]); (68805, [68741]); (68806, [68742]);
   (68807, [68743]); (68808, [68744]); (68809, [68745]); (68810, [68746]);
   (68811, [68747]); (68812, [68748]); (68813, [68749]); (68814, [68750]);
   (68815, [68751]); (68816, [68752]); (68817, [68753]); (68818, [68754]);
   (68819, [68755]); (68820, [68756]); (68821, [68757]); (68822, [68758]);
   (68823, [68759]); (68824, [68760]); (68825, [68761]); (68826, [68762]);
   (68827, [68763]); (68828, [68764]); (68829, [68765]); (68830, [68766]);
   (68831, [68767]); (68832, [68768]); (68833, [68769]); (68834, [68770]);
   (68835, [68771]); (68836, [68772]); (68837, [68773]); (68838, [68774]);
   (68839, [68775]); (68840, [68776]); (68841, [68777]); (68842, [68778]);
   (68843, [68779]); (68844, [68780]); (68845, [68781]); (68846, [68782]);
   (68847, [68783]); (68848, [68784]); (68849, [68785]); (68850, [68786]);
   (71872, [71840]); (71873, [71841]); (71874, [71842]); (71875, [71843]);
   (71876, [71844]); (71877, [71845]); (71878, [71846]); (71879, [71847]);
   (71880, [71848]); (71881, [71849]); (71882, [71850]); (71883, [71851]);
   (71884, [71852]); (71885, [71853]); (71886, [71854]); (71887, [71855]);
   (71888, [71856]); (71889, [71857]); (71890, [71858]); (71891, [71859]);
   (71892, [71860]); (71893, [71861]); (71894, [71862]); (71895, [71863]);
   (71896, [71864]); (71897, [71865]); (71898, [71866]); (71899, [71867]);
   (71900, [71868]); (71901, [71869]); (71902, [71870]); (71903, [71871]);
   (93792, [93760]); (93793, [93761]); (93794, [93762]); (93795, [93763]);
   (93796, [93764]); (93797, [93765]); (93798, [93766]); (93799, [93767]);
   (93800, [93768]); (93801, [93769]); (93802, [93770]); (93803, [93771]);
   (93804, [93772]); (93805, [93773]); (93806, [93774]); (93807, [93775]);
   (93808, [93776]); (93809, [93777]); (93810, [93778]); (93811, [93779]);
   (93812, [93780]); (93813, [93781]); (93814, [93782]); (93815, [93783]);
   (93816, [93784]); (93817, [93785]); (93818, [93786]); (93819, [93787]);
   (93820, [93788]); (93821, [93789]); (93822, [93790]); (93823, [93791]);
   (125218, [125184]); (125219, [125185]); (125220, [125186]); (125221,
   [125187]); (125222, [125188]); (125223, [125189]); (125224, [125190]);
   (125225, [125191]); (125226, [125192]); (125227, [125193]); (125228,
   [125194]); (125229, [125195]); (125230, [125196]); (125231, [125197]);
   (125232, [125198]); (125233, [125199]); (125234, [125200]); (125235,
   [125201]); (125236, [125202]); (125237, [125203]); (125238, [125204]);
   (125239, [125205]); (125240, [125206]); (125241, [125207]); (125242,
   [125208]); (125243, [125209]); (125244, [125210]); (125245, [125211]);
   (125246, [125212]); (125247, [125213]); (125248, [125214]); (125249,
   [125215]); (125250, [125216]); (125251, [125217])
  ]%N.

(** The property Cased, as inclusive ranges. *)
Definition cased_ranges : list (N * N) :=
  [
   (170, 170); (181, 181); (186, 186); (192, 214); (216, 246); (248, 442);
   (444, 447); (452, 659); (661, 696); (704, 705); (736, 740); (837, 837);
   (880, 883); (886, 887); (890, 893); (895, 895); (902, 902); (904, 906);
   (908, 908); (910, 929); (931, 1013); (1015, 1153); (1162, 1327); (1329,
   1366); (1376, 1416); (4256, 4293); (4295, 4295); (4301, 4301); (4304,
   4346); (4349, 4351); (5024, 5109); (5112, 5117); (7296, 7304); (7312,
   7354); (7357, 7359); (7424, 7615); (7680, 7957); (7960, 7965); (7968,
   8005); (8008, 8013); (8016, 8023); (8025, 8025); (8027, 8027); (8029,
   8029); (8031, 8061); (8064, 8116); (8118, 8124); (8126, 8126); (8130,
   8132); (8134, 8140); (8144, 8147); (8150, 8155); (8160, 8172); (8178,
   8180); (8182, 8188); (8305, 8305); (8319, 8319); (8336, 8348); (8450,
   8450); (8455, 8455); (8458, 8467); (8469, 8469); (8473, 8477); (8484,
   8484); (8486, 8486); (8488, 8488); (8490, 8493); (8495, 8500); (8505,
   8505); (8508, 8511); (8517, 8521); (8526, 8526); (8544, 8575); (8579,
   8580); (9398, 9449); (11264, 11492); (11499, 11502); (11506, 11507);
   (11520, 11557); (11559, 11559); (11565, 11565); (42560, 42605); (42624,
   42653); (42786, 42887); (42891, 42894); (42896, 42954); (42960, 42961);
   (42963, 42963); (42965, 42969); (42997, 42998); (43000, 43002); (43824,
   43866); (43868, 43880); (43888, 43967); (64256, 64262); (64275, 64279);
   (65313, 65338); (65345, 65370); (66560, 66639); (66736, 66771); (66776,
   66811); (66928, 66938); (66940, 66954); (66956, 66962); (66964, 66965);
   (66967, 66977); (66979, 66993); (66995, 67001); (67003, 67004); (67456,
   67456); (67459, 67461); (67463, 67504); (67506, 67514); (68736, 68786);
   (68800, 68850); (71840, 71903); (93760, 93823); (119808, 119892);
   (119894, 119964); (119966, 119967); (119970, 119970); (119973, 119974);
   (119977, 119980); (119982, 119993); (119995, 119995); (119997, 120003);
   (120005, 120069); (120071, 120074); (120077, 120084); (120086, 120092);
   (120094, 120121); (120123, 120126); (120128, 120132); (120134, 120134);
   (120138, 120144); (120146, 120485); (120488, 120512); (120514, 120538);
   (120540, 120570); (120572, 120596); (120598, 120628); (120630, 120654);
   (120656, 120686); (120688, 120712); (120714, 120744); (120746, 120770);
   (120772, 120779); (122624, 122633); (122635, 122654); (125184, 125251);
   (127280, 127305); (127312, 127337); (127344, 127369)
  ]%N.

(** The property Case_Ignorable, as inclusive ranges. *)
Definition case_ignorable_ranges : list (N * N) :=
  [
   (168, 168); (173, 173); (175, 175); (180, 180); (183, 184); (688, 879);
   (884, 885); (890, 890); (900, 901); (903, 903); (1155, 1161); (1369,
   1369); (1375, 1375); (1425, 1469); (1471, 1471); (1473, 1474); (1476,
   1477); (1479, 1479); (1524, 1524); (1536, 1541); (1552, 1562); (1564,
   1564); (1600, 1600); (1611, 1631); (1648, 1648); (1750, 1757); (1759,
   1768); (1770, 1773); (1807, 1807); (1809, 1809); (1840, 1866); (1958,
   1968); (2027, 2037); (2042, 2042); (2045, 2045); (2070, 2093); (2137,
   2139); (2184, 2184); (2192, 2193); (2200, 2207); (2249, 2306); (2362,
   2362); (2364, 2364); (2369, 2376); (2381, 2381); (2385, 2391); (2402,
   2403); (2417, 2417); (2433, 2433); (2492, 2492); (2497, 2500); (2509,
   2509); (2530, 2531); (2558, 2558); (2561, 2562); (2620, 2620); (2625,
   2626); (2631, 2632); (2635, 2637); (2641, 2641); (2672, 2673); (2677,
   2677); (2689, 2690); (2748, 2748); (2753, 2757); (2759, 2760); (2765,
   2765); (2786, 2787); (2810, 2815); (2817, 2817); (2876, 2876); (2879,
   2879); (2881, 2884); (2893, 2893); (2901, 2902); (2914, 2915); (2946,
   2946); (3008, 3008); (3021, 3021); (3072, 3072); (3076, 3076); (3132,
   3132); (3134, 3136); (3142, 3144); (3146, 3149); (3157, 3158); (3170,
   3171); (3201, 3201); (3260, 3260); (3263, 3263); (3270, 3270); (3276,
   3277); (3298, 3299); (3328, 3329); (3387, 3388); (3393, 3396); (3405,
   3405); (3426, 3427); (3457, 3457); (3530, 3530); (3538, 3540); (3542,
   3542); (3633, 3633); (3636, 3642); (3654, 3662); (3761, 3761); (3764,
   3772); (3782, 3782); (3784, 3789); (3864, 3865); (3893, 3893); (3895,
   3895); (3897, 3897); (3953, 3966); (3968, 3972); (3974, 3975); (3981,
   3991); (3993, 4028); (4038, 4038); (4141, 4144); (4146, 4151); (4153,
   4154); (4157, 4158); (4184, 4185); (4190, 4192); (4209, 4212); (4226,
   4226); (4229, 4230); (4237, 4237); (4253, 4253); (4348, 4348); (4957,
   4959); (5906, 5908); (5938, 5939); (5970, 5971); (6002, 6003); (6068,
   6069); (6071, 6077); (6086, 6086); (6089, 6099); (6103, 6103); (6109,
   6109); (6155, 6159); (6211, 6211); (6277, 6278); (6313, 6313); (6432,
   6434); (6439, 6440); (6450, 6450); (6457, 6459); (6679, 6680); (6683,
   6683); (6742, 6742); (6744, 6750); (6752, 6752); (6754, 6754); (6757,
   6764); (6771, 6780); (6783, 6783); (6823, 6823); (6832, 6862); (6912,
   6915); (6964, 6964); (6966, 6970); (6972, 6972); (6978, 6978); (7019,
   7027); (7040, 7041); (7074, 7077); (7080, 7081); (7083, 7085); (7142,
   7142); (7144, 7145); (7149, 7149); (7151, 7153); (7212, 7219); (7222,
   7223); (7288, 7293); (7376, 7378); (7380, 7392); (7394, 7400); (7405,
   7405); (7412, 7412); (7416, 7417); (7468, 7530); (7544, 7544); (7579,
   7679); (8125, 8125); (8127, 8129); (8141, 8143); (8157, 8159); (8173,
   8175); (8189, 8190); (8203, 8207); (8216, 8217); (8228, 8228); (8231,
   8231); (8234, 8238); (8288, 8292); (8294, 8303); (8305, 8305); (8319,
   8319); (8336, 8348); (8400, 8432); (11388, 11389); (11503, 11505);
   (11631, 11631); (11647, 11647); (11744, 11775); (11823, 11823); (12293,
   12293); (12330, 12333); (12337, 12341); (12347, 12347); (12441, 12446);
   (12540, 12542); (40981, 40981); (42232, 42237); (42508, 42508); (42607,
   42610); (42612, 42621); (42623, 42623); (42652, 42655); (42736, 42737);
   (42752, 42785); (42864, 42864); (42888, 42890); (42994, 42996); (43000,
   43001); (43010, 43010); (43014, 43014); (43019, 43019); (43045, 43046);
   (43052, 43052); (43204, 43205); (43232, 43249); (43263, 43263); (43302,
   43309); (43335, 43345); (43392, 43394); (43443, 43443); (43446, 43449);
   (43452, 43453); (43471, 43471); (43493, 43494); (43561, 43566); (43569,
   43570); (43573, 43574); (43587, 43587); (43596, 43596); (43632, 43632);
   (43644, 43644); (43696, 43696); (43698, 43700); (43703, 43704); (43710,
   43711); (43713, 43713); (43741, 43741); (43756, 43757); (43763, 43764);
   (43766, 43766); (43867, 43871); (43881, 43883); (44005, 44005); (44008,
   44008); (44013, 44013); (64286, 64286); (64434, 64450); (65024, 65039);
   (65043, 65043); (65056, 65071); (65106, 65106); (65109, 65109); (65279,
   65279); (65287, 65287); (65294, 65294); (65306, 65306); (65342, 65342);
   (65344, 65344); (65392, 65392); (65438, 65439); (65507, 65507); (65529,
   65531); (66045, 66045); (66272, 66272); (66422, 66426); (67456, 67461);
   (67463, 67504); (67506, 67514); (68097, 68099); (68101, 68102); (68108,
   68111); (68152, 68154); (68159, 68159); (68325, 68326); (68900, 68903);
   (69291, 69292); (69446, 69456); (69506, 69509); (69633, 69633); (69688,
   69702); (69744, 69744); (69747, 69748); (69759, 69761); (69811, 69814);
   (69817, 69818); (69821, 69821); (69826, 69826); (69837, 69837); (69888,
   69890); (69927, 69931); (69933, 69940); (70003, 70003); (70016, 70017);
   (70070, 70078); (70089, 70092); (70095, 70095); (70191, 70193); (70196,
   70196); (70198, 70199); (70206, 70206); (70367, 70367); (70371, 70378);
   (70400, 70401); (70459, 70460); (70464, 70464); (70502, 70508); (70512,
   70516); (70712, 70719); (70722, 70724); (70726, 70726); (70750, 70750);
   (70835, 70840); (70842, 70842); (70847, 70848); (70850, 70851); (71090,
   71093); (71100, 71101); (71103, 71104); (71132, 71133); (71219, 71226);
   (71229, 71229); (71231, 71232); (71339, 71339); (71341, 71341); (71344,
   71349); (71351, 71351); (71453, 71455); (71458, 71461); (71463, 71467);
   (71727, 71735); (71737, 71738); (71995, 71996); (71998, 71998); (72003,
   72003); (72148, 72151); (72154, 72155); (72160, 72160); (72193, 72202);
   (72243, 72248); (72251, 72254); (72263, 72263); (72273, 72278); (72281,
   72283); (72330, 72342); (72344, 72345); (72752, 72758); (72760, 72765);
   (72767, 72767); (72850, 72871); (72874, 72880); (72882, 72883); (72885,
   72886); (73009, 73014); (73018, 73018); (73020, 73021); (73023, 73029);
   (73031, 73031); (73104, 73105); (73109, 73109); (73111, 73111); (73459,
   73460); (78896, 78904); (92912, 92916); (92976, 92982); (92992, 92995);
   (94031, 94031); (94095, 94111); (94176, 94177); (94179, 94180); (110576,
   110579); (110581, 110587); (110589, 110590); (113821, 113822); (113824,
   113827); (118528, 118573); (118576, 118598); (119143, 119145); (119155,
   119170); (119173, 119179); (119210, 119213); (119362, 119364); (121344,
   121398); (121403, 121452); (121461, 121461); (121476, 121476); (121499,
   121503); (121505, 121519); (122880, 122886); (122888, 122904); (122907,
   122913); (122915, 122916); (122918, 122922); (123184, 123197); (123566,
   123566); (123628, 123631); (125136, 125142); (125252, 125259); (127995,
   127999); (917505, 917505); (917536, 917631); (917760, 917999)
  ]%N.

(** The white space of [str.isspace] outside ASCII. *)
Definition space_table : list N :=
  [
   133; 160; 5760; 8192; 8193; 8194; 8195; 8196; 8197; 8198; 8199; 8200;
   8201; 8202; 8232; 8233; 8239; 8287; 12288
  ]%N.

(** The decimal digits outside ASCII: each entry is the code point of a
    digit zero, followed by the digits one to nine in order. *)
Definition digit_zero_table : list N :=
  [
   1632; 1776; 1984; 2406; 2534; 2662; 2790; 2918; 3046; 3174; 3302; 3430;
   3558; 3664; 3792; 3872; 4160; 4240; 6112; 6160; 6470; 6608; 6784; 6800;
   6992; 7088; 7232; 7248; 42528; 43216; 43264; 43472; 43504; 43600; 44016;
   65296; 66720; 68912; 69734; 69872; 69942; 70096; 70384; 70736; 70864;
   71248; 71360; 71472; 71904; 72016; 72784; 73040; 73120; 92768; 92864;
   93008; 120782; 120792; 120802; 120812; 120822; 123200; 123632; 125264;
   130032
  ]%N.


Fixpoint assoc {A} (cp : N) (t : list (N * A)) : option A :=
  match t with
  | [] => None
  | (k, v) :: t' => if (k =? cp)%N then Some v else assoc cp t'
  end.

Definition in_ranges (cp : N) (t : list (N * N)) : bool :=
  existsb (fun '(a, b) => (a <=? cp) && (cp <=? b))%N t.

Definition ascii_upper (cp : N) : bool := ((65 <=? cp) && (cp <=? 90))%N.
Definition ascii_lower (cp : N) : bool := ((97 <=? cp) && (cp <=? 122))%N.

(** [_PyUnicode_IsCased] *)
Definition cased (cp : N) : bool :=
  if (cp <? 128)%N then ascii_upper cp || ascii_lower cp
  else in_ranges cp cased_ranges.

(** [_PyUnicode_IsCaseIgnorable]: in ASCII the apostrophe, the full stop,
    the colon, the circumflex and the grave accent. *)
Definition case_ignorable (cp : N) : bool :=
  if (cp <? 128)%N then
    ((cp =? 39) || (cp =? 46) || (cp =? 58) || (cp =? 94) || (cp =? 96))%N
  else in_ranges cp case_ignorable_ranges.

(** [Py_UNICODE_ISSPACE] *)
Definition space (cp : N) : bool :=
  if (cp <? 128)%N then
    (((9 <=? cp) && (cp <=? 13)) || ((28 <=? cp) && (cp <=? 32)))%N
  else existsb (N.eqb cp) space_table.

(** [Py_UNICODE_TODECIMAL] *)
Definition decimal (cp : N) : option N :=
  if (cp <? 128)%N then
    if ((48 <=? cp) && (cp <=? 57))%N then Some (cp - 48)%N else None
  else
    option_map (fun z => (cp - z)%N)
      (List.find (fun z => (z <=? cp) && (cp <=? z + 9))%N digit_zero_table).

(** [_PyUnicode_ToLowerFull]; [None] when the character is its own image. *)
Definition to_lower (cp : N) : option (list N) :=
  if (cp <? 128)%N then
    if ascii_upper cp then Some [(cp + 32)%N] else None
  else assoc cp lower_table.

(** [_PyUnicode_ToTitleFull] *)
Definition to_title (cp : N) : option (list N) :=
  if (cp <? 128)%N then
    if ascii_lower cp then Some [(cp - 32)%N] else None
  else assoc cp title_table.

(** Whether, leaving out case-ignorable characters, a cased character
    comes next. *)
Fixpoint next_cased (l : list string) : bool :=
  match l with
  | [] => false
  | c :: l' =>
      match ord c with
      | Some cp => if case_ignorable cp then next_cased l' else cased cp
      | None => false
      end
  end.

(** [lower_ucs4]: the lower-case image of the character [c], whose code
    point is [cp]. A capital sigma (931) becomes the final sigma (962) when,
    case-ignorable characters left out, a cased character stands before it
    and none after it, and the small sigma (963) otherwise. [before] tells
    whether a cased character stands before, [l'] is what follows. *)
Definition lower_image (before : bool) (l' : list string) (c : string)
    (cp : N) : string :=
  if (cp =? 931)%N then
    if before && negb (next_cased l') then utf8 962 else utf8 963
  else
    match to_lower cp with
    | Some image => utf8s image
    | None => c
    end.

(** What [before] is for the character after one of code point [cp]. *)
Definition before_next (before : bool) (cp : N) : bool :=
  if case_ignorable cp then before else cased cp.

Fixpoint lower_chars (before : bool) (l : list string) : list string :=
  match l with
  | [] => []
  | c :: l' =>
      match ord c with
      | Some cp =>
          lower_image before l' c cp :: lower_chars (before_next before cp) l'
      | None => c :: lower_chars false l'
      end
  end.

(** [s.lower()] *)
Definition lower (s : string) : string :=
  cat (lower_chars false (chars s)).

(** [c.isspace()] for a character. *)
Definition is_space (c : string) : bool :=
  match ord c with
  | Some cp => space cp
  | None => false
  end.

Fixpoint lstrip_chars (l : list string) : list string :=
  match l with
  | [] => []
  | c :: l' => if is_space c then lstrip_chars l' else l
  end.

Fixpoint rstrip_chars (l : list string) : list string :=
  match l with
  | [] => []
  | c :: l' =>
      match rstrip_chars l' with
      | [] => if is_space c then [] else [c]
      | r => c :: r
      end
  end.

(** [s.strip()] *)
Definition strip (s : string) : string :=
  cat (rstrip_chars (lstrip_chars (chars s))).

(** [s.title()]: a character is given its title-case image when the
    character before it is not cased and its lower-case image otherwise.
    [previous_is_cased] is about the character just before, [before] is the
    one of [lower_image]. *)
Fixpoint title_chars (previous_is_cased before : bool) (l : list string)
  : list string :=
  match l with
  | [] => []
  | c :: l' =>
      match ord c with
      | Some cp =>
          (if previous_is_cased then lower_image before l' c cp
           else match to_title cp with
                | Some image => utf8s image
                | None => c
                end)
          :: title_chars (cased cp) (before_next before cp) l'
      | None => c :: title_chars false false l'
      end
  end.
Definition title (s : string) : string :=
  cat (title_chars false false (chars s)).

(** [s.split(sep)] for a one-character ASCII separator: never empty. *)
Fixpoint split (sep : ascii) (s : string) : list string :=
  match s with
  | EmptyString => [EmptyString]
  | String c s' =>
      if Ascii.eqb c sep then EmptyString :: split sep s'
      else match split sep s' with
           | [] => [String c EmptyString]
           | w :: ws => String c w :: ws
           end
  end.

(** [l[-1]] on a list of strings; the empty string stands for the
    [IndexError] that [split] can never cause. *)
Definition last_item (l : list string) : string := List.last l EmptyString.

(** [s.startswith(p)] *)
Fixpoint startswith (s p : string) : bool :=
  match p, s with
  | EmptyString, _ => true
  | String _ _, EmptyString => false
  | String a p', String b s' => Ascii.eqb a b && startswith s' p'
  end.

(** [p in s] for strings. *)
Fixpoint contains (p s : string) : bool :=
  startswith s p ||
  match s with
  | EmptyString => false
  | String _ s' => contains p s'
  end.

(** [sep.join(l)] *)
Fixpoint join (sep : string) (l : list string) : string :=
  match l with
  | [] => EmptyString
  | [x] => x
  | x :: rest => x +:+ sep +:+ join sep rest
  end.

(** [d.get(k, default)] on a dict literal, kept as the list of its items. *)
Fixpoint dict_get (d : list (string * string)) (k default : string) : string :=
  match d with
  | [] => default
  | (k', v) :: d' => if String.eqb k' k then v else dict_get d' k default
  end.

(** [x in l] for a list of strings. *)
Definition mem (x : string) (l : list string) : bool :=
  existsb (String.eqb x) l.

(** [sys.get_int_max_str_digits()], which the program leaves at its
    default. *)
Definition int_max_str_digits : nat := 4300.

(** [int(s)], first step: every character from 128 on is replaced, a white
    space by a blank and a decimal digit by its ASCII digit; any other one
    makes the conversion fail. ASCII characters are kept. *)
Fixpoint to_ascii (l : list string) : option string :=
  match l with
  | [] => Some EmptyString
  | c :: l' =>
      match ord c with
      | None => None
      | Some cp =>
          let here :=
            if (cp <? 128)%N then Some (byte cp)
            else if space cp then Some " "%char
            else option_map (fun d => byte (48 + d)%N) (decimal cp) in
          match here, to_ascii l' with
          | Some a, Some r => Some (String a r)
          | _, _ => None
          end
      end
  end.

(** The white space [PyLong_FromString] skips: TAB, LF, VT, FF, CR and the
    blank. *)
Definition is_c_space (c : ascii) : bool :=
  let n := Ascii.nat_of_ascii c in
  ((9 <=? n)%nat && (n <=? 13)%nat) || (n =? 32)%nat.

Fixpoint skip_c_space (s : string) : string :=
  match s with
  | String c s' => if is_c_space c then skip_c_space s' else s
  | EmptyString => EmptyString
  end.

(** The digits of the literal, which single underscores may separate, up
    to the white space that may end it: the value and the number of
    digits. *)
Fixpoint int_digits (s : string) (acc : Z) (count : nat) (after_digit : bool)
  : option (Z * nat) :=
  match s with
  | EmptyString => if after_digit then Some (acc, count) else None
  | String c s' =>
      if is_digit c then
        int_digits s' (10 * acc + (Z.of_nat (Ascii.nat_of_ascii c) - 48))
                   (S count) true
      else if Ascii.eqb c "_" && after_digit then
        int_digits s' acc count false
      else if after_digit && String.eqb (skip_c_space s) EmptyString then
        Some (acc, count)
      else None
  end.

End Py.

(** ** [app/utils/helpers.py]: the language normaliser *)

Definition language_map : list (string * string) :=
  [("english", "en"); ("eng", "en"); ("arabic", "ar"); ("ara", "ar")].

Definition normalize_language_code (language : string) : string :=
  let language := Py.strip (Py.lower language) in
  Py.dict_get language_map language language.


(** ** Exceptions, logging and the state-and-exception monad *)

Inductive exn : Type :=
| OSError (path : string)
| ValueError (msg : string)
| ValidationError (msg : string)
| InvalidId (oid : string)
| TypeError (msg : string)
| DuplicateKeyError
| HTTPException (status_code : Z) (detail : string).

Inductive result (A : Type) : Type :=
| Ok (a : A)
| Raise (e : exn).
Arguments Ok {A} a.
Arguments Raise {A} e.

Inductive level : Type := INFO | WARNING | ERROR.

(** One call of [logger.info], [logger.warning] or [logger.error]: the text
    of the message up to the interpolated exception, and that exception. *)
Record LogRecord : Type := mkLog {
  lr_level : level;
  lr_msg : string;
  lr_exc : option exn
}.

(** A Python coroutine over a mutable state [S]: an exception keeps the
    state changes made before it was raised. *)
Definition M (S A : Type) : Type := S -> result A * S.

Definition ret {S A} (a : A) : M S A := fun s => (Ok a, s).
Definition raise {S A} (e : exn) : M S A := fun s => (Raise e, s).
Definition bind {S A B} (m : M S A) (k : A -> M S B) : M S B :=
  fun s => match m s with
           | (Ok a, s') => k a s'
           | (Raise e, s') => (Raise e, s')
           end.
(** [try: m  except Exception as e: h e] *)
Definition try_except {S A} (m : M S A) (h : exn -> M S A) : M S A :=
  fun s => match m s with
           | (Ok a, s') => (Ok a, s')
           | (Raise e, s') => h e s'
           end.
(** [try: m  finally: fin] *)
Definition try_finally {S A} (m : M S A) (fin : M S unit) : M S A :=
  fun s => let '(r, s') := m s in
           match fin s' with
           | (Ok _, s'') => (r, s'')
           | (Raise e, s'') => (Raise e, s'')
           end.
(** [for x in l: body x] *)
Fixpoint for_each {S A} (l : list A) (body : A -> M S unit) : M S unit :=
  match l with
  | [] => fun s => (Ok tt, s)
  | x :: rest => fun s => match body x s with
                          | (Ok _, s') => for_each rest body s'
                          | (Raise e, s') => (Raise e, s')
                          end
  end.
Definition get {S} : M S S := fun s => (Ok s, s).
Definition modify {S} (f : S -> S) : M S unit := fun s => (Ok tt, f s).

Declare Scope py_scope.
Delimit Scope py_scope with py.
Notation "x <- m ;; k" := (bind m (fun x => k))
  (at level 90, m at next level, right associativity) : py_scope.
Notation "m ;;; k" := (bind m (fun _ => k))
  (at level 90, right associativity) : py_scope.
Open Scope py_scope.

(** ** [app/config.py] *)

Record Settings : Type := mkSettings {
  PORT : Z;
  AUDIO_FILES_PATH : string;
  MAX_FILE_SIZE : Z;
  ALLOWED_AUDIO_FORMATS : list string
}.

(** The values taken when no environment variable is set. *)
Definition default_settings : Settings :=
  {| PORT := 8000;
     AUDIO_FILES_PATH := "./audio_files";
     MAX_FILE_SIZE := 10485760;
     ALLOWED_AUDIO_FORMATS := ["mp3"; "wav"; "m4a"] |}.

(** ** [app/utils/helpers.py]: the file validator *)

(** Starlette's [UploadFile]: the declared size, file name and content type
    may each be [None]; [content] is what [read()] returns. *)
Record UploadFile : Type := mkUpload {
  size : option Z;
  filename : option string;
  content_type : option string;
  content : list Byte.byte
}.

(** Truth value of an optional int and of an optional str. *)
Definition truthy_int (o : option Z) : bool :=
  match o with Some n => negb (n =? 0) | None => false end.
Definition truthy_str (o : option string) : bool :=
  match o with Some s => negb (String.eqb s "") | None => false end.

Definition file_extension_of (name : string) : string :=
  Py.lower (Py.last_item (Py.split "." name)).

Definition size_message (st : Settings) : string :=
  "File size exceeds maximum allowed size of " +:+ pretty (MAX_FILE_SIZE st)
  +:+ " bytes".
Definition no_filename_message : string := "No filename provided".
Definition format_message (st : Settings) : string :=
  "File format not allowed. Allowed formats: "
  +:+ Py.join ", " (ALLOWED_AUDIO_FORMATS st).
Definition not_audio_message : string := "File is not an audio file".

(** The body of the [try] block of [validate_audio_file]. *)
Definition validate_audio_file_body (st : Settings) (file : UploadFile)
  : result (bool * option string) :=
  if truthy_int (size file) && (MAX_FILE_SIZE st <? default 0 (size file)) then
    Ok (false, Some (size_message st))
  else if negb (truthy_str (filename file)) then
    Ok (false, Some no_filename_message)
  else
    let file_extension := file_extension_of (default "" (filename file)) in
    if negb (Py.mem file_extension (ALLOWED_AUDIO_FORMATS st)) then
      Ok (false, Some (format_message st))
    else if truthy_str (content_type file)
            && negb (Py.startswith (default "" (content_type file)) "audio/") then
      Ok (false, Some not_audio_message)
    else Ok (true, None).

(** [validate_audio_file]: the [except Exception] clause turns anything the
    body raises into a failed validation. *)
Definition validate_audio_file (st : Settings) (file : UploadFile)
  : bool * option string :=
  match validate_audio_file_body st file with
  | Ok r => r
  | Raise e => (false, Some "Validation error: ")
  end.

(** ** The host: file system and log *)

(** [files] maps a path to the bytes stored there. A path in [denied] is one
    on which the operating system refuses to create directories, to open for
    writing and to unlink (disk full, permission denied). *)
Record Host : Type := mkHost {
  files : gmap string (list Byte.byte);
  denied : gset string;
  log : list LogRecord
}.

Definition logger (l : level) (msg : string) (e : option exn) : M Host unit :=
  modify (fun h => {| files := files h; denied := denied h;
                      log := log h ++ [mkLog l msg e] |}).

(** [os.path.join(a, b)] of [posixpath]. *)
Definition ends_with_slash (a : string) : bool :=
  match String.rev a with
  | String "/" _ => true
  | _ => false
  end.
Definition os_path_join (a b : string) : string :=
  if Py.startswith b "/" then b
  else if String.eqb a "" || ends_with_slash a then a +:+ b
  else a +:+ "/" +:+ b.

Definition os_makedirs (path : string) : M Host unit :=
  fun h => if decide (path ∈ denied h) then (Raise (OSError path), h)
           else (Ok tt, h).

(** [open(path, 'wb')] followed by one [write] of the whole buffer. *)
Definition write_file (path : string) (data : list Byte.byte) : M Host unit :=
  fun h => if decide (path ∈ denied h) then (Raise (OSError path), h)
           else (Ok tt, {| files := <[path := data]> (files h);
                           denied := denied h; log := log h |}).

Definition os_path_getsize (path : string) : M Host Z :=
  fun h => match files h !! path with
           | Some data => (Ok (Z.of_nat (length data)), h)
           | None => (Raise (OSError path), h)
           end.

Definition os_path_exists (path : string) : M Host bool :=
  fun h => (Ok (bool_decide (is_Some (files h !! path))), h).

Definition os_remove (path : string) : M Host unit :=
  fun h => if decide (path ∈ denied h) then (Raise (OSError path), h)
           else match files h !! path with
                | Some _ => (Ok tt, {| files := delete path (files h);
                                       denied := denied h; log := log h |})
                | None => (Raise (OSError path), h)
                end.

(** ** [app/utils/helpers.py]: the file persister *)

Definition save_uploaded_file (st : Settings) (upload_file : UploadFile)
    (filename : string) : M Host string :=
  try_except
    (os_makedirs (AUDIO_FILES_PATH st) ;;;
     let file_path := os_path_join (AUDIO_FILES_PATH st) filename in
     write_file file_path (content upload_file) ;;;
     logger INFO ("File saved successfully: " +:+ file_path) None ;;;
     ret file_path)
    (fun e =>
       logger ERROR ("Error saving file " +:+ filename +:+ ": ") (Some e) ;;;
       raise e).

Definition get_file_size (file_path : string) : M Host Z :=
  try_except
    (os_path_getsize file_path)
    (fun e =>
       logger ERROR ("Error getting file size for " +:+ file_path +:+ ": ")
              (Some e) ;;;
       ret 0).

Definition generate_file_url (st : Settings) (filename : string) : string :=
  let base_url := "http://localhost:" +:+ pretty (PORT st) in
  base_url +:+ "/audio_files/" +:+ filename.

(** [uuid.uuid4().hex]: the 128-bit value of the identifier, written as 32
    lower-case hexadecimal digits. *)
Definition hex_digit (n : N) : ascii :=
  match n with
  | 0 => "0" | 1 => "1" | 2 => "2" | 3 => "3" | 4 => "4" | 5 => "5"
  | 6 => "6" | 7 => "7" | 8 => "8" | 9 => "9" | 10 => "a" | 11 => "b"
  | 12 => "c" | 13 => "d" | 14 => "e" | _ => "f"
  end%N%char.

Fixpoint hex_go (digits : nat) (n : N) (acc : string) : string :=
  match digits with
  | O => acc
  | S d => hex_go d (N.shiftr n 4) (String (hex_digit (N.land n 15)) acc)
  end.

Definition uuid_hex (u : N) : string := hex_go 32 u "".

Definition is_hex_digit (c : ascii) : bool :=
  Py.is_digit c ||
  (let n := Ascii.nat_of_ascii c in (97 <=? n)%nat && (n <=? 102)%nat).

Fixpoint all_chars (p : ascii -> bool) (s : string) : bool :=
  match s with
  | EmptyString => true
  | String c s' => p c && all_chars p s'
  end.


#[global] Instance Q_eq_dec : EqDecision Q.
Proof. solve_decision. Defined.

(** ** [app/models/audio.py]: the field validators *)

Definition allowed_languages : list string := ["en"; "ar"; "english"; "arabic"].

Definition validate_language (v : string) : result string :=
  if negb (Py.mem (Py.lower v) allowed_languages) then
    Raise (ValidationError "Language must be one of: ['en', 'ar', 'english', 'arabic']")
  else Ok (Py.lower v).

Definition allowed_formats : list string := ["mp3"; "wav"; "m4a"; "ogg"].

Definition validate_format (v : string) : result string :=
  if negb (Py.mem (Py.lower v) allowed_formats) then
    Raise (ValidationError "Format must be one of: ['mp3', 'wav', 'm4a', 'ogg']")
  else Ok (Py.lower v).

(** [AudioFileCreate]: [AudioFileBase] and the [url]. *)
Record AudioFileCreate : Type := mkCreate {
  afc_language : string;
  afc_filename : string;
  afc_file_size : Z;
  afc_duration : option Q;
  afc_format : string;
  afc_url : string
}.

(** The constructor call [AudioFileCreate(language=.., ..)]: the two field
    validators run and their results are what the model holds. *)
Definition AudioFileCreate_init (language filename url : string) (file_size : Z)
    (duration : option Q) (format : string) : result AudioFileCreate :=
  match validate_language language with
  | Raise e => Raise e
  | Ok language' =>
      match validate_format format with
      | Raise e => Raise e
      | Ok format' => Ok (mkCreate language' filename file_size duration format' url)
      end
  end.

(** [AudioFileUpdate]: every field optional, no validator. *)
Record AudioFileUpdate : Type := mkUpdate {
  upd_language : option string;
  upd_filename : option string;
  upd_file_size : option Z;
  upd_duration : option Q;
  upd_format : option string;
  upd_url : option string
}.

(** [LanguageResponse] *)
Record LanguageResponse : Type := mkLanguage {
  lr_language : string;
  lr_language_name : string;
  lr_count : Z
}.

(** ** The document store and the service built on it

    [bson.ObjectId] is not part of the repository: the identifier type, the
    constructor [ObjectId(s)] (which raises [InvalidId] where
    [ObjectId_of_str] gives [None]) and [str(oid)] are taken as given. *)

Section Service.

Context {ObjectId : Type} `{EqDecision ObjectId}.
Variable ObjectId_of_str : string -> option ObjectId.
Variable str_of_ObjectId : ObjectId -> string.

(** A document of the [audio_files] collection. *)
Record Doc : Type := mkDoc {
  doc_id : ObjectId;
  doc_language : string;
  doc_filename : string;
  doc_url : string;
  doc_file_size : Z;
  doc_duration : option Q;
  doc_format : string;
  doc_created_at : Z;
  doc_updated_at : Z
}.

#[global] Instance Doc_eq_dec : EqDecision Doc.
Proof. solve_decision. Defined.

(** [AudioFile]: the validated model read back from a document. *)
Record AudioFile : Type := mkAudio {
  af_id : ObjectId;
  af_language : string;
  af_filename : string;
  af_url : string;
  af_file_size : Z;
  af_duration : option Q;
  af_format : string;
  af_created_at : Z;
  af_updated_at : Z
}.

(** The constructor call of [AudioFile] on the fields of a document. *)
Definition AudioFile_init (d : Doc) : result AudioFile :=
  match validate_language (doc_language d) with
  | Raise e => Raise e
  | Ok language' =>
      match validate_format (doc_format d) with
      | Raise e => Raise e
      | Ok format' =>
          Ok (mkAudio (doc_id d) language' (doc_filename d) (doc_url d)
                      (doc_file_size d) (doc_duration d) format'
                      (doc_created_at d) (doc_updated_at d))
      end
  end.

(** The process state the handlers work on: the host and the collection,
    kept in insertion order. *)
Record World : Type := mkWorld {
  host : Host;
  store : list Doc
}.

Definition on_host {A} (m : M Host A) : M World A :=
  fun w => let '(r, h) := m (host w) in (r, mkWorld h (store w)).

Definition of_result {A} (r : result A) : M World A := fun w => (r, w).

(** *** Collection primitives *)

Definition has_id (oid : ObjectId) (d : Doc) : bool :=
  bool_decide (doc_id d = oid).

Definition insert_one (d : Doc) : M World ObjectId :=
  fun w => if existsb (has_id (doc_id d)) (store w)
           then (Raise DuplicateKeyError, w)
           else (Ok (doc_id d), mkWorld (host w) (store w ++ [d])).

Definition find_one (p : Doc -> bool) : M World (option Doc) :=
  fun w => (Ok (List.find p (store w)), w).

Definition find_all : M World (list Doc) := fun w => (Ok (store w), w).

Fixpoint remove_first (p : Doc -> bool) (l : list Doc) : list Doc :=
  match l with
  | [] => []
  | d :: l' => if p d then l' else d :: remove_first p l'
  end.

(** [delete_one]: yields [deleted_count]. *)
Definition delete_one (p : Doc -> bool) : M World Z :=
  fun w => match List.find p (store w) with
           | Some _ => (Ok 1, mkWorld (host w) (remove_first p (store w)))
           | None => (Ok 0, w)
           end.

Fixpoint replace_first (p : Doc -> bool) (f : Doc -> Doc) (l : list Doc)
  : list Doc :=
  match l with
  | [] => []
  | d :: l' => if p d then f d :: l' else d :: replace_first p f l'
  end.

(** [update_one] with a [$set]: yields [modified_count], which counts the
    matched document only when the update changed it. *)
Definition update_one (p : Doc -> bool) (f : Doc -> Doc) : M World Z :=
  fun w => match List.find p (store w) with
           | Some d =>
               if decide (f d = d) then (Ok 0, w)
               else (Ok 1, mkWorld (host w) (replace_first p f (store w)))
           | None => (Ok 0, w)
           end.

(** [$group] on [language] with a [$sum] of 1: one entry per distinct
    language, with the number of its documents. *)
Fixpoint bump (k : string) (acc : list (string * Z)) : list (string * Z) :=
  match acc with
  | [] => [(k, 1)]
  | (k', n) :: acc' =>
      if String.eqb k' k then (k', n + 1) :: acc' else (k', n) :: bump k acc'
  end.

Definition group_by_language (docs : list Doc) : list (string * Z) :=
  fold_left (fun acc d => bump (doc_language d) acc) docs [].

(** [$sort] on [_id] ascending: strings compare byte by byte. *)
Fixpoint insert_sorted (x : string * Z) (l : list (string * Z))
  : list (string * Z) :=
  match l with
  | [] => [x]
  | y :: l' =>
      if String.leb (fst x) (fst y) then x :: l else y :: insert_sorted x l'
  end.

Definition sort_by_id (l : list (string * Z)) : list (string * Z) :=
  fold_right insert_sorted [] l.

Definition aggregate_language_counts : M World (list (string * Z)) :=
  fun w => (Ok (sort_by_id (group_by_language (store w))), w).

(** *** [app/services/audio_service.py] *)

Definition log_and_reraise {A} (msg : string) (m : M World A) : M World A :=
  try_except m (fun e => on_host (logger ERROR msg (Some e)) ;;; raise e).

(** [ObjectId(audio_id)] *)
Definition ObjectId_init (audio_id : string) : M World ObjectId :=
  match ObjectId_of_str audio_id with
  | Some oid => ret oid
  | None => raise (InvalidId audio_id)
  end.

Definition create_audio_file (inserted_id : ObjectId) (now now' : Z)
    (audio_data : AudioFileCreate) : M World AudioFile :=
  log_and_reraise "Error creating audio file: "
    (let audio_doc :=
       {| doc_id := inserted_id;
          doc_language := afc_language audio_data;
          doc_filename := afc_filename audio_data;
          doc_url := afc_url audio_data;
          doc_file_size := afc_file_size audio_data;
          doc_duration := afc_duration audio_data;
          doc_format := afc_format audio_data;
          doc_created_at := now;
          doc_updated_at := now' |} in
     result_id <- insert_one audio_doc ;;
     created_doc <- find_one (has_id result_id) ;;
     match created_doc with
     | Some d => of_result (AudioFile_init d)
     | None => raise (TypeError "argument after ** must be a mapping")
     end).

Definition get_audio_by_language (language : string)
  : M World (option AudioFile) :=
  log_and_reraise ("Error getting audio by language " +:+ language +:+ ": ")
    (let lang_code := Py.lower language in
     let lang_code :=
       if Py.mem lang_code ["english"; "en"] then "en"
       else if Py.mem lang_code ["arabic"; "ar"] then "ar"
       else lang_code in
     audio_doc <- find_one (fun d => String.eqb (doc_language d) lang_code) ;;
     match audio_doc with
     | Some d => a <- of_result (AudioFile_init d) ;; ret (Some a)
     | None => ret None
     end).

Fixpoint AudioFile_init_all (docs : list Doc) : result (list AudioFile) :=
  match docs with
  | [] => Ok []
  | d :: rest =>
      match AudioFile_init d with
      | Raise e => Raise e
      | Ok a => match AudioFile_init_all rest with
                | Raise e => Raise e
                | Ok l => Ok (a :: l)
                end
      end
  end.

Definition get_all_audio_files : M World (list AudioFile) :=
  log_and_reraise "Error getting all audio files: "
    (audio_docs <- find_all ;; of_result (AudioFile_init_all audio_docs)).

Definition language_names : list (string * string) :=
  [("en", "English"); ("ar", "Arabic")].

Definition to_language_response (r : string * Z) : LanguageResponse :=
  let lang_code := fst r in
  let lang_name := Py.dict_get language_names lang_code (Py.title lang_code) in
  {| lr_language := lang_code; lr_language_name := lang_name;
     lr_count := snd r |}.

Definition get_available_languages : M World (list LanguageResponse) :=
  log_and_reraise "Error getting available languages: "
    (results <- aggregate_language_counts ;;
     ret (List.map to_language_response results)).

(** The [$set] document of [update_audio_file]: the fields of the update
    that are not [None], and [updated_at]. *)
Definition apply_set (u : AudioFileUpdate) (now : Z) (d : Doc) : Doc :=
  {| doc_id := doc_id d;
     doc_language := default (doc_language d) (upd_language u);
     doc_filename := default (doc_filename d) (upd_filename u);
     doc_url := default (doc_url d) (upd_url u);
     doc_file_size := default (doc_file_size d) (upd_file_size u);
     doc_duration :=
       match upd_duration u with Some x => Some x | None => doc_duration d end;
     doc_format := default (doc_format d) (upd_format u);
     doc_created_at := doc_created_at d;
     doc_updated_at := now |}.

Definition update_audio_file (now : Z) (audio_id : string)
    (update_data : AudioFileUpdate) : M World (option AudioFile) :=
  log_and_reraise ("Error updating audio file " +:+ audio_id +:+ ": ")
    (oid <- ObjectId_init audio_id ;;
     modified_count <- update_one (has_id oid) (apply_set update_data now) ;;
     if 0 <? modified_count then
       oid' <- ObjectId_init audio_id ;;
       updated_doc <- find_one (has_id oid') ;;
       match updated_doc with
       | Some d => a <- of_result (AudioFile_init d) ;; ret (Some a)
       | None => raise (TypeError "argument after ** must be a mapping")
       end
     else ret None).

Definition delete_audio_file (audio_id : string) : M World bool :=
  log_and_reraise ("Error deleting audio file " +:+ audio_id +:+ ": ")
    (oid <- ObjectId_init audio_id ;;
     deleted_count <- delete_one (has_id oid) ;;
     ret (0 <? deleted_count)).

Definition get_audio_by_id (audio_id : string) : M World (option AudioFile) :=
  log_and_reraise ("Error getting audio file by ID " +:+ audio_id +:+ ": ")
    (oid <- ObjectId_init audio_id ;;
     audio_doc <- find_one (has_id oid) ;;
     match audio_doc with
     | Some d => a <- of_result (AudioFile_init d) ;; ret (Some a)
     | None => ret None
     end).

(** *** [app/routers/audio.py] *)

Record AudioFileResponse : Type := mkResponse {
  r_id : string;
  r_language : string;
  r_filename : string;
  r_url : string;
  r_file_size : Z;
  r_duration : option Q;
  r_format : string;
  r_created_at : Z;
  r_updated_at : Z
}.

Record AudioUploadResponse : Type := mkUploadResponse {
  message : string;
  audio_file : AudioFileResponse
}.

Definition to_response (a : AudioFile) : AudioFileResponse :=
  {| r_id := str_of_ObjectId (af_id a);
     r_language := af_language a;
     r_filename := af_filename a;
     r_url := af_url a;
     r_file_size := af_file_size a;
     r_duration := af_duration a;
     r_format := af_format a;
     r_created_at := af_created_at a;
     r_updated_at := af_updated_at a |}.

(** The two [except] clauses every handler ends with: an [HTTPException]
    passes through, anything else is logged and becomes a 500. *)
Definition http_errors {A} (msg detail : string) (m : M World A) : M World A :=
  try_except m
    (fun e => match e with
              | HTTPException _ _ => raise e
              | _ => on_host (logger ERROR msg (Some e)) ;;;
                     raise (HTTPException 500 detail)
              end).

(** This handler has a single [except Exception] clause. *)
Definition router_get_available_languages : M World (list LanguageResponse) :=
  try_except get_available_languages
    (fun e =>
       on_host (logger ERROR "Error getting available languages: " (Some e)) ;;;
       raise (HTTPException 500 "Failed to retrieve available languages")).

Definition router_get_audio_by_language (language : string)
  : M World AudioFileResponse :=
  http_errors ("Error getting audio for language " +:+ language +:+ ": ")
              "Failed to retrieve audio file"
    (let normalized_lang := normalize_language_code language in
     audio_file <- get_audio_by_language normalized_lang ;;
     match audio_file with
     | None =>
         raise (HTTPException 404
                  ("No audio file found for language: " +:+ language))
     | Some a => ret (to_response a)
     end).

(** [uuid4], [inserted_id], [now] and [now'] are what [uuid.uuid4()], the
    driver's identifier generator and the two calls of [datetime.utcnow()]
    give during this request. *)
Definition router_upload_audio_file (st : Settings) (uuid4 : N)
    (inserted_id : ObjectId) (now now' : Z)
    (file : UploadFile) (language : string) : M World AudioUploadResponse :=
  http_errors "Error uploading audio file: " "Failed to upload audio file"
    (let '(is_valid, error_message) := validate_audio_file st file in
     if negb is_valid then
       raise (HTTPException 400 (default "" error_message))
     else
       let normalized_lang := normalize_language_code language in
       let file_extension := file_extension_of (default "" (filename file)) in
       let unique_filename :=
         normalized_lang +:+ "_" +:+ uuid_hex uuid4 +:+ "." +:+ file_extension in
       file_path <- on_host (save_uploaded_file st file unique_filename) ;;
       file_size <- on_host (get_file_size file_path) ;;
       let file_url := generate_file_url st unique_filename in
       audio_data <- of_result
         (AudioFileCreate_init normalized_lang unique_filename file_url
                               file_size None file_extension) ;;
       audio_file <- create_audio_file inserted_id now now' audio_data ;;
       ret {| message := "Audio file uploaded successfully";
              audio_file := to_response audio_file |}).

Definition router_delete_audio_file (st : Settings) (audio_id : string)
  : M World string :=
  http_errors ("Error deleting audio file " +:+ audio_id +:+ ": ")
              "Failed to delete audio file"
    (audio_file <- get_audio_by_id audio_id ;;
     match audio_file with
     | None => raise (HTTPException 404 "Audio file not found")
     | Some a =>
         deleted <- delete_audio_file audio_id ;;
         if negb deleted then
           raise (HTTPException 404 "Audio file not found")
         else
           let file_path := os_path_join (AUDIO_FILES_PATH st) (af_filename a) in
           file_exists <- on_host (os_path_exists file_path) ;;
           (if file_exists then on_host (os_remove file_path) else ret tt) ;;;
           ret "Audio file deleted successfully"
     end).

(** [FileResponse(path=..., media_type=..., filename=...)] *)
Record FileResponse : Type := mkFileResponse {
  fr_path : string;
  fr_media_type : string;
  fr_filename : string
}.

Definition router_serve_audio_file (st : Settings) (filename : string)
  : M World FileResponse :=
  http_errors ("Error serving audio file " +:+ filename +:+ ": ")
              "Failed to serve audio file"
    (let file_path := os_path_join (AUDIO_FILES_PATH st) filename in
     file_exists <- on_host (os_path_exists file_path) ;;
     if negb file_exists then
       raise (HTTPException 404 "Audio file not found")
     else
       ret {| fr_path := file_path; fr_media_type := "audio/mpeg";
              fr_filename := filename |}).

(** A single [except Exception] clause again. *)
Definition router_get_all_audio_files : M World (list AudioFileResponse) :=
  try_except
    (audio_files <- get_all_audio_files ;;
     ret (List.map to_response audio_files))
    (fun e =>
       on_host (logger ERROR "Error getting all audio files: " (Some e)) ;;;
       raise (HTTPException 500 "Failed to retrieve audio files")).

(** *** [app/database.py] and [scripts/seed_database.py] *)

(** The seeding script runs in a process of its own: the state it works on
    is the world, whether [db.client] is set, and what it has printed. A
    printed line is kept as its text and the exception formatted into it,
    if any. *)
Record Process : Type := mkProcess {
  world : World;
  db_client : bool;
  stdout : list (string * option exn)
}.

Definition on_world {A} (m : M World A) : M Process A :=
  fun p => let '(r, w) := m (world p) in
           (r, mkProcess w (db_client p) (stdout p)).

Definition print (msg : string) (e : option exn) : M Process unit :=
  modify (fun p => mkProcess (world p) (db_client p) (stdout p ++ [(msg, e)])).

(** [client] and [ping] are what the driver's constructor and the ping
    command give. *)
Definition connect_to_mongo (client ping : result unit) : M Process unit :=
  try_except
    ((fun p => (client, p)) ;;;
     modify (fun p => mkProcess (world p) true (stdout p)) ;;;
     (fun p => (ping, p)) ;;;
     on_world (on_host (logger INFO "Successfully connected to MongoDB!" None)))
    (fun e =>
       on_world (on_host (logger ERROR "Could not connect to MongoDB: "
                                 (Some e))) ;;;
       raise e).

Definition close_mongo_connection : M Process unit :=
  p <- get ;;
  if db_client p then
    on_world (on_host (logger INFO "Disconnected from MongoDB" None))
  else ret tt.

(** An entry of [sample_files]; a float literal stands as the rational it
    denotes. *)
Record SampleFile : Type := mkSample {
  sf_language : string;
  sf_filename : string;
  sf_url : string;
  sf_file_size : Z;
  sf_duration : Q;
  sf_format : string
}.

Definition sample_files : list SampleFile :=
  [ {| sf_language := "en";
       sf_filename := "sample_english.mp3";
       sf_url := "https://elevenlab-clone-backend.vercel.app/api/audio/files/sample_english.mp3";
       sf_file_size := 1024000;
       sf_duration := 30.5;
       sf_format := "mp3" |};
    {| sf_language := "ar";
       sf_filename := "sample_arabic.mp3";
       sf_url := "https://elevenlab-clone-backend.vercel.app/api/audio/files/sample_arabic.mp3";
       sf_file_size := 1200000;
       sf_duration := 35.2;
       sf_format := "mp3" |} ].

(** The body of the loop of [seed_database]. [inserted_id], [now] and
    [now'] are what the driver's identifier generator and the two calls of
    [datetime.utcnow()] give while this entry is handled. *)
Definition seed_one (file_data : SampleFile) (inserted_id : ObjectId)
    (now now' : Z) : M Process unit :=
  try_except
    (existing_file <- on_world (get_audio_by_language (sf_language file_data)) ;;
     match existing_file with
     | Some _ =>
         print ("Audio file for language " +:+ sf_language file_data
                +:+ " already exists, skipping...") None
     | None =>
         audio_data <-
           (fun p => (AudioFileCreate_init (sf_language file_data)
                        (sf_filename file_data) (sf_url file_data)
                        (sf_file_size file_data)
                        (Some (sf_duration file_data))
                        (sf_format file_data), p)) ;;
         audio_file <-
           on_world (create_audio_file inserted_id now now' audio_data) ;;
         print ("Created audio file: " +:+ af_filename audio_file
                +:+ " for language " +:+ af_language audio_file) None
     end)
    (fun e =>
       print ("Error creating audio file for " +:+ sf_language file_data
              +:+ ": ") (Some e)).

Definition seed_database (st : Settings) (client ping : result unit)
    (supply : SampleFile -> ObjectId * Z * Z) : M Process unit :=
  try_finally
    (try_except
       (connect_to_mongo client ping ;;;
        print "Connected to MongoDB" None ;;;
        on_world (on_host (os_makedirs (AUDIO_FILES_PATH st))) ;;;
        for_each sample_files
          (fun file_data =>
             let '(inserted_id, now, now') := supply file_data in
             seed_one file_data inserted_id now now') ;;;
        print "Database seeding completed successfully!" None)
       (fun e => print "Error seeding database: " (Some e)))
    (close_mongo_connection ;;;
     print "Disconnected from MongoDB" None).

End Service.

(** The status line a handler's outcome is answered with: 200 for a value,
    the code of an [HTTPException], 500 for any other exception. *)
Definition status_code {A} (r : result A) : Z :=
  match r with
  | Ok _ => 200
  | Raise (HTTPException c _) => c
  | Raise _ => 500
  end.

(** ** [app/middleware/security.py]: the admission guard *)

(** [int(s)] on a string: white space at both ends, an optional sign, then
    decimal digits that single underscores may separate; more digits than
    the interpreter's limit are refused. *)
Definition py_int (s : string) : result Z :=
  let invalid :=
    Raise (ValueError ("invalid literal for int() with base 10: " +:+ s)) in
  match Py.to_ascii (Py.chars s) with
  | None => invalid
  | Some a =>
      let body := Py.skip_c_space a in
      let parsed :=
        match body with
        | String "-" d =>
            option_map (fun '(n, k) => (Z.opp n, k)) (Py.int_digits d 0 0 false)
        | String "+" d => Py.int_digits d 0 0 false
        | _ => Py.int_digits body 0 0 false
        end in
      match parsed with
      | Some (n, k) =>
          if (Py.int_max_str_digits <? k)%nat then
            Raise (ValueError
                     ("Exceeds the limit (4300 digits) for integer string conversion: value has "
                      +:+ pretty k +:+ " digits; use sys.set_int_max_str_digits() to increase the limit"))
          else Ok n
      | None => invalid
      end
  end.

Inductive ScopeType : Type := http | websocket | lifespan.

(** The ASGI scope as far as the guard reads it: its type, the host of the
    peer when there is one, and the raw headers in the order received. *)
Record Scope : Type := mkScope {
  scope_type : ScopeType;
  client : option string;
  headers : list (string * string);
  method : string;
  url : string
}.

(** Starlette's [Headers]: [key in headers], [headers[key]] and
    [headers.get(key)] all take the first raw entry whose name is the
    lower-cased key. *)
Fixpoint headers_get (hs : list (string * string)) (key : string)
  : option string :=
  match hs with
  | [] => None
  | (k, v) :: hs' =>
      if String.eqb k (Py.lower key) then Some v else headers_get hs' key
  end.

(** [slowapi.util.get_remote_address] *)
Definition get_remote_address (request : Scope) : string :=
  match client request with
  | Some h => if String.eqb h "" then "127.0.0.1" else h
  | None => "127.0.0.1"
  end.

(** [now - t < 60] on time stamps, kept as rationals. *)
Definition Qltb (x y : Q) : bool := if Qlt_le_dec x y then true else false.

Module SecurityMiddleware.

Record t : Type := mk {
  request_count : gmap string (list Q);
  blocked_ips : gset string;
  guard_log : list LogRecord
}.

(** [__init__] *)
Definition init : t :=
  {| request_count := ∅; blocked_ips := ∅; guard_log := [] |}.

Definition logger (l : level) (msg : string) (e : option exn) : M t unit :=
  modify (fun g => {| request_count := request_count g;
                      blocked_ips := blocked_ips g;
                      guard_log := guard_log g ++ [mkLog l msg e] |}).

Definition suspicious_headers : list string :=
  ["x-forwarded-for"; "x-real-ip"; "x-cluster-client-ip";
   "x-forwarded"; "x-forwarded-proto"; "x-forwarded-host"].

Definition injection_patterns : list string :=
  ["<script"; "javascript:"; "data:"].

(** The [for] loop of [_validate_request]; [true] when it left the
    function with [return False]. *)
Fixpoint scan_headers (request : Scope) (names : list string) : M t bool :=
  match names with
  | [] => ret false
  | header :: rest =>
      match headers_get (headers request) header with
      | Some value =>
          if existsb (fun pattern => Py.contains pattern (Py.lower value))
                     injection_patterns
          then logger WARNING
                 ("Suspicious header detected: " +:+ header +:+ "=" +:+ value)
                 None ;;;
               ret true
          else scan_headers request rest
      | None => scan_headers request rest
      end
  end.

Definition size_limit : Z := 10 * 1024 * 1024.

(** The body of the [try] block of [_validate_request]. *)
Definition validate_request_body (request : Scope) : M t bool :=
  rejected <- scan_headers request suspicious_headers ;;
  if rejected then ret false
  else
    let content_length := headers_get (headers request) "content-length" in
    if truthy_str content_length then
      n <- (fun g => (py_int (default "" content_length), g)) ;;
      if size_limit <? n then
        logger WARNING
          ("Request too large: " +:+ default "" content_length +:+ " bytes")
          None ;;;
        ret false
      else ret true
    else ret true.

Definition _validate_request (request : Scope) : M t bool :=
  try_except (validate_request_body request)
    (fun e => logger ERROR "Request validation error: " (Some e) ;;; ret false).

(** [now] is the value [time.time()] gives during this request. *)
Definition _log_request (now : Q) (request : Scope) : M t unit :=
  try_except
    (let client_ip := get_remote_address request in
     let user_agent :=
       default "Unknown" (headers_get (headers request) "user-agent") in
     logger INFO
       ("Request: " +:+ method request +:+ " " +:+ url request +:+ " from "
        +:+ client_ip +:+ " - " +:+ user_agent) None ;;;
     let current_time := now in
     g <- get ;;
     let recent :=
       List.filter (fun req_time => Qltb (current_time - req_time) 60)
                   (default [] (request_count g !! client_ip)) in
     let recent := recent ++ [current_time] in
     modify (fun g => {| request_count := <[client_ip := recent]> (request_count g);
                         blocked_ips := blocked_ips g;
                         guard_log := guard_log g |}) ;;;
     if (100 <? length recent)%nat then
       modify (fun g => {| request_count := request_count g;
                           blocked_ips := {[client_ip]} ∪ blocked_ips g;
                           guard_log := guard_log g |}) ;;;
       logger WARNING ("IP " +:+ client_ip +:+ " blocked due to rate limiting")
              None
     else ret tt)
    (fun e => logger ERROR "Request logging error: " (Some e)).

(** What one call of the middleware ends with: a response of its own, or
    the call of the wrapped application. *)
Inductive outcome : Type :=
| Response (status : Z)
| CallApp.

Definition __call__ (now : Q) (scope : Scope) : M t outcome :=
  match scope_type scope with
  | http =>
      let request := scope in
      let client_ip := get_remote_address request in
      g <- get ;;
      if decide (client_ip ∈ blocked_ips g) then ret (Response 403)
      else
        valid <- _validate_request request ;;
        if negb valid then ret (Response 400)
        else _log_request now request ;;; ret CallApp
  | _ => ret CallApp
  end.

(** A sequence of calls, each with the time it is served at. *)
Fixpoint run (calls : list (Q * Scope)) (g : t) : list (result outcome) * t :=
  match calls with
  | [] => ([], g)
  | (now, scope) :: rest =>
      let '(r, g') := __call__ now scope g in
      let '(rs, g'') := run rest g' in
      (r :: rs, g'')
  end.

End SecurityMiddleware.


(** ** Auxiliary predicates and sample data *)

(** A string all of whose characters are already lower-cased. *)
Definition lowered (s : string) : Prop := Py.lower s = s.


(** What is left of a string after its first [k] bytes. *)
Fixpoint drop (k : nat) (s : string) : string :=
  match k, s with
  | S k', String _ s' => drop k' s'
  | _, _ => s
  end.

(** The continuation bytes a string starts with, [n] of them at most. *)
Fixpoint lead (n : nat) (s : string) : string :=
  match n, s with
  | S n', String c s' =>
      if Py.is_cont c then String c (lead n' s') else EmptyString
  | _, _ => EmptyString
  end.

(** A string that spells exactly one character. *)
Definition whole (c : string) : bool :=
  match Py.head_char c with
  | Some (_, k) => Nat.eqb (String.length c) (S k)
  | None => false
  end.

(** A character that [str.lower] leaves as it is wherever it stands; a byte
    that is no character counts as one. *)
Definition fixed (c : string) : bool :=
  match Py.ord c with
  | Some cp =>
      negb (cp =? 931)%N &&
      match Py.to_lower cp with Some _ => false | None => true end
  | None => true
  end.

(** A string that is not empty and made of whole characters, each of them
    [fixed]: what a lower-case image has to be. *)
Definition good_image (x : string) : bool :=
  negb (String.eqb x EmptyString) &&
  forallb (fun c => whole c && fixed c) (Py.chars x).

(** The validator as the design document words it: four checks in a fixed
    order, the first one that fails gives the reason. *)
Inductive check : Type :=
| SizeLimit | FilenamePresent | ExtensionAllowed | ContentTypeAudio.

Definition checks_in_order : list check :=
  [SizeLimit; FilenamePresent; ExtensionAllowed; ContentTypeAudio].

Definition check_passes (st : Settings) (file : UploadFile) (c : check) : bool :=
  match c with
  | SizeLimit =>
      match size file with
      | Some n => (n =? 0) || (n <=? MAX_FILE_SIZE st)
      | None => true
      end
  | FilenamePresent =>
      match filename file with
      | Some name => negb (String.eqb name "")
      | None => false
      end
  | ExtensionAllowed =>
      match filename file with
      | Some name => Py.mem (file_extension_of name) (ALLOWED_AUDIO_FORMATS st)
      | None => Py.mem (file_extension_of "") (ALLOWED_AUDIO_FORMATS st)
      end
  | ContentTypeAudio =>
      match content_type file with
      | Some ct => String.eqb ct "" || Py.startswith ct "audio/"
      | None => true
      end
  end.

Definition check_reason (st : Settings) (c : check) : string :=
  match c with
  | SizeLimit => size_message st
  | FilenamePresent => no_filename_message
  | ExtensionAllowed => format_message st
  | ContentTypeAudio => not_audio_message
  end.

Definition validate_in_order (st : Settings) (file : UploadFile)
  : bool * option string :=
  match List.find (fun c => negb (check_passes st file c)) checks_in_order with
  | Some c => (false, Some (check_reason st c))
  | None => (true, None)
  end.


(** The host after one more log record, and after one more file. *)
Definition with_log (h : Host) (r : LogRecord) : Host :=
  {| files := files h; denied := denied h; log := log h ++ [r] |}.
Definition with_file (h : Host) (path : string) (data : list Byte.byte) : Host :=
  {| files := <[path := data]> (files h); denied := denied h; log := log h |}.


(** A 12-byte upload named as an mp3 file. *)
Definition mp3_upload : UploadFile :=
  {| size := Some 12; filename := Some "Hello.MP3";
     content_type := Some "audio/mpeg";
     content := List.repeat Byte.x00 12 |}.


(** Two guard states that agree on the counters and on the block set; the
    log may differ. *)
Definition same_admission (g g' : SecurityMiddleware.t) : Prop :=
  SecurityMiddleware.request_count g' = SecurityMiddleware.request_count g /\
  SecurityMiddleware.blocked_ips g' = SecurityMiddleware.blocked_ips g.

(** A request whose content-length is not a number. *)
Definition garbled_length_request : Scope :=
  {| scope_type := http; client := Some "10.0.0.7";
     headers := [("content-length", "12abc")];
     method := "POST"; url := "http://testserver/api/audio/upload" |}.

(** Whether the structural validation lets a request through; the guard's
    state has no part in it. *)
Definition validates (request : Scope) : bool :=
  match fst (SecurityMiddleware._validate_request request
               SecurityMiddleware.init) with
  | Ok b => b
  | Raise _ => false
  end.

(** The calls of client [c] that reach the rate accounting once [c] is not
    blocked: HTTP requests of [c] that pass the structural validation. *)
Definition counted (c : string) (call : Q * Scope) : bool :=
  match scope_type (snd call) with
  | http => String.eqb (get_remote_address (snd call)) c && validates (snd call)
  | _ => false
  end.

Definition counted_times (c : string) (calls : list (Q * Scope)) : list Q :=
  List.map fst (List.filter (counted c) calls).

(** Any two of the time stamps are less than 60 seconds apart. *)
Definition in_window (ts : list Q) : bool :=
  forallb (fun t => forallb (fun t' => Qltb (t' - t) 60) ts) ts.

(** An HTTP request of client [c]. *)
Definition http_from (c : string) (call : Q * Scope) : Prop :=
  scope_type (snd call) = http /\ get_remote_address (snd call) = c.

(** The time stamps client [c] has on record. *)
Definition recorded (c : string) (g : SecurityMiddleware.t) : list Q :=
  default [] (SecurityMiddleware.request_count g !! c).

(** What [_log_request] leaves on record for a client at time [now]: the
    stamps still inside the window, then [now]. *)
Definition recent_after (now : Q) (l : list Q) : list Q :=
  List.filter (fun req_time => Qltb (now - req_time) 60) l ++ [now].

(** What the proof of the rate limit carries along the calls: client [c] is
    blocked already, or the stamps [ts] counted so far are at most 100 and
    all still on record. *)
Definition rate_invariant (c : string) (ts : list Q)
    (g : SecurityMiddleware.t) : Prop :=
  c ∈ SecurityMiddleware.blocked_ips g \/
  ((length ts <= 100)%nat /\ exists pre, recorded c g = pre ++ ts).

(** A well-formed HTTP request of one client, and that client blocked. *)
Definition plain_request : Scope :=
  {| scope_type := http; client := Some "10.0.0.7";
     headers := [("user-agent", "Mozilla/5.0 (X11; Linux x86_64)")];
     method := "GET"; url := "http://testserver/api/audio/languages" |}.

Definition blocked_guard : SecurityMiddleware.t :=
  {| SecurityMiddleware.request_count := ∅;
     SecurityMiddleware.blocked_ips := {["10.0.0.7"]};
     SecurityMiddleware.guard_log := [] |}.

(** [n] calls of [plain_request], half a second apart. *)
Definition burst (n : nat) : list (Q * Scope) :=
  List.map (fun i => (inject_Z (Z.of_nat i) / 2, plain_request)%Q) (List.seq 0 n).

(** A request whose forwarding header carries a script tag. *)
Definition script_request : Scope :=
  {| scope_type := http; client := Some "10.0.0.9";
     headers := [("user-agent", "curl/8.4.0");
                 ("x-forwarded-for", "1.2.3.4 <SCRIPT>alert(1)</SCRIPT>")];
     method := "GET"; url := "http://testserver/api/audio/en" |}.




(** The world after one error record in the log. *)
Definition log_error {ObjectId : Type} (w : @World ObjectId) (msg : string)
    (e : exn) : @World ObjectId :=
  mkWorld (with_log (host w) (mkLog ERROR msg (Some e))) (store w).

(** The identifiers in the collection. *)
Definition ids {ObjectId : Type} (docs : list (@Doc ObjectId)) : list ObjectId :=
  List.map doc_id docs.

(** Sample identifiers, standing for bson's: 24 hexadecimal digits, read
    without regard to letter case. *)
Definition hex24_of_str (s : string) : option string :=
  if (String.length s =? 24)%nat
     && all_chars is_hex_digit (Py.lower s)
  then Some (Py.lower s) else None.
Definition str_of_hex24 (oid : string) : string := oid.

Definition sample_doc (oid language name : string) : @Doc string :=
  {| doc_id := oid; doc_language := language; doc_filename := name;
     doc_url := "http://localhost:8000/audio_files/" +:+ name;
     doc_file_size := 12; doc_duration := None; doc_format := "mp3";
     doc_created_at := 1700000000; doc_updated_at := 1700000000 |}.

Definition id_1 : string := "65a000000000000000000001".
Definition id_2 : string := "65a000000000000000000002".
Definition id_3 : string := "65a000000000000000000003".
Definition id_4 : string := "65a000000000000000000004".
Definition id_5 : string := "65a000000000000000000005".
Definition id_9 : string := "65a000000000000000000009".

(** Three English and two Arabic documents, none of their files on disk
    except the first one's. *)
Definition sample_docs : list (@Doc string) :=
  [sample_doc id_1 "en" "en_a.mp3"; sample_doc id_2 "ar" "ar_a.mp3";
   sample_doc id_3 "en" "en_b.mp3"; sample_doc id_4 "en" "en_c.mp3";
   sample_doc id_5 "ar" "ar_b.mp3"].

Definition sample_world : @World string :=
  mkWorld {| files := {["./audio_files/en_a.mp3" := List.repeat Byte.x00 12]};
             denied := ∅; log := [] |}
          sample_docs.

(** The document [create_audio_file] writes for a model. *)
Definition doc_of_create {ObjectId : Type} (inserted_id : ObjectId)
    (now now' : Z) (data : AudioFileCreate) : @Doc ObjectId :=
  {| doc_id := inserted_id;
     doc_language := afc_language data;
     doc_filename := afc_filename data;
     doc_url := afc_url data;
     doc_file_size := afc_file_size data;
     doc_duration := afc_duration data;
     doc_format := afc_format data;
     doc_created_at := now;
     doc_updated_at := now' |}.

(** The model read back from a document whose language and format are
    already in normal form. *)
Definition audio_of_doc {ObjectId : Type} (d : @Doc ObjectId)
  : @AudioFile ObjectId :=
  mkAudio (doc_id d) (doc_language d) (doc_filename d) (doc_url d)
          (doc_file_size d) (doc_duration d) (doc_format d)
          (doc_created_at d) (doc_updated_at d).

(** A patch that sets the language alone, to a value outside the model's
    list. *)
Definition language_patch : AudioFileUpdate :=
  {| upd_language := Some "FR"; upd_filename := None; upd_file_size := None;
     upd_duration := None; upd_format := None; upd_url := None |}.

(** The host after a file is unlinked. *)
Definition without_file (h : Host) (path : string) : Host :=
  {| files := delete path (files h); denied := denied h; log := log h |}.

(** Where the delete handler looks for the file of a model. *)
Definition file_path_of {ObjectId : Type} (st : Settings)
    (a : @AudioFile ObjectId) : string :=
  os_path_join (AUDIO_FILES_PATH st) (af_filename a).

(** A host that holds the first sample file but refuses to unlink it. *)
Definition locked_world : @World string :=
  mkWorld {| files := {["./audio_files/en_a.mp3" := List.repeat Byte.x00 12]};
             denied := {["./audio_files/en_a.mp3"]}; log := [] |}
          sample_docs.

(** The name the upload handler stores a file under. *)
Definition unique_filename_of (uuid4 : N) (file : UploadFile)
    (language : string) : string :=
  normalize_language_code language +:+ "_" +:+ uuid_hex uuid4 +:+ "."
  +:+ file_extension_of (default "" (filename file)).

(** The model the upload handler builds once the file is on disk. *)
Definition upload_model (st : Settings) (uuid4 : N) (file : UploadFile)
    (language : string) : AudioFileCreate :=
  mkCreate (normalize_language_code language)
           (unique_filename_of uuid4 file language)
           (Z.of_nat (length (content file))) None
           (file_extension_of (default "" (filename file)))
           (generate_file_url st (unique_filename_of uuid4 file language)).

(** The host after the upload handler saved a file. *)
Definition host_after_save (st : Settings) (uuid4 : N) (file : UploadFile)
    (language : string) (h : Host) : Host :=
  let path := os_path_join (AUDIO_FILES_PATH st)
                (unique_filename_of uuid4 file language) in
  with_log (with_file h path (content file))
           (mkLog INFO ("File saved successfully: " +:+ path) None).

(** Whether the model's validators accept a stored document. *)
Definition doc_valid {ObjectId : Type} (d : @Doc ObjectId) : bool :=
  Py.mem (Py.lower (doc_language d)) allowed_languages &&
  Py.mem (Py.lower (doc_format d)) allowed_formats.

(** What an entry of the listing shows of the document it stands for. *)
Definition shows {ObjectId : Type} (str_of_ObjectId : ObjectId -> string)
    (a : AudioFileResponse) (d : @Doc ObjectId) : Prop :=
  r_id a = str_of_ObjectId (doc_id d) /\
  r_language a = Py.lower (doc_language d) /\
  r_format a = Py.lower (doc_format d) /\
  r_filename a = doc_filename d /\
  r_url a = doc_url d /\
  r_file_size a = doc_file_size d.

(** Whether some document of the collection has the language. *)
Definition has_language {ObjectId : Type} (language : string)
    (docs : list (@Doc ObjectId)) : bool :=
  existsb (fun d => String.eqb (doc_language d) language) docs.

(** The document the seeding script stores for an entry of its list. *)
Definition seeded_doc {ObjectId : Type}
    (supply : SampleFile -> ObjectId * Z * Z) (s : SampleFile)
  : @Doc ObjectId :=
  doc_of_create (supply s).1.1 (supply s).1.2 (supply s).2
    (mkCreate (sf_language s) (sf_filename s) (sf_file_size s)
              (Some (sf_duration s)) (sf_format s) (sf_url s)).

(** The collection after the loop body of the seeding script has handled
    an entry. *)
Definition seeded_store {ObjectId : Type} `{EqDecision ObjectId}
    (supply : SampleFile -> ObjectId * Z * Z) (s : SampleFile)
    (docs : list (@Doc ObjectId)) : list (@Doc ObjectId) :=
  if has_language (sf_language s) docs then docs
  else if existsb (has_id (supply s).1.1) docs then docs
  else docs ++ [seeded_doc supply s].

(** A process that has printed nothing and holds no client yet. *)
Definition fresh_process {ObjectId : Type} (w : @World ObjectId)
  : @Process ObjectId :=
  mkProcess w false [].

(** Identifiers and clock readings for the two entries of the script. *)
Definition sample_supply (s : SampleFile) : string * Z * Z :=
  if String.eqb (sf_language s) "en" then ("65a0000000000000000000a1", 10, 11)
  else ("65a0000000000000000000a2", 20, 21).

(** Whether the seeding script gets as far as its loop: the driver hands
    out a client, the ping succeeds and the audio directory can be made. *)
Definition seeding_reaches_loop (st : Settings) (client ping : result unit)
    (h : Host) : bool :=
  match client, ping with
  | Ok _, Ok _ => bool_decide (AUDIO_FILES_PATH st ∉ denied h)
  | _, _ => false
  end.
(** * Properties *)

(** ** Characters *)

Section Characters.

Lemma str_app_nil_l (t : string) : "" +:+ t = t.
Proof. reflexivity. Qed.

Lemma str_app_cons (c : ascii) (s t : string) :
  String c s +:+ t = String c (s +:+ t).
Proof. reflexivity. Qed.

Lemma str_app_nil_r (s : string) : s +:+ "" = s.
Proof.
  induction s as [|c s IH]; [done|]. by rewrite str_app_cons, IH.
Qed.

Lemma str_app_assoc (s t u : string) : (s +:+ t) +:+ u = s +:+ (t +:+ u).
Proof.
  induction s as [|c s IH]; [done|]. by rewrite !str_app_cons, IH.
Qed.

Lemma str_app_inv_head (s t u : string) : s +:+ t = s +:+ u -> t = u.
Proof.
  induction s as [|c s IH]; [done|]. rewrite !str_app_cons.
  intros [= H]. by apply IH.
Qed.

Lemma cat_app (l l' : list string) : Py.cat (l ++ l') = Py.cat l +:+ Py.cat l'.
Proof.
  induction l as [|x l IH]; cbn [Py.cat app]; [done|].
  by rewrite IH, str_app_assoc.
Qed.

Lemma take_drop (k : nat) (s : string) : Py.take k s +:+ drop k s = s.
Proof.
  revert s. induction k as [|k IH]; intros [|c s]; cbn [Py.take drop];
    try done.
  by rewrite str_app_cons, IH.
Qed.

Lemma drop_length (k : nat) (s : string) :
  (String.length (drop k s) <= String.length s)%nat.
Proof.
  revert s. induction k as [|k IH]; intros [|c s]; cbn [drop String.length];
    try lia.
  specialize (IH s). lia.
Qed.

Lemma take_app_length (t y : string) :
  Py.take (String.length t) (t +:+ y) = t /\
  drop (String.length t) (t +:+ y) = y.
Proof.
  induction t as [|c t [IH1 IH2]]; [by destruct y|].
  rewrite str_app_cons. cbn [String.length Py.take drop]. by rewrite IH1, IH2.
Qed.

(** *** Cutting a string into characters *)

Lemma chars_go_drop (k : nat) (s : string) :
  Py.chars_go k s = Py.chars (drop k s).
Proof.
  revert k. induction s as [|b r IH]; intros [|k]; try done.
  cbn [Py.chars_go drop]. apply IH.
Qed.

Lemma chars_cons (b : ascii) (r : string) :
  Py.chars (String b r)
  = match Py.head_char (String b r) with
    | Some (_, k) => String b (Py.take k r) :: Py.chars (drop k r)
    | None => String b "" :: Py.chars r
    end.
Proof.
  unfold Py.chars at 1. cbn [Py.chars_go].
  destruct (Py.head_char (String b r)) as [[cp k]|]; [|done].
  by rewrite chars_go_drop.
Qed.

Lemma chars_rect (P : string -> Prop) :
  P "" ->
  (forall b r cp k, Py.head_char (String b r) = Some (cp, k) ->
     P (drop k r) -> P (String b r)) ->
  (forall b r, Py.head_char (String b r) = None -> P r -> P (String b r)) ->
  forall s, P s.
Proof.
  intros Hnil Hchar Hstray s.
  assert (H : forall n s, (String.length s <= n)%nat -> P s).
  { clear s. induction n as [|n IH]; intros [|b r] Hlen; try done.
    - cbn [String.length] in Hlen. lia.
    - cbn [String.length] in Hlen.
      destruct (Py.head_char (String b r)) as [[cp k]|] eqn:Hhead.
      + apply (Hchar b r cp k Hhead). apply IH.
        pose proof (drop_length k r). lia.
      + apply (Hstray b r Hhead). apply IH. lia. }
  by apply (H (String.length s)).
Qed.

Lemma cat_chars (s : string) : Py.cat (Py.chars s) = s.
Proof.
  induction s as [|b r cp k Hhead IH|b r Hhead IH] using chars_rect; [done| |].
  - rewrite chars_cons, Hhead. cbn [Py.cat].
    by rewrite IH, str_app_cons, take_drop.
  - rewrite chars_cons, Hhead. cbn [Py.cat]. by rewrite IH.
Qed.

Lemma chars_nil (s : string) : Py.chars s = [] -> s = "".
Proof.
  destruct s as [|b r]; [done|]. rewrite chars_cons.
  by destruct (Py.head_char (String b r)) as [[cp k]|].
Qed.

Lemma cat_flat_map_chars (l : list string) :
  Py.cat (flat_map Py.chars l) = Py.cat l.
Proof.
  induction l as [|x l IH]; [done|].
  cbn [flat_map Py.cat]. by rewrite cat_app, cat_chars, IH.
Qed.

(** *** The first character *)

Lemma lead_noncont (n : nat) (b : ascii) (r : string) :
  Py.is_cont b = false -> lead n (String b r) = "".
Proof. intros Hb. destruct n; cbn [lead]; [done|]. by rewrite Hb. Qed.

Lemma lead_lead (k n : nat) (s : string) :
  (k <= n)%nat -> lead k (lead n s) = lead k s.
Proof.
  revert n s. induction k as [|k IH]; intros n s Hk; [by destruct (lead n s)|].
  destruct n as [|n]; [lia|]. destruct s as [|c s]; [done|].
  cbn [lead]. destruct (Py.is_cont c) eqn:Hc; [|done].
  cbn [lead]. rewrite Hc. f_equal. apply IH. lia.
Qed.

Lemma conts_lead (k : nat) (s : string) (acc : N) :
  Py.conts k s acc = Py.conts k (lead k s) acc.
Proof.
  revert s acc. induction k as [|k IH]; intros s acc; [done|].
  destruct s as [|c s]; [done|]. cbn [Py.conts lead].
  destruct (Py.is_cont c) eqn:Hc; [|done].
  cbn [Py.conts]. rewrite Hc. apply IH.
Qed.

Lemma conts_take (k : nat) (s : string) (acc v : N) :
  Py.conts k s acc = Some v ->
  String.length (Py.take k s) = k /\
  forall y, Py.conts k (Py.take k s +:+ y) acc = Some v.
Proof.
  revert s acc. induction k as [|k IH]; intros s acc.
  - intros H. split; [by destruct s|]. intros y. by destruct s.
  - destruct s as [|c s]; [done|]. cbn [Py.conts Py.take String.length].
    destruct (Py.is_cont c) eqn:Hc; [|done]. intros H.
    destruct (IH _ _ H) as [Hlen Hy]. split; [by rewrite Hlen|].
    intros y. rewrite str_app_cons. cbn [Py.conts]. rewrite Hc. apply Hy.
Qed.

Lemma need_noncont (b : ascii) : Py.need b <> O -> Py.is_cont b = false.
Proof.
  unfold Py.need, Py.is_cont.
  destruct (N.ltb_spec (Py.code b) 194); [done|]. intros _.
  apply andb_false_iff. right. apply N.ltb_ge. lia.
Qed.

Lemma need_le (b : ascii) : (Py.need b <= 3)%nat.
Proof. unfold Py.need. repeat case_match; lia. Qed.

Lemma ascii_noncont (b : ascii) : (Py.code b <? 128)%N = true ->
  Py.is_cont b = false.
Proof.
  intros H%N.ltb_lt. unfold Py.is_cont. apply andb_false_iff. left.
  apply N.leb_gt. lia.
Qed.

(** What [head_char] finds depends on the first byte and on the following
    bytes of the character alone. *)
Lemma head_char_Some (b : ascii) (r : string) (cp : N) (k : nat) :
  Py.head_char (String b r) = Some (cp, k) ->
  Py.is_cont b = false /\
  String.length (Py.take k r) = k /\
  forall y, Py.head_char (String b (Py.take k r +:+ y)) = Some (cp, k).
Proof.
  unfold Py.head_char.
  destruct (Py.code b <? 128)%N eqn:Hascii.
  - intros [= <- <-]. split; [by apply ascii_noncont|]. split; [by destruct r|].
    done.
  - destruct (Py.need b) as [|n] eqn:Hneed; [done|].
    destruct (Py.conts (S n) r _) as [v|] eqn:Hconts; [|done].
    intros [= <- <-].
    destruct (conts_take _ _ _ _ Hconts) as [Hlen Hy].
    split; [apply need_noncont; by rewrite Hneed|]. split; [done|].
    intros y. by rewrite Hy.
Qed.

Lemma head_char_lead (b : ascii) (r : string) :
  Py.head_char (String b r) = Py.head_char (String b (lead 3 r)).
Proof.
  unfold Py.head_char. destruct (Py.code b <? 128)%N; [done|].
  pose proof (need_le b) as Hle.
  destruct (Py.need b) as [|n]; [done|].
  rewrite (conts_lead _ r), (conts_lead _ (lead 3 r)).
  by rewrite lead_lead.
Qed.

Lemma head_char_single (b : ascii) (r : string) :
  Py.head_char (String b r) = None -> Py.head_char (String b "") = None.
Proof.
  unfold Py.head_char. destruct (Py.code b <? 128)%N; [done|].
  by destruct (Py.need b).
Qed.

Lemma whole_inv (c : string) :
  whole c = true ->
  exists b t cp, c = String b t /\
    Py.head_char c = Some (cp, String.length t) /\ Py.is_cont b = false.
Proof.
  unfold whole. destruct c as [|b t]; [done|].
  destruct (Py.head_char (String b t)) as [[cp k]|] eqn:Hhead; [|done].
  cbn [String.length]. intros Hk%Nat.eqb_eq. injection Hk as <-.
  exists b, t, cp. split_and!; [done|done|].
  by destruct (head_char_Some _ _ _ _ Hhead) as [? _].
Qed.

Lemma chars_whole_app (c y : string) :
  whole c = true -> Py.chars (c +:+ y) = c :: Py.chars y.
Proof.
  intros (b & t & cp & -> & Hhead & _)%whole_inv.
  destruct (head_char_Some _ _ _ _ Hhead) as (_ & _ & Hy).
  destruct (take_app_length t "") as [Htake _].
  rewrite str_app_nil_r in Htake. rewrite Htake in Hy.
  rewrite str_app_cons, chars_cons, Hy.
  destruct (take_app_length t y) as [-> ->]. done.
Qed.

Lemma chars_whole (c : string) : whole c = true -> Py.chars c = [c].
Proof.
  intros Hc. rewrite <- (str_app_nil_r c) at 1. by rewrite chars_whole_app.
Qed.

Lemma chars_stray (b : ascii) :
  Py.head_char (String b "") = None -> Py.chars (String b "") = [String b ""].
Proof. intros H. by rewrite chars_cons, H. Qed.

Lemma chunk_whole (b : ascii) (r : string) (cp : N) (k : nat) :
  Py.head_char (String b r) = Some (cp, k) ->
  whole (String b (Py.take k r)) = true /\
  Py.ord (String b (Py.take k r)) = Some cp.
Proof.
  intros Hhead. destruct (head_char_Some _ _ _ _ Hhead) as (_ & Hlen & Hy).
  specialize (Hy ""). rewrite str_app_nil_r in Hy.
  unfold whole, Py.ord. rewrite Hy. cbn [String.length option_map fst].
  split; [|done]. rewrite Hlen. apply Nat.eqb_refl.
Qed.

(** A string made of whole characters is cut the same way whatever
    follows it. *)
Lemma chars_good_app (x y : string) :
  forallb whole (Py.chars x) = true ->
  Py.chars (x +:+ y) = Py.chars x ++ Py.chars y.
Proof.
  induction x as [|b r cp k Hhead IH|b r Hhead IH] using chars_rect; [done| |].
  - rewrite chars_cons, Hhead. cbn [forallb]. intros [Hc Hrest]%andb_prop.
    rewrite <- (take_drop k r) at 1.
    rewrite <- str_app_cons, str_app_assoc, chars_whole_app by done.
    cbn [app]. by rewrite IH.
  - rewrite chars_cons, Hhead. cbn [forallb]. intros [Hc _]%andb_prop.
    unfold whole in Hc. by rewrite (head_char_single _ _ Hhead) in Hc.
Qed.

(** *** [str.lower] *)

Lemma lower_chars_fixed (l : list string) (before : bool) :
  forallb fixed l = true -> Py.lower_chars before l = l.
Proof.
  revert before. induction l as [|c l IH]; intros before; [done|].
  cbn [forallb Py.lower_chars]. intros [Hc Hl]%andb_prop.
  unfold fixed in Hc. destruct (Py.ord c) as [cp|]; [|by rewrite IH].
  apply andb_prop in Hc as [Hsigma Hlow]. apply negb_true_iff in Hsigma.
  unfold Py.lower_image. rewrite Hsigma.
  destruct (Py.to_lower cp); [done|]. by rewrite IH.
Qed.

Lemma assoc_In {A} (cp : N) (t : list (N * A)) (v : A) :
  Py.assoc cp t = Some v -> In (cp, v) t.
Proof.
  induction t as [|[k w] t IH]; [done|]. cbn [Py.assoc].
  destruct (N.eqb_spec k cp) as [->|_]; [intros [= ->]; by left|].
  intros H. right. by apply IH.
Qed.

Lemma lower_table_good :
  forallb (fun '(_, image) => good_image (Py.utf8s image)) Py.lower_table
  = true.
Proof. vm_compute. reflexivity. Qed.

Lemma ascii_lower_good :
  forallb (fun n => good_image (Py.utf8s [(N.of_nat n + 32)%N])) (seq 65 26)
  = true.
Proof. vm_compute. reflexivity. Qed.

Lemma to_lower_good (cp : N) (image : list N) :
  Py.to_lower cp = Some image -> good_image (Py.utf8s image) = true.
Proof.
  unfold Py.to_lower. destruct (cp <? 128)%N.
  - unfold Py.ascii_upper.
    destruct (N.leb_spec 65 cp); [|done]. destruct (N.leb_spec cp 90); [|done].
    cbn [andb]. intros [= <-].
    pose proof ascii_lower_good as Hall. rewrite forallb_forall in Hall.
    specialize (Hall (N.to_nat cp)). rewrite N2Nat.id in Hall.
    apply Hall, in_seq. lia.
  - intros Hin%assoc_In.
    pose proof lower_table_good as Hall. rewrite forallb_forall in Hall.
    exact (Hall _ Hin).
Qed.

Lemma lower_image_good (before : bool) (l' : list string) (c : string)
    (cp : N) :
  whole c = true -> Py.ord c = Some cp ->
  good_image (Py.lower_image before l' c cp) = true.
Proof.
  intros Hc Hord. unfold Py.lower_image.
  destruct (N.eqb_spec cp 931) as [->|Hsigma].
  { by destruct (before && negb (Py.next_cased l')). }
  destruct (Py.to_lower cp) as [image|] eqn:Hlow;
    [by apply (to_lower_good cp)|].
  unfold good_image. rewrite (chars_whole c Hc). cbn [forallb].
  rewrite Hc. unfold fixed. rewrite Hord, Hlow.
  apply N.eqb_neq in Hsigma. rewrite Hsigma.
  destruct (whole_inv c Hc) as (b & t & _ & -> & _). done.
Qed.

Lemma good_image_inv (x : string) :
  good_image x = true ->
  forallb whole (Py.chars x) = true /\
  forallb fixed (Py.chars x) = true /\
  forall n, lead n x = "".
Proof.
  unfold good_image. intros [Hne Hall]%andb_prop.
  assert (Hw : forallb whole (Py.chars x) = true).
  { rewrite forallb_forall in Hall |- *. intros c Hc.
    by destruct (andb_prop _ _ (Hall c Hc)). }
  assert (Hf : forallb fixed (Py.chars x) = true).
  { rewrite forallb_forall in Hall |- *. intros c Hc.
    by destruct (andb_prop _ _ (Hall c Hc)). }
  split_and!; [done|done|]. intros n.
  destruct x as [|b r]; [done|]. apply lead_noncont.
  rewrite chars_cons in Hw.
  destruct (Py.head_char (String b r)) as [[cp k]|] eqn:Hhead.
  - by destruct (head_char_Some _ _ _ _ Hhead) as [? _].
  - cbn [forallb] in Hw. apply andb_prop in Hw as [Hw _].
    unfold whole in Hw. by rewrite (head_char_single _ _ Hhead) in Hw.
Qed.

(** The characters of a lower-cased string are the characters of the
    images, and [str.lower] leaves each of them as it is. *)
Lemma lower_chars_spec (s : string) (before : bool) :
  let out := Py.lower_chars before (Py.chars s) in
  Py.chars (Py.cat out) = flat_map Py.chars out /\
  forallb fixed (flat_map Py.chars out) = true /\
  forall n, lead n (Py.cat out) = lead n s.
Proof.
  revert before.
  induction s as [|b r cp k Hhead IH|b r Hhead IH] using chars_rect;
    intros before.
  - by split_and!.
  - rewrite chars_cons, Hhead.
    destruct (chunk_whole _ _ _ _ Hhead) as [Hwhole Hord].
    cbn [Py.lower_chars]. rewrite Hord. cbv zeta.
    set (image := Py.lower_image before _ _ cp).
    assert (Hgood : good_image image = true) by by apply lower_image_good.
    destruct (good_image_inv _ Hgood) as (Hw & Hf & Hlead).
    destruct (IH (Py.before_next before cp)) as (IH1 & IH2 & _).
    cbn [Py.cat flat_map]. split_and!.
    + by rewrite chars_good_app, IH1.
    + rewrite forallb_app. by rewrite Hf, IH2.
    + intros n. destruct image as [|b' r']; [done|].
      rewrite str_app_cons.
      destruct (head_char_Some _ _ _ _ Hhead) as [Hb _].
      rewrite (lead_noncont n b r Hb).
      specialize (Hlead 1%nat). cbn [lead] in Hlead.
      destruct (Py.is_cont b') eqn:Hb'; [done|]. by apply lead_noncont.
  - rewrite chars_cons, Hhead.
    pose proof (head_char_single _ _ Hhead) as Hsingle.
    assert (Hord : Py.ord (String b "") = None)
      by (unfold Py.ord; by rewrite Hsingle).
    cbn [Py.lower_chars]. rewrite Hord. cbv zeta.
    destruct (IH false) as (IH1 & IH2 & IH3).
    cbn [Py.cat flat_map]. rewrite str_app_cons, str_app_nil_l.
    rewrite (chars_stray b Hsingle). cbn [app].
    assert (Hraw : Py.head_char
                     (String b (Py.cat (Py.lower_chars false (Py.chars r))))
                   = None).
    { by rewrite head_char_lead, IH3, <- head_char_lead. }
    split_and!.
    + by rewrite chars_cons, Hraw, IH1.
    + cbn [forallb]. rewrite IH2. unfold fixed, Py.ord. by rewrite Hsingle.
    + intros [|n]; [done|]. cbn [lead]. by rewrite IH3.
Qed.

Lemma lower_idemp (s : string) : Py.lower (Py.lower s) = Py.lower s.
Proof.
  unfold Py.lower.
  destruct (lower_chars_spec s false) as (Hchars & Hfixed & _).
  cbv zeta in Hchars, Hfixed.
  by rewrite Hchars, (lower_chars_fixed _ _ Hfixed), cat_flat_map_chars.
Qed.

Lemma lowered_fixed (s : string) :
  lowered s -> forallb fixed (Py.chars s) = true.
Proof.
  unfold lowered, Py.lower. intros Hs.
  destruct (lower_chars_spec s false) as (Hchars & Hfixed & _).
  cbv zeta in Hchars, Hfixed. by rewrite Hs in Hchars; rewrite Hchars.
Qed.

Lemma fixed_lowered (s : string) :
  forallb fixed (Py.chars s) = true -> lowered s.
Proof.
  intros Hs. unfold lowered, Py.lower.
  by rewrite (lower_chars_fixed _ _ Hs), cat_chars.
Qed.

(** *** [str.strip] *)

Lemma is_space_stray (b : ascii) :
  Py.head_char (String b "") = None -> Py.is_space (String b "") = false.
Proof. intros H. unfold Py.is_space, Py.ord. by rewrite H. Qed.

Lemma lstrip_chars_chars (s : string) :
  exists s', Py.lstrip_chars (Py.chars s) = Py.chars s'.
Proof.
  induction s as [|b r cp k Hhead IH|b r Hhead IH] using chars_rect.
  - by exists "".
  - rewrite chars_cons, Hhead. cbn [Py.lstrip_chars].
    destruct (Py.is_space _); [done|].
    exists (String b r). by rewrite chars_cons, Hhead.
  - rewrite chars_cons, Hhead. cbn [Py.lstrip_chars].
    rewrite (is_space_stray _ (head_char_single _ _ Hhead)).
    exists (String b r). by rewrite chars_cons, Hhead.
Qed.

Lemma rstrip_chars_chars (s : string) :
  exists t, Py.rstrip_chars (Py.chars s) = Py.chars t /\
            forall n, lead n t = lead n s.
Proof.
  induction s as [|b r cp k Hhead IH|b r Hhead IH] using chars_rect.
  - by exists "".
  - rewrite chars_cons, Hhead. cbn [Py.rstrip_chars].
    destruct IH as (t' & -> & _).
    destruct (chunk_whole _ _ _ _ Hhead) as [Hwhole _].
    destruct (head_char_Some _ _ _ _ Hhead) as [Hb _].
    destruct (Py.chars t') as [|c1 rr] eqn:Ht'.
    + destruct (Py.is_space _).
      * exists "". split; [done|]. intros n.
        rewrite (lead_noncont n b r Hb). by destruct n.
      * exists (String b (Py.take k r)). split; [by rewrite chars_whole|].
        intros n. by rewrite !lead_noncont.
    + exists (String b (Py.take k r) +:+ t'). split.
      * by rewrite chars_whole_app, Ht'.
      * intros n. rewrite str_app_cons. by rewrite !lead_noncont.
  - rewrite chars_cons, Hhead. cbn [Py.rstrip_chars].
    destruct IH as (t' & -> & Hlead).
    pose proof (head_char_single _ _ Hhead) as Hsingle.
    destruct (Py.chars t') as [|c1 rr] eqn:Ht'.
    + rewrite (is_space_stray _ Hsingle).
      exists (String b ""). split; [by rewrite chars_stray|].
      apply chars_nil in Ht'. subst t'.
      intros [|n]; [done|]. cbn [lead]. rewrite <- (Hlead n).
      by destruct n.
    + exists (String b t').
      assert (Hraw : Py.head_char (String b t') = None).
      { by rewrite head_char_lead, Hlead, <- head_char_lead. }
      split; [by rewrite chars_cons, Hraw, Ht'|].
      intros [|n]; [done|]. cbn [lead]. by rewrite Hlead.
Qed.

Lemma chars_strip (s : string) :
  Py.chars (Py.strip s) = Py.rstrip_chars (Py.lstrip_chars (Py.chars s)).
Proof.
  unfold Py.strip. destruct (lstrip_chars_chars s) as [s' ->].
  destruct (rstrip_chars_chars s') as (t & -> & _). by rewrite cat_chars.
Qed.






Lemma lstrip_chars_In (c : string) (l : list string) :
  In c (Py.lstrip_chars l) -> In c l.
Proof.
  induction l as [|c' l IH]; [done|]. cbn [Py.lstrip_chars].
  destruct (Py.is_space c'); [|done]. intros H. right. by apply IH.
Qed.

Lemma rstrip_chars_In (c : string) (l : list string) :
  In c (Py.rstrip_chars l) -> In c l.
Proof.
  induction l as [|c' l IH]; [done|]. cbn [Py.rstrip_chars].
  destruct (Py.rstrip_chars l) as [|c1 r].
  - destruct (Py.is_space c'); [done|]. intros [<-|[]]. by left.
  - intros [<-|H]; [by left|]. right. by apply IH.
Qed.

Lemma strip_lowered (s : string) : lowered s -> lowered (Py.strip s).
Proof.
  intros Hs%lowered_fixed. apply fixed_lowered. rewrite chars_strip.
  rewrite forallb_forall in Hs |- *. intros c Hc.
  by apply Hs, lstrip_chars_In, rstrip_chars_In.
Qed.


Lemma dict_get_language_map (k d : string) :
  Py.dict_get language_map k d =
    if String.eqb "english" k then "en"
    else if String.eqb "eng" k then "en"
    else if String.eqb "arabic" k then "ar"
    else if String.eqb "ara" k then "ar"
    else d.
Proof. reflexivity. Qed.

End Characters.


(** ** The file validator *)


Lemma validate_audio_file_in_order st file :
  validate_audio_file st file = validate_in_order st file.
Proof.
  unfold validate_audio_file, validate_audio_file_body, validate_in_order,
    truthy_int, truthy_str.
  destruct file as [[n|] [name|] [ct|] data];
    cbn [size filename content_type default from_option checks_in_order
         List.find check_passes negb]; unfold id.
  all: repeat match goal with
       | |- context [?a =? 0] =>
           destruct (Z.eqb_spec a 0); cbn [negb andb orb]
       | |- context [MAX_FILE_SIZE ?s <? ?a] =>
           destruct (Z.ltb_spec (MAX_FILE_SIZE s) a); cbn [negb andb orb]
       | |- context [?a <=? MAX_FILE_SIZE ?s] =>
           destruct (Z.leb_spec a (MAX_FILE_SIZE s)); cbn [negb andb orb];
           try lia
       | |- context [String.eqb ?a ""] =>
           destruct (String.eqb a ""); cbn [negb andb orb]
       | |- context [Py.mem ?a ?b] => destruct (Py.mem a b); cbn [negb andb orb]
       | |- context [Py.startswith ?a ?b] =>
           destruct (Py.startswith a b); cbn [negb andb orb]
       end; try reflexivity.
Qed.




(** ** The file persister *)




(** ** The admission guard: structural validation *)

Module GuardFacts.
Import SecurityMiddleware.

Ltac run_monad :=
  unfold bind, ret, raise, try_except, get, modify, logger in *; simpl in *.

Lemma same_admission_refl g : same_admission g g.
Proof. by split. Qed.

Lemma scan_headers_ok request names g :
  exists b g', scan_headers request names g = (Ok b, g') /\ same_admission g g'.
Proof.
  induction names as [|header rest IH]; cbn [scan_headers].
  - exists false, g. split; [done|apply same_admission_refl].
  - destruct (headers_get (headers request) header) as [value|]; [|exact IH].
    destruct (existsb _ injection_patterns); [|exact IH].
    run_monad. eexists true, _. split; [reflexivity|]. by split.
Qed.

Lemma validate_request_ok request g :
  exists b g', _validate_request request g = (Ok b, g') /\ same_admission g g'.
Proof.
  unfold _validate_request, validate_request_body.
  destruct (scan_headers_ok request suspicious_headers g)
    as (b & g1 & Hscan & Hsame).
  unfold try_except, bind at 1. rewrite Hscan.
  destruct b; [by exists false, g1|].
  destruct (truthy_str _); [|by exists true, g1].
  unfold bind at 1. destruct (py_int _) as [n|e].
  - destruct (size_limit <? n); run_monad.
    + eexists false, _. split; [reflexivity|]. destruct Hsame. by split.
    + by exists true, g1.
  - run_monad. eexists false, _. split; [reflexivity|].
    destruct Hsame. by split.
Qed.

Lemma validate_request_raise request g e g1 :
  validate_request_body request g = (Raise e, g1) ->
  exists g', _validate_request request g = (Ok false, g') /\ same_admission g g'.
Proof.
  intros Hbody.
  destruct (validate_request_ok request g) as (b & g' & Hv & Hsame).
  exists g'. split; [|done]. rewrite Hv.
  unfold _validate_request, try_except in Hv. rewrite Hbody in Hv.
  run_monad. by inversion Hv.
Qed.

End GuardFacts.

Lemma truthy_str_Some v : v <> "" -> truthy_str (Some v) = true.
Proof.
  intros Hv. unfold truthy_str. by destruct (String.eqb_spec v "").
Qed.

Lemma unparsable_length_rejected request g v e :
  headers_get (headers request) "content-length" = Some v ->
  v <> "" -> py_int v = Raise e ->
  exists g', SecurityMiddleware._validate_request request g = (Ok false, g')
             /\ same_admission g g'.
Proof.
  intros Hget Hv Hint.
  destruct (GuardFacts.validate_request_ok request g) as (b & g' & Hval & Hsame).
  exists g'. split; [|done]. rewrite Hval. f_equal. f_equal.
  revert Hval.
  unfold SecurityMiddleware._validate_request,
    SecurityMiddleware.validate_request_body.
  destruct (GuardFacts.scan_headers_ok request
              SecurityMiddleware.suspicious_headers g) as (r & g1 & Hscan & _).
  unfold try_except, bind at 1. rewrite Hscan.
  destruct r; [unfold ret; congruence|].
  rewrite Hget, (truthy_str_Some v Hv). unfold bind at 1. simpl. rewrite Hint.
  GuardFacts.run_monad. congruence.
Qed.

Lemma call_rejects_invalid now request g g' :
  scope_type request = http ->
  get_remote_address request ∉ SecurityMiddleware.blocked_ips g ->
  SecurityMiddleware._validate_request request g = (Ok false, g') ->
  SecurityMiddleware.__call__ now request g
  = (Ok (SecurityMiddleware.Response 400), g').
Proof.
  intros Hhttp Hfree Hval. unfold SecurityMiddleware.__call__.
  rewrite Hhttp. unfold bind at 1, get. rewrite decide_False by done.
  unfold bind at 1. rewrite Hval. reflexivity.
Qed.

(** C10. On an HTTP request of a client that is not blocked, whenever the
    body of the structural validation raises, as [int] does on a
    content-length that is no number, the guard answers 400, calls nothing
    further and leaves the counters and the block set as they were. When the
    header scan lets the request through and the content-length is a number,
    the request is admitted exactly when that number is at most
    10 * 1024 * 1024: no setting enters the comparison. *)
Theorem guard_fails_closed (now : Q) (request : Scope)
    (g : SecurityMiddleware.t) :
  scope_type request = http ->
  get_remote_address request ∉ SecurityMiddleware.blocked_ips g ->
  (forall e g1,
     SecurityMiddleware.validate_request_body request g = (Raise e, g1) ->
     exists g', SecurityMiddleware.__call__ now request g
                = (Ok (SecurityMiddleware.Response 400), g')
                /\ same_admission g g') /\
  (forall v e,
     headers_get (headers request) "content-length" = Some v ->
     v <> "" -> py_int v = Raise e ->
     exists g', SecurityMiddleware.__call__ now request g
                = (Ok (SecurityMiddleware.Response 400), g')
                /\ same_admission g g') /\
  (forall v n,
     fst (SecurityMiddleware.scan_headers request
            SecurityMiddleware.suspicious_headers g) = Ok false ->
     headers_get (headers request) "content-length" = Some v ->
     v <> "" -> py_int v = Ok n ->
     fst (SecurityMiddleware._validate_request request g)
     = Ok (bool_decide (n <= 10 * 1024 * 1024))).
Proof.
  intros Hhttp Hfree. repeat split.
  - intros e g1 Hbody.
    destruct (GuardFacts.validate_request_raise request g e g1 Hbody)
      as (g' & Hval & Hsame).
    exists g'. split; [|done]. by apply call_rejects_invalid.
  - intros v e Hget Hv Hint.
    destruct (unparsable_length_rejected request g v e Hget Hv Hint)
      as (g' & Hval & Hsame).
    exists g'. split; [|done]. by apply call_rejects_invalid.
  - intros v n Hscan Hget Hv Hint.
    unfold SecurityMiddleware._validate_request,
      SecurityMiddleware.validate_request_body.
    destruct (SecurityMiddleware.scan_headers request
                SecurityMiddleware.suspicious_headers g) as [r g1] eqn:Hs.
    simpl in Hscan. subst r.
    unfold try_except, bind at 1. rewrite Hs.
    rewrite Hget, (truthy_str_Some v Hv). unfold bind at 1. simpl. rewrite Hint.
    unfold SecurityMiddleware.size_limit.
    destruct (Z.ltb_spec (10 * 1024 * 1024) n).
    + GuardFacts.run_monad. by rewrite bool_decide_false by lia.
    + GuardFacts.run_monad. by rewrite bool_decide_true by lia.
Qed.

Lemma guard_fails_closed_witness :
  exists g', SecurityMiddleware.__call__ 0 garbled_length_request
               SecurityMiddleware.init
             = (Ok (SecurityMiddleware.Response 400), g')
             /\ same_admission SecurityMiddleware.init g'.
Proof.
  refine (proj1 (proj2 (guard_fails_closed 0 garbled_length_request
                          SecurityMiddleware.init _ _)) "12abc" _ _ _ _).
  - reflexivity.
  - vm_compute. set_solver.
  - reflexivity.
  - discriminate.
  - vm_compute. reflexivity.
Defined.

(** ** The admission guard: rate accounting and the block set *)

Module RateFacts.
Import SecurityMiddleware.

Lemma scan_headers_fst request names g g' :
  fst (scan_headers request names g) = fst (scan_headers request names g').
Proof.
  induction names as [|header rest IH]; cbn [scan_headers]; [done|].
  destruct (headers_get (headers request) header) as [value|]; [|exact IH].
  destruct (existsb _ injection_patterns); [|exact IH]. reflexivity.
Qed.

Lemma validate_request_indep request g g' :
  fst (_validate_request request g) = fst (_validate_request request g').
Proof.
  unfold _validate_request, validate_request_body, try_except, bind.
  pose proof (scan_headers_fst request suspicious_headers g g') as Hs.
  destruct (scan_headers request suspicious_headers g) as [r1 g1].
  destruct (scan_headers request suspicious_headers g') as [r2 g2].
  cbn [fst] in Hs. subst r2. destruct r1 as [[]|e]; try reflexivity.
  destruct (truthy_str _); [|reflexivity].
  destruct (py_int _) as [n|e]; [|reflexivity].
  destruct (size_limit <? n); reflexivity.
Qed.

Lemma validate_request_fst request g :
  fst (_validate_request request g) = Ok (validates request).
Proof.
  unfold validates. rewrite (validate_request_indep request init g).
  destruct (GuardFacts.validate_request_ok request g) as (b & g' & -> & _).
  reflexivity.
Qed.

(** The outcome of the structural validation, with the state it leaves. *)
Lemma validate_request_run request g :
  exists g', _validate_request request g = (Ok (validates request), g')
             /\ same_admission g g'.
Proof.
  destruct (GuardFacts.validate_request_ok request g) as (b & g' & Hv & Hs).
  exists g'. split; [|done].
  pose proof (validate_request_fst request g) as Hf.
  rewrite Hv in Hf. cbn [fst] in Hf. congruence.
Qed.

(** A blocked client gets 403 and nothing changes. *)
Lemma call_blocked now request g :
  scope_type request = http ->
  get_remote_address request ∈ blocked_ips g ->
  __call__ now request g = (Ok (Response 403), g).
Proof.
  intros Hhttp Hin. unfold __call__. rewrite Hhttp.
  unfold bind, get. by rewrite decide_True.
Qed.


Lemma log_request_run now request g :
  let c := get_remote_address request in
  let recent := recent_after now (recorded c g) in
  exists g',
    _log_request now request g = (Ok tt, g') /\
    request_count g' = <[c := recent]> (request_count g) /\
    blocked_ips g' = if (100 <? length recent)%nat
                     then {[c]} ∪ blocked_ips g else blocked_ips g.
Proof.
  intros c recent.
  unfold _log_request, try_except, bind, logger, modify, get, ret.
  cbn [request_count blocked_ips guard_log].
  fold c. change (default [] (request_count g !! c)) with (recorded c g).
  change (List.filter _ (recorded c g) ++ [now]) with recent.
  destruct (100 <? length recent)%nat; eexists; (split; [reflexivity|]);
    by split.
Qed.

(** An admitted call: HTTP, client not blocked, validation passed. *)
Lemma call_admitted now request g :
  scope_type request = http ->
  get_remote_address request ∉ blocked_ips g ->
  validates request = true ->
  let c := get_remote_address request in
  let recent := recent_after now (recorded c g) in
  exists g',
    __call__ now request g = (Ok CallApp, g') /\
    request_count g' = <[c := recent]> (request_count g) /\
    blocked_ips g' = if (100 <? length recent)%nat
                     then {[c]} ∪ blocked_ips g else blocked_ips g.
Proof.
  intros Hhttp Hfree Hval c recent. unfold __call__. rewrite Hhttp.
  unfold bind at 1, get. rewrite decide_False by done.
  destruct (validate_request_run request g) as (g1 & Hv & Hrc & Hbl).
  unfold bind at 1. rewrite Hv, Hval. cbn [negb].
  destruct (log_request_run now request g1) as (g2 & Hl & Hrc2 & Hbl2).
  unfold bind, ret. rewrite Hl. exists g2. split; [reflexivity|].
  unfold recorded in *. rewrite Hrc in *. rewrite Hbl in *. by split.
Qed.

(** A call turned down by the structural validation. *)
Lemma call_invalid now request g :
  scope_type request = http ->
  get_remote_address request ∉ blocked_ips g ->
  validates request = false ->
  exists g', __call__ now request g = (Ok (Response 400), g')
             /\ same_admission g g'.
Proof.
  intros Hhttp Hfree Hval.
  destruct (validate_request_run request g) as (g1 & Hv & Hs).
  exists g1. split; [|done]. rewrite Hval in Hv.
  by apply call_rejects_invalid.
Qed.

(** A scope that is no HTTP request goes to the application untouched. *)
Lemma call_other_scope now request g :
  scope_type request <> http -> __call__ now request g = (Ok CallApp, g).
Proof. intros Hne. unfold __call__. by destruct (scope_type request). Qed.


(** A call that is not counted for client [c] changes neither the stamps
    on record for [c] nor whether [c] is blocked. *)
Lemma call_not_counted c now request g :
  counted c (now, request) = false ->
  recorded c (snd (__call__ now request g)) = recorded c g /\
  (c ∈ blocked_ips (snd (__call__ now request g)) <-> c ∈ blocked_ips g).
Proof.
  unfold counted. cbn [snd]. intros Hnc.
  destruct (scope_type request) eqn:Hty;
    [|by rewrite call_other_scope by congruence..].
  destruct (decide (get_remote_address request ∈ blocked_ips g)) as [Hb|Hb].
  { by rewrite call_blocked. }
  destruct (validates request) eqn:Hval.
  - rewrite andb_true_r in Hnc. apply String.eqb_neq in Hnc.
    destruct (call_admitted now request g Hty Hb Hval)
      as (g' & -> & Hrc & Hbl).
    cbn [snd]. unfold recorded. rewrite Hrc, Hbl.
    rewrite lookup_insert_ne by done. split; [done|].
    destruct (100 <? _)%nat; [|done].
    rewrite elem_of_union, elem_of_singleton.
    split; [intros [Heq|Hin]; [congruence|done]|by right].
  - destruct (call_invalid now request g Hty Hb Hval)
      as (g' & -> & Hrc & Hbl).
    cbn [snd]. unfold recorded. by rewrite Hrc, Hbl.
Qed.

(** A counted call of a client that is not blocked yet. *)
Lemma call_counted c now request g :
  counted c (now, request) = true ->
  c ∉ blocked_ips g ->
  let recent := recent_after now (recorded c g) in
  recorded c (snd (__call__ now request g)) = recent /\
  (c ∈ blocked_ips (snd (__call__ now request g))
   <-> (100 < length recent)%nat).
Proof.
  intros Hc Hfree recent. unfold counted in Hc. cbn [snd] in Hc.
  destruct (scope_type request) eqn:Hty; try discriminate.
  apply andb_true_iff in Hc as [Hip Hval]. apply String.eqb_eq in Hip.
  subst c.
  destruct (call_admitted now request g Hty Hfree Hval)
    as (g' & -> & Hrc & Hbl).
  cbn [snd]. unfold recorded at 1. rewrite Hrc, Hbl, lookup_insert_eq.
  split; [done|]. fold recent.
  destruct (Nat.ltb_spec 100 (length recent)).
  - rewrite elem_of_union, elem_of_singleton. split; [done|by left].
  - split; [done|lia].
Qed.

(** Once in the block set, always in the block set. *)
Lemma call_keeps_block c now request g :
  c ∈ blocked_ips g -> c ∈ blocked_ips (snd (__call__ now request g)).
Proof.
  intros Hin. destruct (counted c (now, request)) eqn:Hc.
  - unfold counted in Hc. cbn [snd] in Hc.
    destruct (scope_type request) eqn:Hty; try discriminate.
    apply andb_true_iff in Hc as [Hip _]. apply String.eqb_eq in Hip.
    subst c. by rewrite call_blocked.
  - by apply (call_not_counted c now request g Hc).
Qed.

Lemma run_cons now request rest g :
  run ((now, request) :: rest) g
  = (fst (__call__ now request g)
       :: fst (run rest (snd (__call__ now request g))),
     snd (run rest (snd (__call__ now request g)))).
Proof.
  cbn [run]. destruct (__call__ now request g) as [r g']. cbn [fst snd].
  by destruct (run rest g') as [rs g''].
Qed.

Lemma run_keeps_block c calls g :
  c ∈ blocked_ips g -> c ∈ blocked_ips (snd (run calls g)).
Proof.
  revert g. induction calls as [|[now request] rest IH]; intros g Hin.
  - done.
  - rewrite run_cons. cbn [snd]. by apply IH, call_keeps_block.
Qed.

End RateFacts.

Lemma filter_keeps_window now (pre ts : list Q) :
  (forall t, In t ts -> Qltb (now - t) 60 = true) ->
  recent_after now (pre ++ ts)
  = List.filter (fun t => Qltb (now - t) 60) pre ++ ts ++ [now].
Proof.
  intros Hts. unfold recent_after.
  rewrite List.filter_app, <- app_assoc. f_equal. f_equal.
  induction ts as [|t ts IH]; [done|]. cbn [List.filter].
  rewrite (Hts t) by (by left). f_equal. apply IH.
  intros t' Hin. apply Hts. by right.
Qed.

Lemma in_window_pair (ts : list Q) (t t' : Q) :
  in_window ts = true -> In t ts -> In t' ts -> Qltb (t' - t) 60 = true.
Proof.
  unfold in_window. rewrite forallb_forall. intros Hw Ht Ht'.
  specialize (Hw t Ht). rewrite forallb_forall in Hw. by apply Hw.
Qed.

Lemma rate_invariant_counted c now request done g :
  counted c (now, request) = true ->
  (forall t, In t done -> Qltb (now - t) 60 = true) ->
  rate_invariant c done g ->
  rate_invariant c (done ++ [now])
                 (snd (SecurityMiddleware.__call__ now request g)).
Proof.
  intros Hc Hwin [Hb|(Hlen & pre & Hrec)].
  { left. by apply RateFacts.call_keeps_block. }
  destruct (decide (c ∈ SecurityMiddleware.blocked_ips g)) as [Hb|Hb].
  { left. by apply RateFacts.call_keeps_block. }
  destruct (RateFacts.call_counted c now request g Hc Hb) as [Hrec' Hblk].
  rewrite Hrec, (filter_keeps_window now pre done Hwin) in Hrec', Hblk.
  set (kept := List.filter (fun t => Qltb (now - t) 60) pre) in *.
  destruct (decide (100 < length (kept ++ done ++ [now]))%nat) as [Hbig|Hsmall].
  - left. by apply Hblk.
  - right. split.
    + rewrite !length_app in *. cbn [length] in *. lia.
    + exists kept. by rewrite Hrec'.
Qed.

Lemma rate_invariant_run c calls :
  forall done g,
    rate_invariant c done g ->
    in_window (done ++ counted_times c calls) = true ->
    rate_invariant c (done ++ counted_times c calls)
                   (snd (SecurityMiddleware.run calls g)).
Proof.
  induction calls as [|[now request] rest IH]; intros done g Hinv Hwin.
  - cbn. by rewrite app_nil_r.
  - rewrite RateFacts.run_cons. cbn [snd]. unfold counted_times in *.
    cbn [List.filter] in *.
    destruct (counted c (now, request)) eqn:Hc.
    + cbn [List.map fst] in *.
      set (later := List.map fst (List.filter (counted c) rest)) in *.
      replace (done ++ now :: later) with ((done ++ [now]) ++ later) in *
        by (by rewrite <- app_assoc).
      apply IH; [|done].
      apply rate_invariant_counted; [done| |done].
      intros t Ht. apply (in_window_pair _ t now Hwin);
        rewrite !in_app_iff; cbn; tauto.
    + apply IH; [|done].
      destruct (RateFacts.call_not_counted c now request g Hc) as [Hrec Hblk].
      destruct Hinv as [Hb|(Hlen & pre & Hpre)].
      * left. by apply Hblk.
      * right. split; [done|]. exists pre. by rewrite Hrec.
Qed.

(** X1. Whatever the guard's state, once a run of calls holds 101 HTTP
    requests of one client that pass the structural validation, any two of
    them less than 60 seconds apart, the client is in the block set at the
    end of the run. *)
Theorem rate_limit_blocks (c : string) (calls : list (Q * Scope))
    (g : SecurityMiddleware.t) :
  (101 <= length (counted_times c calls))%nat ->
  in_window (counted_times c calls) = true ->
  c ∈ SecurityMiddleware.blocked_ips (snd (SecurityMiddleware.run calls g)).
Proof.
  intros Hmany Hwin.
  destruct (rate_invariant_run c calls [] g) as [Hb|[Hlen _]]; [| |done|].
  - destruct (decide (c ∈ SecurityMiddleware.blocked_ips g)); [by left|].
    right. split; [cbn; lia|]. exists (recorded c g). by rewrite app_nil_r.
  - done.
  - cbn [app] in Hlen. lia.
Qed.

Lemma rate_limit_blocks_witness :
  "10.0.0.7" ∈ SecurityMiddleware.blocked_ips
    (snd (SecurityMiddleware.run (burst 101) SecurityMiddleware.init)).
Proof.
  apply rate_limit_blocks.
  - vm_compute. lia.
  - vm_compute. reflexivity.
Defined.

(** X2. The block set only grows: a client in it stays in it over any run
    of calls, and each of its HTTP requests in that run is answered 403,
    whenever it arrives. *)
Theorem blocked_client_gets_403 (c : string) (calls : list (Q * Scope))
    (g : SecurityMiddleware.t) :
  c ∈ SecurityMiddleware.blocked_ips g ->
  c ∈ SecurityMiddleware.blocked_ips (snd (SecurityMiddleware.run calls g)) /\
  Forall2 (fun call r =>
             http_from c call -> r = Ok (SecurityMiddleware.Response 403))
          calls (fst (SecurityMiddleware.run calls g)).
Proof.
  intros Hb. split; [by apply RateFacts.run_keeps_block|].
  revert g Hb. induction calls as [|[now request] rest IH]; intros g Hb.
  - constructor.
  - rewrite RateFacts.run_cons. cbn [fst]. constructor.
    + intros [Hty Hip]. cbn [snd] in Hty, Hip. subst c.
      by rewrite RateFacts.call_blocked.
    + by apply IH, RateFacts.call_keeps_block.
Qed.

Lemma blocked_client_gets_403_witness :
  Forall2 (fun call r =>
             http_from "10.0.0.7" call ->
             r = Ok (SecurityMiddleware.Response 403))
          (burst 2) (fst (SecurityMiddleware.run (burst 2) blocked_guard)).
Proof.
  apply (blocked_client_gets_403 "10.0.0.7" (burst 2) blocked_guard).
  vm_compute. set_solver.
Defined.

Lemma recent_after_length now (l : list Q) :
  (length (recent_after now l) <= S (length l))%nat.
Proof.
  unfold recent_after. rewrite length_app. cbn [length].
  pose proof (List.filter_length_le (fun t => Qltb (now - t) 60) l). lia.
Qed.

(** X3. The threshold is exact from below: a client that is not blocked and
    whose stamps on record, together with its counted requests in a run,
    number at most 100 is still not blocked after the run, whatever the
    other clients do. *)
Theorem not_blocked_below_threshold (c : string) (calls : list (Q * Scope))
    (g : SecurityMiddleware.t) :
  c ∉ SecurityMiddleware.blocked_ips g ->
  (length (recorded c g) + length (counted_times c calls) <= 100)%nat ->
  c ∉ SecurityMiddleware.blocked_ips (snd (SecurityMiddleware.run calls g)).
Proof.
  revert g. induction calls as [|[now request] rest IH]; intros g Hfree Hlen.
  - done.
  - rewrite RateFacts.run_cons. cbn [snd]. unfold counted_times in *.
    cbn [List.filter] in Hlen.
    destruct (counted c (now, request)) eqn:Hc.
    + cbn [List.map length] in Hlen.
      destruct (RateFacts.call_counted c now request g Hc Hfree)
        as [Hrec Hblk].
      pose proof (recent_after_length now (recorded c g)) as Hle.
      apply IH.
      * rewrite Hblk. lia.
      * rewrite Hrec. lia.
    + destruct (RateFacts.call_not_counted c now request g Hc) as [Hrec Hblk].
      apply IH; [by rewrite Hblk|by rewrite Hrec].
Qed.

Lemma not_blocked_below_threshold_witness :
  "10.0.0.7" ∉ SecurityMiddleware.blocked_ips
    (snd (SecurityMiddleware.run (burst 100) SecurityMiddleware.init)).
Proof.
  apply not_blocked_below_threshold.
  - vm_compute. set_solver.
  - vm_compute. lia.
Defined.

Lemma Qltb_lt (x y : Q) : Qltb x y = true <-> (x < y)%Q.
Proof.
  unfold Qltb. destruct (Qlt_le_dec x y) as [Hlt|Hle]; split; try done.
  intros Hlt. exfalso. exact (Qle_not_lt _ _ Hle Hlt).
Qed.

(** X4. Pruning: right after an admitted request every stamp the guard has
    on record for that client lies less than 60 seconds before the
    request's own time, which is the last stamp; the record grew by one
    entry at most. *)
Theorem admitted_request_prunes (now : Q) (request : Scope)
    (g : SecurityMiddleware.t) :
  scope_type request = http ->
  get_remote_address request ∉ SecurityMiddleware.blocked_ips g ->
  validates request = true ->
  let c := get_remote_address request in
  let g' := snd (SecurityMiddleware.__call__ now request g) in
  Forall (fun t => (now - t < 60)%Q) (recorded c g') /\
  List.last (recorded c g') 0%Q = now /\
  (length (recorded c g') <= S (length (recorded c g)))%nat.
Proof.
  intros Hty Hfree Hval c g'.
  destruct (RateFacts.call_admitted now request g Hty Hfree Hval)
    as (g1 & Hcall & Hrc & _).
  assert (Hrec : recorded c g' = recent_after now (recorded c g)).
  { unfold g', recorded at 1. rewrite Hcall. cbn [snd].
    by rewrite Hrc, lookup_insert_eq. }
  rewrite Hrec. repeat split.
  - unfold recent_after. apply Forall_app. split.
    + apply List.Forall_forall. intros t [_ Ht]%List.filter_In.
      by apply Qltb_lt.
    + constructor; [|constructor].
      assert (Hz : (now - now == 0)%Q) by apply Qplus_opp_r.
      rewrite Hz. reflexivity.
  - unfold recent_after. apply List.last_last.
  - apply recent_after_length.
Qed.

Lemma admitted_request_prunes_witness :
  List.last (recorded "10.0.0.7"
               (snd (SecurityMiddleware.__call__ 5 plain_request
                       SecurityMiddleware.init))) 0%Q = 5%Q.
Proof.
  refine (proj1 (proj2 (admitted_request_prunes 5 plain_request
                          SecurityMiddleware.init _ _ _))).
  - reflexivity.
  - vm_compute. set_solver.
  - vm_compute. reflexivity.
Defined.

Lemma scan_headers_finds request names g name value :
  In name names ->
  headers_get (headers request) name = Some value ->
  existsb (fun pattern => Py.contains pattern (Py.lower value))
          SecurityMiddleware.injection_patterns = true ->
  fst (SecurityMiddleware.scan_headers request names g) = Ok true.
Proof.
  intros Hin Hget Hpat.
  induction names as [|header rest IH]; [destruct Hin|].
  cbn [SecurityMiddleware.scan_headers].
  destruct (headers_get (headers request) header) as [v|] eqn:Hh.
  - destruct (existsb (fun pattern => Py.contains pattern (Py.lower v))
                       SecurityMiddleware.injection_patterns) eqn:Hex;
      [reflexivity|].
    destruct Hin as [Heq|Hin]; [|by apply IH]. subst header.
    rewrite Hget in Hh. injection Hh as <-. rewrite Hpat in Hex.
    discriminate.
  - destruct Hin as [->|Hin]; [congruence|by apply IH].
Qed.

(** X5. An HTTP request of a client that is not blocked is answered 400,
    with the counters and the block set untouched, as soon as one of the six
    forwarding headers holds, in any letter case, one of the patterns
    "<script", "javascript:" or "data:"; nothing else in the request
    matters. *)
Theorem injected_header_rejected (now : Q) (request : Scope)
    (g : SecurityMiddleware.t) (name value pattern : string) :
  scope_type request = http ->
  get_remote_address request ∉ SecurityMiddleware.blocked_ips g ->
  In name SecurityMiddleware.suspicious_headers ->
  headers_get (headers request) name = Some value ->
  In pattern SecurityMiddleware.injection_patterns ->
  Py.contains pattern (Py.lower value) = true ->
  exists g', SecurityMiddleware.__call__ now request g
             = (Ok (SecurityMiddleware.Response 400), g')
             /\ same_admission g g'.
Proof.
  intros Hty Hfree Hname Hget Hpat Hcont.
  destruct (GuardFacts.validate_request_ok request g) as (b & g' & Hv & Hs).
  exists g'. split; [|done]. apply call_rejects_invalid; [done..|].
  rewrite Hv. f_equal. f_equal.
  assert (Hscan : fst (SecurityMiddleware.scan_headers request
                         SecurityMiddleware.suspicious_headers g) = Ok true).
  { apply (scan_headers_finds request _ g name value); [done..|].
    apply existsb_exists. by exists pattern. }
  revert Hv. unfold SecurityMiddleware._validate_request,
    SecurityMiddleware.validate_request_body, try_except, bind.
  destruct (SecurityMiddleware.scan_headers request
              SecurityMiddleware.suspicious_headers g) as [r g1].
  cbn [fst] in Hscan. subst r. unfold ret. congruence.
Qed.

Lemma injected_header_rejected_witness :
  exists g', SecurityMiddleware.__call__ 0 script_request
               SecurityMiddleware.init
             = (Ok (SecurityMiddleware.Response 400), g')
             /\ same_admission SecurityMiddleware.init g'.
Proof.
  apply (injected_header_rejected 0 script_request SecurityMiddleware.init
           "x-forwarded-for" "1.2.3.4 <SCRIPT>alert(1)</SCRIPT>" "<script").
  - reflexivity.
  - vm_compute. set_solver.
  - cbn. tauto.
  - reflexivity.
  - cbn. tauto.
  - vm_compute. reflexivity.
Defined.
Section AggregateFacts.
Context {ObjectId : Type} `{EqDecision ObjectId}.
Implicit Types (docs : list (@Doc ObjectId)) (acc : list (string * Z)).















End AggregateFacts.

(** ** The service on the document store *)

Section ServiceFacts.
Context {ObjectId : Type} `{EqDecision ObjectId}.
Variable ObjectId_of_str : string -> option ObjectId.
Implicit Types (w : @World ObjectId) (d : @Doc ObjectId)
               (docs : list (@Doc ObjectId)).

Ltac run_service :=
  cbv [log_and_reraise http_errors try_except bind ret raise on_host
       of_result find_one find_all delete_one update_one insert_one
       ObjectId_init logger modify get os_path_exists os_remove log_error
       with_log].

Lemma get_audio_by_id_invalid audio_id w :
  ObjectId_of_str audio_id = None ->
  get_audio_by_id ObjectId_of_str audio_id w
  = (Raise (InvalidId audio_id),
     log_error w ("Error getting audio file by ID " +:+ audio_id +:+ ": ")
               (InvalidId audio_id)).
Proof.
  intros Hid. unfold get_audio_by_id. run_service. by rewrite Hid.
Qed.

Lemma get_audio_by_id_found audio_id oid w :
  ObjectId_of_str audio_id = Some oid ->
  get_audio_by_id ObjectId_of_str audio_id w
  = match List.find (has_id oid) (store w) with
    | None => (Ok None, w)
    | Some d =>
        match AudioFile_init d with
        | Ok a => (Ok (Some a), w)
        | Raise e =>
            (Raise e,
             log_error w ("Error getting audio file by ID " +:+ audio_id
                          +:+ ": ") e)
        end
    end.
Proof.
  intros Hid. unfold get_audio_by_id. run_service. rewrite Hid.
  destruct w as [h docs]. cbn [store host].
  destruct (List.find (has_id oid) docs) as [d|]; [|done].
  by destruct (AudioFile_init d).
Qed.

Lemma delete_audio_file_invalid audio_id w :
  ObjectId_of_str audio_id = None ->
  delete_audio_file ObjectId_of_str audio_id w
  = (Raise (InvalidId audio_id),
     log_error w ("Error deleting audio file " +:+ audio_id +:+ ": ")
               (InvalidId audio_id)).
Proof.
  intros Hid. unfold delete_audio_file. run_service. by rewrite Hid.
Qed.

Lemma delete_audio_file_found audio_id oid w :
  ObjectId_of_str audio_id = Some oid ->
  delete_audio_file ObjectId_of_str audio_id w
  = match List.find (has_id oid) (store w) with
    | None => (Ok false, w)
    | Some _ => (Ok true, mkWorld (host w) (remove_first (has_id oid) (store w)))
    end.
Proof.
  intros Hid. unfold delete_audio_file. run_service. rewrite Hid.
  destruct w as [h docs]. cbn [store host].
  by destruct (List.find (has_id oid) docs).
Qed.


(** *** Lookup and removal by identifier *)

Lemma find_has_id_None oid docs :
  List.find (has_id oid) docs = None <-> ~ In oid (ids docs).
Proof.
  induction docs as [|d docs IH]; cbn [List.find ids List.map In].
  - tauto.
  - unfold has_id at 1. destruct (decide (doc_id d = oid)) as [Heq|Hne].
    + rewrite bool_decide_true by done. split; [done|]. intros Hn.
      exfalso. apply Hn. by left.
    + rewrite bool_decide_false by done. rewrite IH. unfold ids. tauto.
Qed.

Lemma find_has_id_Some oid docs d :
  List.find (has_id oid) docs = Some d -> In d docs /\ doc_id d = oid.
Proof.
  intros [Hin Hid]%List.find_some. split; [done|].
  unfold has_id in Hid. by apply bool_decide_eq_true in Hid.
Qed.

Lemma remove_first_in oid docs d :
  NoDup (ids docs) ->
  In d (remove_first (has_id oid) docs) <-> In d docs /\ doc_id d <> oid.
Proof.
  induction docs as [|d0 docs IH]; cbn [remove_first ids List.map In];
    intros Hnd.
  - tauto.
  - apply NoDup_cons in Hnd as [Hd0 Hnd]. specialize (IH Hnd).
    unfold has_id at 1. destruct (decide (doc_id d0 = oid)) as [Heq|Hne].
    + rewrite bool_decide_true by done. split.
      * intros Hin. split; [by right|]. intros Hd. apply Hd0.
        apply list_elem_of_In, in_map_iff. exists d. split; [congruence|done].
      * intros [[<-|Hin] Hd]; [done|done].
    + rewrite bool_decide_false by done. cbn [In]. rewrite IH.
      split; [intros [<-|[? ?]]; tauto|tauto].
Qed.

Lemma remove_first_ids_NoDup p docs :
  NoDup (ids docs) -> NoDup (ids (remove_first p docs)).
Proof.
  induction docs as [|d0 docs IH]; cbn [remove_first ids List.map];
    intros Hnd; [done|].
  apply NoDup_cons in Hnd as [Hd0 Hnd]. destruct (p d0); [done|].
  cbn [List.map]. apply NoDup_cons. split; [|by apply IH].
  intros Hin. apply Hd0. apply list_elem_of_In in Hin.
  apply list_elem_of_In. apply in_map_iff in Hin as (d & Hd & Hin).
  apply in_map_iff. exists d. split; [done|].
  clear -Hin. induction docs as [|d1 docs IH]; [done|].
  cbn [remove_first] in Hin. destruct (p d1); [by right|].
  destruct Hin as [<-|Hin]; [by left|right; by apply IH].
Qed.

Lemma remove_first_gone oid docs :
  NoDup (ids docs) ->
  List.find (has_id oid) (remove_first (has_id oid) docs) = None.
Proof.
  intros Hnd. apply find_has_id_None.
  intros (d & Hid & Hin)%in_map_iff.
  apply (remove_first_in oid docs d Hnd) in Hin as [_ Hne]. done.
Qed.

(** X7. Deleting by a well-formed identifier is exactly-once: with
    distinct identifiers in the collection, [delete_audio_file] answers
    whether the identifier was there and removes that one document and no
    other, the host untouched; a second call answers false and changes
    nothing, and [get_audio_by_id] then finds nothing. *)
Theorem delete_is_exactly_once (audio_id : string) (oid : ObjectId) w :
  ObjectId_of_str audio_id = Some oid ->
  NoDup (ids (store w)) ->
  let w1 := snd (delete_audio_file ObjectId_of_str audio_id w) in
  fst (delete_audio_file ObjectId_of_str audio_id w)
  = Ok (bool_decide (oid ∈ ids (store w))) /\
  host w1 = host w /\
  (forall d, In d (store w1) <-> In d (store w) /\ doc_id d <> oid) /\
  delete_audio_file ObjectId_of_str audio_id w1 = (Ok false, w1) /\
  get_audio_by_id ObjectId_of_str audio_id w1 = (Ok None, w1).
Proof.
  intros Hid Hnd w1. unfold w1.
  rewrite (delete_audio_file_found _ _ _ Hid).
  destruct (List.find (has_id oid) (store w)) as [d|] eqn:Hfind.
  - apply find_has_id_Some in Hfind as [Hin Hd]. cbn [fst snd host store].
    assert (Hgone := remove_first_gone oid (store w) Hnd).
    split_and!.
    + rewrite bool_decide_true; [done|].
      apply list_elem_of_In, in_map_iff. by exists d.
    + done.
    + intros d0. by apply remove_first_in.
    + rewrite (delete_audio_file_found _ _ _ Hid). cbn [store].
      by rewrite Hgone.
    + rewrite (get_audio_by_id_found _ _ _ Hid). cbn [store].
      by rewrite Hgone.
  - assert (Hnot := proj1 (find_has_id_None oid (store w)) Hfind).
    cbn [fst snd]. split_and!.
    + rewrite bool_decide_false; [done|]. by rewrite list_elem_of_In.
    + done.
    + intros d. split; [|tauto]. intros Hin. split; [done|].
      intros Hd. apply Hnot, in_map_iff. by exists d.
    + rewrite (delete_audio_file_found _ _ _ Hid). by rewrite Hfind.
    + rewrite (get_audio_by_id_found _ _ _ Hid). by rewrite Hfind.
Qed.

End ServiceFacts.

Lemma sample_ids_NoDup : NoDup (ids sample_docs).
Proof. apply (bool_decide_unpack _). vm_compute. exact I. Qed.

Lemma delete_is_exactly_once_witness :
  get_audio_by_id hex24_of_str id_3
    (snd (delete_audio_file hex24_of_str id_3 sample_world))
  = (Ok None, snd (delete_audio_file hex24_of_str id_3 sample_world)).
Proof.
  apply (delete_is_exactly_once hex24_of_str id_3 id_3 sample_world).
  - vm_compute. reflexivity.
  - apply (bool_decide_unpack _). vm_compute. exact I.
Defined.

(** ** The model validators *)

Lemma mem_In (x : string) (l : list string) : Py.mem x l = true <-> In x l.
Proof.
  unfold Py.mem. rewrite existsb_exists. split.
  - intros (y & Hy & Heq). apply String.eqb_eq in Heq. by subst.
  - intros Hin. exists x. split; [done|apply String.eqb_refl].
Qed.

Lemma validate_language_Ok v l :
  validate_language v = Ok l <-> l = Py.lower v /\ In l allowed_languages.
Proof.
  unfold validate_language.
  destruct (Py.mem (Py.lower v) allowed_languages) eqn:Hm; cbn [negb].
  - apply mem_In in Hm. split; [intros [= <-]; by split|].
    by intros [-> _].
  - split; [done|]. intros [-> Hin]. apply mem_In in Hin. congruence.
Qed.

Lemma validate_format_Ok v f :
  validate_format v = Ok f <-> f = Py.lower v /\ In f allowed_formats.
Proof.
  unfold validate_format.
  destruct (Py.mem (Py.lower v) allowed_formats) eqn:Hm; cbn [negb].
  - apply mem_In in Hm. split; [intros [= <-]; by split|].
    by intros [-> _].
  - split; [done|]. intros [-> Hin]. apply mem_In in Hin. congruence.
Qed.

(** X8. What the two field validators accept is in normal form: the
    accepted value is the lower-cased input, it is one of the listed
    languages (formats), and validating it again gives it back unchanged,
    so a stored value survives every later read. *)
Theorem validators_normal_form :
  (forall v l, validate_language v = Ok l ->
     l = Py.lower v /\ In l allowed_languages /\ validate_language l = Ok l) /\
  (forall v f, validate_format v = Ok f ->
     f = Py.lower v /\ In f allowed_formats /\ validate_format f = Ok f).
Proof.
  split.
  - intros v l [-> Hin]%validate_language_Ok. split_and!; [done..|].
    apply validate_language_Ok. by rewrite lower_idemp.
  - intros v f [-> Hin]%validate_format_Ok. split_and!; [done..|].
    apply validate_format_Ok. by rewrite lower_idemp.
Qed.

Lemma validators_normal_form_witness :
  "arabic" = Py.lower "Arabic" /\ In "arabic" allowed_languages
  /\ validate_language "arabic" = Ok "arabic".
Proof.
  apply (proj1 validators_normal_form "Arabic" "arabic"). reflexivity.
Defined.

Section CreateFacts.
Context {ObjectId : Type} `{EqDecision ObjectId}.
Variable ObjectId_of_str : string -> option ObjectId.
Implicit Types (w : @World ObjectId) (d : @Doc ObjectId).

Lemma AudioFile_init_normal d :
  In (doc_language d) allowed_languages ->
  In (doc_format d) allowed_formats ->
  Py.lower (doc_language d) = doc_language d ->
  Py.lower (doc_format d) = doc_format d ->
  AudioFile_init d = Ok (audio_of_doc d).
Proof.
  intros Hl Hf Hll Hfl. unfold AudioFile_init.
  rewrite (proj2 (validate_language_Ok (doc_language d) (doc_language d)))
    by by rewrite Hll.
  rewrite (proj2 (validate_format_Ok (doc_format d) (doc_format d)))
    by by rewrite Hfl.
  reflexivity.
Qed.

Lemma find_has_id_snoc (oid : ObjectId) (docs : list (@Doc ObjectId)) d :
  ~ In oid (ids docs) -> doc_id d = oid ->
  List.find (has_id oid) (docs ++ [d]) = Some d.
Proof.
  intros Hnot Hd. induction docs as [|d0 docs IH]; cbn [app List.find].
  - unfold has_id. by rewrite bool_decide_true.
  - unfold has_id at 1. rewrite bool_decide_false.
    + apply IH. intros Hin. apply Hnot. by right.
    + intros Heq. apply Hnot. by left.
Qed.

Lemma existsb_has_id_false (oid : ObjectId) (docs : list (@Doc ObjectId)) :
  ~ In oid (ids docs) -> existsb (has_id oid) docs = false.
Proof.
  intros Hnot. apply not_true_is_false. intros (d & Hin & Hd)%existsb_exists.
  apply Hnot, in_map_iff. exists d. split; [|done].
  unfold has_id in Hd. by apply bool_decide_eq_true in Hd.
Qed.

(** X9. Insert and look-up round trip: creating a record from a model
    that passed [AudioFileCreate]'s validators, under an identifier not
    yet in the collection, appends exactly one document, leaves the host
    untouched and answers the model of that document; the language and
    format it holds are the lower-cased inputs; looking the identifier up
    afterwards gives the same answer. *)
Theorem create_then_get (inserted_id : ObjectId) (now now' : Z)
    (language filename url format : string) (file_size : Z)
    (duration : option Q) (data : AudioFileCreate) (audio_id : string) w :
  AudioFileCreate_init language filename url file_size duration format
  = Ok data ->
  ~ In inserted_id (ids (store w)) ->
  ObjectId_of_str audio_id = Some inserted_id ->
  let d := doc_of_create inserted_id now now' data in
  let w' := mkWorld (host w) (store w ++ [d]) in
  create_audio_file inserted_id now now' data w = (Ok (audio_of_doc d), w') /\
  doc_language d = Py.lower language /\
  doc_format d = Py.lower format /\
  get_audio_by_id ObjectId_of_str audio_id w' = (Ok (Some (audio_of_doc d)), w').
Proof.
  intros Hdata Hfresh Hid d w'.
  unfold AudioFileCreate_init in Hdata.
  destruct (validate_language language) as [l|] eqn:Hl; [|done].
  destruct (validate_format format) as [f|] eqn:Hf; [|done].
  injection Hdata as <-.
  apply validate_language_Ok in Hl as [-> Hlin].
  apply validate_format_Ok in Hf as [-> Hfin].
  assert (Hinit : AudioFile_init d = Ok (audio_of_doc d)).
  { apply AudioFile_init_normal; cbn; try done; apply lower_idemp. }
  assert (Hfind : List.find (has_id inserted_id) (store w ++ [d]) = Some d)
    by by apply find_has_id_snoc.
  split_and!; [|done|done|].
  - unfold create_audio_file.
    cbv [log_and_reraise try_except bind ret raise insert_one find_one
         of_result].
    cbn [doc_id store host].
    rewrite (existsb_has_id_false _ _ Hfresh). cbn [store].
    unfold w', d, doc_of_create in *. by rewrite Hfind, Hinit.
  - rewrite (get_audio_by_id_found _ _ _ _ Hid). unfold w' at 1.
    cbn [store]. by rewrite Hfind, Hinit.
Qed.

End CreateFacts.

Lemma create_then_get_witness :
  get_audio_by_id hex24_of_str id_9
    (mkWorld (host sample_world)
       (store sample_world
        ++ [doc_of_create id_9 1 2
              (mkCreate "en" "en_x.mp3" 12 None "mp3" "http://h/en_x.mp3")]))
  = (Ok (Some (audio_of_doc
                 (doc_of_create id_9 1 2
                    (mkCreate "en" "en_x.mp3" 12 None "mp3"
                              "http://h/en_x.mp3")))),
     mkWorld (host sample_world)
       (store sample_world
        ++ [doc_of_create id_9 1 2
              (mkCreate "en" "en_x.mp3" 12 None "mp3" "http://h/en_x.mp3")])).
Proof.
  apply (create_then_get hex24_of_str id_9 1 2 "EN" "en_x.mp3"
           "http://h/en_x.mp3" "MP3" 12 None _ id_9 sample_world).
  - vm_compute. reflexivity.
  - vm_compute. intuition discriminate.
  - vm_compute. reflexivity.
Defined.

Section UpdateFacts.
Context {ObjectId : Type} `{EqDecision ObjectId}.
Variable ObjectId_of_str : string -> option ObjectId.
Implicit Types (w : @World ObjectId) (d : @Doc ObjectId)
               (docs : list (@Doc ObjectId)).

Lemma find_replace_first (oid : ObjectId) (f : Doc -> Doc) docs d :
  (forall x, doc_id (f x) = doc_id x) ->
  List.find (has_id oid) docs = Some d ->
  List.find (has_id oid) (replace_first (has_id oid) f docs) = Some (f d).
Proof.
  intros Hf. induction docs as [|d0 docs IH]; cbn [List.find replace_first];
    [done|].
  destruct (has_id oid d0) eqn:Hd0.
  - intros [= ->]. cbn [List.find]. unfold has_id in *.
    by rewrite Hf, Hd0.
  - intros Hfind. cbn [List.find]. rewrite Hd0. by apply IH.
Qed.

Lemma replace_first_others (oid : ObjectId) (f : Doc -> Doc) docs x :
  (forall y, doc_id (f y) = doc_id y) ->
  doc_id x <> oid ->
  In x (replace_first (has_id oid) f docs) <-> In x docs.
Proof.
  intros Hf Hx. induction docs as [|d0 docs IH]; cbn [replace_first];
    [done|].
  destruct (has_id oid d0) eqn:Hd0; cbn [In]; [|by rewrite IH].
  unfold has_id in Hd0. apply bool_decide_eq_true in Hd0.
  split; (intros [Heq|Hin]; [|by right]); exfalso; apply Hx; subst x;
    [by rewrite Hf|done].
Qed.

Lemma update_audio_file_run now audio_id oid upd w :
  ObjectId_of_str audio_id = Some oid ->
  update_audio_file ObjectId_of_str now audio_id upd w
  = match List.find (has_id oid) (store w) with
    | None => (Ok None, w)
    | Some d =>
        if decide (apply_set upd now d = d) then (Ok None, w)
        else
          let w' := mkWorld (host w)
                      (replace_first (has_id oid) (apply_set upd now)
                                     (store w)) in
          match List.find (has_id oid) (store w') with
          | Some d' =>
              match AudioFile_init d' with
              | Ok a => (Ok (Some a), w')
              | Raise e =>
                  (Raise e,
                   log_error w' ("Error updating audio file " +:+ audio_id
                                 +:+ ": ") e)
              end
          | None =>
              (Raise (TypeError "argument after ** must be a mapping"),
               log_error w' ("Error updating audio file " +:+ audio_id
                             +:+ ": ")
                 (TypeError "argument after ** must be a mapping"))
          end
    end.
Proof.
  intros Hid. unfold update_audio_file.
  cbv [log_and_reraise try_except bind ret raise on_host of_result find_one
       update_one ObjectId_init logger modify log_error with_log].
  rewrite Hid. destruct w as [h docs]. cbn [store host].
  destruct (List.find (has_id oid) docs) as [d|]; [|done].
  destruct (decide (apply_set upd now d = d)); [done|].
  cbn [Z.ltb Z.compare store host].
  destruct (List.find (has_id oid) (replace_first _ _ docs)) as [d'|];
    [|done].
  by destruct (AudioFile_init d').
Qed.

(** X10. [update_audio_file] with a well-formed identifier. A missing
    document and an update that changes nothing both answer [None] and
    leave everything as it is. Otherwise the patched document replaces
    the old one, other documents are untouched, and only then is the
    patched document validated: an invalid one makes the call raise with
    the change already in the collection. *)
Theorem update_commits_before_validating (now : Z) (audio_id : string)
    (oid : ObjectId) (upd : AudioFileUpdate) w :
  ObjectId_of_str audio_id = Some oid ->
  (List.find (has_id oid) (store w) = None ->
   update_audio_file ObjectId_of_str now audio_id upd w = (Ok None, w)) /\
  (forall d, List.find (has_id oid) (store w) = Some d ->
     apply_set upd now d = d ->
     update_audio_file ObjectId_of_str now audio_id upd w = (Ok None, w)) /\
  (forall d, List.find (has_id oid) (store w) = Some d ->
     apply_set upd now d <> d ->
     let d' := apply_set upd now d in
     let w' := snd (update_audio_file ObjectId_of_str now audio_id upd w) in
     List.find (has_id oid) (store w') = Some d' /\
     (forall x, doc_id x <> oid -> In x (store w') <-> In x (store w)) /\
     fst (update_audio_file ObjectId_of_str now audio_id upd w)
     = match AudioFile_init d' with
       | Ok a => Ok (Some a)
       | Raise e => Raise e
       end).
Proof.
  intros Hid. rewrite (update_audio_file_run _ _ _ _ _ Hid).
  split_and!.
  - by intros ->.
  - intros d -> Hsame. by rewrite decide_True.
  - intros d Hfind Hdiff d' w'. unfold w'. clear w'.
    rewrite Hfind. destruct (decide (apply_set upd now d = d)); [done|].
    cbn zeta.
    assert (Hid' : forall x : @Doc ObjectId,
               doc_id (apply_set upd now x) = doc_id x) by done.
    cbn [store].
    rewrite (find_replace_first oid _ _ d Hid' Hfind). fold d'.
    destruct (AudioFile_init d') as [a|e]; cbn [fst snd store log_error];
      (split_and!; [by apply find_replace_first
                   |intros x Hx; by apply replace_first_others|done]).
Qed.

End UpdateFacts.

Lemma update_commits_before_validating_witness :
  List.find (has_id id_1)
    (store (snd (update_audio_file hex24_of_str 1700000100 id_1
                   language_patch sample_world)))
  = Some (apply_set language_patch 1700000100 (sample_doc id_1 "en" "en_a.mp3")).
Proof.
  refine (proj1 (proj2 (proj2 (update_commits_before_validating hex24_of_str
            1700000100 id_1 id_1 language_patch sample_world _))
            (sample_doc id_1 "en" "en_a.mp3") _ _)).
  - vm_compute. reflexivity.
  - vm_compute. reflexivity.
  - discriminate.
Defined.

Section MalformedId.
Context {ObjectId : Type} `{EqDecision ObjectId}.
Variable ObjectId_of_str : string -> option ObjectId.
Implicit Types (w : @World ObjectId).

Lemma router_delete_invalid (st : Settings) (audio_id : string) w :
  ObjectId_of_str audio_id = None ->
  router_delete_audio_file ObjectId_of_str st audio_id w
  = (Raise (HTTPException 500 "Failed to delete audio file"),
     log_error
       (log_error w ("Error getting audio file by ID " +:+ audio_id +:+ ": ")
                  (InvalidId audio_id))
       ("Error deleting audio file " +:+ audio_id +:+ ": ")
       (InvalidId audio_id)).
Proof.
  intros Hid. unfold router_delete_audio_file, http_errors, try_except.
  unfold bind at 1. by rewrite (get_audio_by_id_invalid _ _ _ Hid).
Qed.

(** X11. An identifier that [ObjectId] refuses makes look-up, deletion
    and update raise [InvalidId] with one error record logged and nothing
    else changed; the delete handler turns this into a 500, not a 400 or
    404, with the collection and the files as they were. *)
Theorem malformed_id_is_a_500 (st : Settings) (now : Z) (audio_id : string)
    (upd : AudioFileUpdate) w :
  ObjectId_of_str audio_id = None ->
  get_audio_by_id ObjectId_of_str audio_id w
  = (Raise (InvalidId audio_id),
     log_error w ("Error getting audio file by ID " +:+ audio_id +:+ ": ")
               (InvalidId audio_id)) /\
  delete_audio_file ObjectId_of_str audio_id w
  = (Raise (InvalidId audio_id),
     log_error w ("Error deleting audio file " +:+ audio_id +:+ ": ")
               (InvalidId audio_id)) /\
  update_audio_file ObjectId_of_str now audio_id upd w
  = (Raise (InvalidId audio_id),
     log_error w ("Error updating audio file " +:+ audio_id +:+ ": ")
               (InvalidId audio_id)) /\
  (let r := router_delete_audio_file ObjectId_of_str st audio_id w in
   fst r = Raise (HTTPException 500 "Failed to delete audio file") /\
   status_code (fst r) = 500 /\
   store (snd r) = store w /\
   files (host (snd r)) = files (host w)).
Proof.
  intros Hid. split_and!.
  - by apply get_audio_by_id_invalid.
  - by apply delete_audio_file_invalid.
  - unfold update_audio_file.
    cbv [log_and_reraise try_except bind ret raise on_host ObjectId_init
         logger modify log_error with_log].
    by rewrite Hid.
  - cbv zeta. by rewrite (router_delete_invalid _ _ _ Hid).
Qed.

End MalformedId.

Lemma malformed_id_is_a_500_witness :
  get_audio_by_id hex24_of_str "not-an-id" sample_world
  = (Raise (InvalidId "not-an-id"),
     log_error sample_world "Error getting audio file by ID not-an-id: "
               (InvalidId "not-an-id")).
Proof.
  apply (malformed_id_is_a_500 hex24_of_str default_settings 0 "not-an-id"
           language_patch sample_world).
  vm_compute. reflexivity.
Defined.

(** ** The handlers *)

Section DeleteHandler.
Context {ObjectId : Type} `{EqDecision ObjectId}.
Variable ObjectId_of_str : string -> option ObjectId.
Implicit Types (w : @World ObjectId) (d : @Doc ObjectId)
               (a : @AudioFile ObjectId).

Lemma AudioFile_init_Raise d e :
  AudioFile_init d = Raise e -> exists msg, e = ValidationError msg.
Proof.
  unfold AudioFile_init, validate_language, validate_format.
  destruct (negb (Py.mem (Py.lower (doc_language d)) allowed_languages)).
  { intros [= <-]. by eexists. }
  destruct (negb (Py.mem (Py.lower (doc_format d)) allowed_formats));
    [|done].
  intros [= <-]. by eexists.
Qed.

Lemma router_delete_run (st : Settings) (audio_id : string) (oid : ObjectId)
    w :
  ObjectId_of_str audio_id = Some oid ->
  router_delete_audio_file ObjectId_of_str st audio_id w
  = match List.find (has_id oid) (store w) with
    | None => (Raise (HTTPException 404 "Audio file not found"), w)
    | Some d =>
        match AudioFile_init d with
        | Raise e =>
            (Raise (HTTPException 500 "Failed to delete audio file"),
             log_error
               (log_error w ("Error getting audio file by ID " +:+ audio_id
                             +:+ ": ") e)
               ("Error deleting audio file " +:+ audio_id +:+ ": ") e)
        | Ok a =>
            let docs' := remove_first (has_id oid) (store w) in
            let path := file_path_of st a in
            match files (host w) !! path with
            | None =>
                (Ok "Audio file deleted successfully", mkWorld (host w) docs')
            | Some _ =>
                if decide (path ∈ denied (host w)) then
                  (Raise (HTTPException 500 "Failed to delete audio file"),
                   log_error (mkWorld (host w) docs')
                     ("Error deleting audio file " +:+ audio_id +:+ ": ")
                     (OSError path))
                else
                  (Ok "Audio file deleted successfully",
                   mkWorld (without_file (host w) path) docs')
            end
        end
    end.
Proof.
  intros Hid. unfold router_delete_audio_file, http_errors, try_except.
  unfold bind at 1. rewrite (get_audio_by_id_found _ _ _ _ Hid).
  destruct (List.find (has_id oid) (store w)) as [d|] eqn:Hfind; [|done].
  destruct (AudioFile_init d) as [a|e] eqn:Hinit;
    [|by destruct (AudioFile_init_Raise d e Hinit) as [msg ->]].
  unfold bind at 1. rewrite (delete_audio_file_found _ _ _ _ Hid), Hfind.
  cbn [negb]. fold (file_path_of st a).
  cbv [bind on_host os_path_exists os_remove ret raise logger modify
       log_error with_log without_file].
  destruct w as [h docs]. cbn [host store] in *.
  destruct (files h !! file_path_of st a) as [data|] eqn:Hfile.
  - rewrite bool_decide_true by by eexists.
    cbn [host store]. rewrite Hfile.
    by destruct (decide (file_path_of st a ∈ denied h)).
  - rewrite bool_decide_false; [done|]. by intros [? ?].
Qed.


(** X12. The delete handler on a well-formed identifier, the identifiers
    in the collection being distinct. Unknown identifier: 404, nothing
    changes. Known and readable document: the document is removed from the
    collection in every case; the answer is 200 when its file is absent or
    could be unlinked, and 500 when the unlink was refused, the file then
    still being there (the record is gone all the same); a second request
    for the same identifier is answered 404. A document that fails the
    model's validators cannot be deleted: 500, nothing removed. *)
Theorem delete_handler_outcomes (st : Settings) (audio_id : string)
    (oid : ObjectId) w :
  ObjectId_of_str audio_id = Some oid ->
  NoDup (ids (store w)) ->
  let r := router_delete_audio_file ObjectId_of_str st audio_id w in
  (List.find (has_id oid) (store w) = None ->
     status_code (fst r) = 404 /\ snd r = w) /\
  (forall d e, List.find (has_id oid) (store w) = Some d ->
     AudioFile_init d = Raise e ->
     status_code (fst r) = 500 /\ store (snd r) = store w /\
     files (host (snd r)) = files (host w)) /\
  (forall d a, List.find (has_id oid) (store w) = Some d ->
     AudioFile_init d = Ok a ->
     let path := file_path_of st a in
     (forall x, In x (store (snd r)) <-> In x (store w) /\ doc_id x <> oid) /\
     (files (host w) !! path = None ->
        status_code (fst r) = 200 /\ host (snd r) = host w) /\
     (is_Some (files (host w) !! path) -> path ∉ denied (host w) ->
        status_code (fst r) = 200 /\
        files (host (snd r)) = delete path (files (host w))) /\
     (is_Some (files (host w) !! path) -> path ∈ denied (host w) ->
        status_code (fst r) = 500 /\
        files (host (snd r)) = files (host w)) /\
     status_code
       (fst (router_delete_audio_file ObjectId_of_str st audio_id (snd r)))
     = 404).
Proof.
  intros Hid Hnd r. unfold r. clear r.
  rewrite (router_delete_run st _ _ w Hid).
  split_and!.
  - by intros ->.
  - intros d e Hfind Hinit. rewrite Hfind, Hinit. by cbn.
  - intros d a Hfind Hinit. rewrite Hfind, Hinit. cbv zeta.
    set (path := file_path_of st a).
    assert (Hgone := remove_first_gone oid (store w) Hnd).
    assert (Hstore : forall x,
               In x (remove_first (has_id oid) (store w))
               <-> In x (store w) /\ doc_id x <> oid)
      by (intros x; by apply remove_first_in).
    destruct (files (host w) !! path) as [data|] eqn:Hfile.
    + destruct (decide (path ∈ denied (host w))) as [Hden|Hfree];
        cbn [fst snd store host status_code log_error without_file files];
        (split_and!;
         [done
         |done
         |try done; by intros _ ?
         |try done; by intros _ ?
         |rewrite (router_delete_run st _ _ _ Hid);
          cbn [store log_error]; by rewrite Hgone]).
    + cbn [fst snd store host status_code]. split_and!.
      * done.
      * done.
      * by intros [? ?].
      * by intros [? ?].
      * rewrite (router_delete_run st _ _ _ Hid). cbn [store].
        by rewrite Hgone.
Qed.

End DeleteHandler.

Lemma delete_handler_outcomes_witness :
  status_code (fst (router_delete_audio_file hex24_of_str default_settings
                      id_1 locked_world)) = 500
  /\ files (host (snd (router_delete_audio_file hex24_of_str default_settings
                         id_1 locked_world)))
     = files (host locked_world).
Proof.
  refine (proj1 (proj2 (proj2 (proj2 (proj2 (proj2
            (delete_handler_outcomes hex24_of_str default_settings id_1 id_1
               locked_world _ _))
            (sample_doc id_1 "en" "en_a.mp3")
            (audio_of_doc (sample_doc id_1 "en" "en_a.mp3")) _ _)))) _ _).
  - vm_compute. reflexivity.
  - apply (bool_decide_unpack _). vm_compute. exact I.
  - vm_compute. reflexivity.
  - vm_compute. reflexivity.
  - vm_compute. by eexists.
  - vm_compute. set_solver.
Defined.

Lemma hex_digit_is_hex (n : N) : is_hex_digit (hex_digit n) = true.
Proof.
  destruct n as [|p]; [reflexivity|].
  do 4 (destruct p as [p|p|]; try reflexivity).
Qed.

Lemma hex_go_length (digits : nat) (n : N) (acc : string) :
  String.length (hex_go digits n acc) = (digits + String.length acc)%nat.
Proof.
  revert n acc. induction digits as [|d IH]; intros n acc; cbn [hex_go].
  - reflexivity.
  - rewrite IH. cbn [String.length]. lia.
Qed.

Lemma hex_go_all_hex (digits : nat) (n : N) (acc : string) :
  all_chars is_hex_digit acc = true ->
  all_chars is_hex_digit (hex_go digits n acc) = true.
Proof.
  revert n acc. induction digits as [|d IH]; intros n acc Hacc; cbn [hex_go].
  - done.
  - apply IH. cbn [all_chars]. by rewrite hex_digit_is_hex.
Qed.

Lemma save_uploaded_file_ok st upload_file name h :
  AUDIO_FILES_PATH st ∉ denied h ->
  os_path_join (AUDIO_FILES_PATH st) name ∉ denied h ->
  save_uploaded_file st upload_file name h
  = (Ok (os_path_join (AUDIO_FILES_PATH st) name),
     with_log (with_file h (os_path_join (AUDIO_FILES_PATH st) name)
                         (content upload_file))
       (mkLog INFO ("File saved successfully: "
                    +:+ os_path_join (AUDIO_FILES_PATH st) name) None)).
Proof.
  intros Hd Hp.
  unfold save_uploaded_file, try_except, bind, os_makedirs, write_file, logger,
    modify, ret, with_log, with_file.
  by rewrite !decide_False.
Qed.

Lemma get_file_size_present path data h :
  files h !! path = Some data ->
  get_file_size path h = (Ok (Z.of_nat (length data)), h).
Proof.
  intros Hf. unfold get_file_size, try_except, os_path_getsize.
  by rewrite Hf.
Qed.

Section UploadHandler.
Context {ObjectId : Type} `{EqDecision ObjectId}.
Variable ObjectId_of_str : string -> option ObjectId.
Variable str_of_ObjectId : ObjectId -> string.
Implicit Types (w : @World ObjectId) (d : @Doc ObjectId).

Lemma on_host_run {A} (m : M Host A) w :
  on_host m w = (fst (m (host w)), mkWorld (snd (m (host w))) (store w)).
Proof. unfold on_host. by destruct (m (host w)). Qed.

(** The handler once the validator has let the file through and the host
    accepts the write. *)
Lemma router_upload_saved (st : Settings) (uuid4 : N)
    (inserted_id : ObjectId) (now now' : Z) (file : UploadFile)
    (language : string) w :
  fst (validate_audio_file st file) = true ->
  AUDIO_FILES_PATH st ∉ denied (host w) ->
  os_path_join (AUDIO_FILES_PATH st) (unique_filename_of uuid4 file language)
    ∉ denied (host w) ->
  let w1 := mkWorld (host_after_save st uuid4 file language (host w))
                    (store w) in
  router_upload_audio_file str_of_ObjectId st uuid4 inserted_id now now'
                           file language w
  = http_errors "Error uploading audio file: " "Failed to upload audio file"
      (audio_data <- of_result
         (AudioFileCreate_init (normalize_language_code language)
            (unique_filename_of uuid4 file language)
            (generate_file_url st (unique_filename_of uuid4 file language))
            (Z.of_nat (length (content file))) None
            (file_extension_of (default "" (filename file)))) ;;
       audio_file <- create_audio_file inserted_id now now' audio_data ;;
       ret {| message := "Audio file uploaded successfully";
              audio_file := to_response str_of_ObjectId audio_file |}) w1.
Proof.
  intros Hvalid Hdir Hpath w1.
  unfold router_upload_audio_file.
  destruct (validate_audio_file st file) as [is_valid error_message].
  cbn [fst] in Hvalid. subst is_valid. cbn [negb].
  fold (unique_filename_of uuid4 file language).
  set (name := unique_filename_of uuid4 file language) in *.
  set (path := os_path_join (AUDIO_FILES_PATH st) name) in *.
  unfold http_errors, try_except. unfold bind at 1 3.
  rewrite on_host_run, (save_uploaded_file_ok _ _ _ _ Hdir Hpath).
  cbn [fst snd]. fold path. unfold bind at 1 3.
  rewrite on_host_run. cbn [host store].
  rewrite (get_file_size_present path (content file)).
  - reflexivity.
  - cbn [with_log with_file files]. apply lookup_insert_eq.
Qed.


(** The code the service looks a language up under. *)
Lemma normalized_is_fixed (language : string) :
  let n := normalize_language_code language in
  Py.lower n = n /\
  (if Py.mem (Py.lower n) ["english"; "en"] then "en"
   else if Py.mem (Py.lower n) ["arabic"; "ar"] then "ar"
   else Py.lower n) = n.
Proof.
  intros n.
  assert (Hn : n = Py.dict_get language_map (Py.strip (Py.lower language))
                     (Py.strip (Py.lower language))) by reflexivity.
  clearbody n. rewrite dict_get_language_map in Hn.
  set (c := Py.strip (Py.lower language)) in *.
  assert (Hc : Py.lower c = c) by apply strip_lowered, lower_idemp.
  clearbody c.
  destruct (String.eqb "english" c) eqn:H1;
    [subst n; split; reflexivity|].
  destruct (String.eqb "eng" c) eqn:H2; [subst n; split; reflexivity|].
  destruct (String.eqb "arabic" c) eqn:H3; [subst n; split; reflexivity|].
  destruct (String.eqb "ara" c) eqn:H4; [subst n; split; reflexivity|].
  subst n. rewrite Hc. split; [done|].
  unfold Py.mem. cbn [existsb]. rewrite !(String.eqb_sym c), H1, H3.
  cbn [orb].
  destruct (String.eqb_spec "en" c) as [<-|_]; [done|].
  by destruct (String.eqb_spec "ar" c) as [<-|_].
Qed.

(** X13. The look-up handler composes the two normalisations without
    loss: the service's own alias table leaves a code that the handler
    has normalised as it is. So the handler answers with the first
    document, in insertion order, whose language is
    [normalize_language_code] of the input, read through the model's
    validators (a 500 if they refuse it), and with 404 when there is
    none; the state changes in the log alone. *)
Theorem lookup_by_language_finds_first (language : string) w :
  router_get_audio_by_language str_of_ObjectId language w
  = match List.find
            (fun d => String.eqb (doc_language d)
                                 (normalize_language_code language))
            (store w) with
    | None =>
        (Raise (HTTPException 404
                  ("No audio file found for language: " +:+ language)), w)
    | Some d =>
        match AudioFile_init d with
        | Ok a => (Ok (to_response str_of_ObjectId a), w)
        | Raise e =>
            (Raise (HTTPException 500 "Failed to retrieve audio file"),
             log_error
               (log_error w
                  ("Error getting audio by language "
                   +:+ normalize_language_code language +:+ ": ") e)
               ("Error getting audio for language " +:+ language +:+ ": ")
               e)
        end
    end.
Proof.
  unfold router_get_audio_by_language, http_errors, try_except.
  unfold bind at 1. unfold get_audio_by_language.
  destruct (normalized_is_fixed language) as [_ Hfix]. cbv zeta in Hfix.
  rewrite Hfix.
  cbv [log_and_reraise try_except bind ret raise on_host of_result find_one
       logger modify log_error with_log].
  destruct w as [h docs]. cbn [store host].
  destruct (List.find _ docs) as [d|]; [|done].
  destruct (AudioFile_init d) as [a|e] eqn:Hinit; [done|].
  by destruct (AudioFile_init_Raise d e Hinit) as [msg ->].
Qed.


Lemma create_audio_file_fresh (inserted_id : ObjectId) (now now' : Z)
    (data : AudioFileCreate) (a : AudioFile) w :
  ~ In inserted_id (ids (store w)) ->
  AudioFile_init (doc_of_create inserted_id now now' data) = Ok a ->
  create_audio_file inserted_id now now' data w
  = (Ok a, mkWorld (host w)
             (store w ++ [doc_of_create inserted_id now now' data])).
Proof.
  intros Hfresh Hinit.
  assert (Hfind : List.find (has_id inserted_id)
                    (store w ++ [doc_of_create inserted_id now now' data])
                  = Some (doc_of_create inserted_id now now' data))
    by by apply find_has_id_snoc.
  unfold create_audio_file.
  cbv [log_and_reraise try_except bind ret raise insert_one find_one
       of_result].
  cbn [doc_id store host].
  rewrite (existsb_has_id_false _ _ Hfresh). cbn [store].
  unfold doc_of_create in *. by rewrite Hfind, Hinit.
Qed.

Lemma create_audio_file_duplicate (inserted_id : ObjectId) (now now' : Z)
    (data : AudioFileCreate) w :
  In inserted_id (ids (store w)) ->
  create_audio_file inserted_id now now' data w
  = (Raise DuplicateKeyError,
     log_error w "Error creating audio file: " DuplicateKeyError).
Proof.
  intros Hin.
  assert (Hex : existsb (has_id inserted_id) (store w) = true).
  { apply existsb_exists. apply in_map_iff in Hin as (x & Hx & Hin).
    exists x. split; [done|]. unfold has_id. by apply bool_decide_eq_true. }
  unfold create_audio_file.
  cbv [log_and_reraise try_except bind ret raise insert_one find_one
       of_result on_host logger modify log_error with_log].
  cbn [doc_id store host]. by rewrite Hex.
Qed.

Lemma router_get_audio_by_language_found (language : string) w d a :
  List.find (fun x => String.eqb (doc_language x)
                                 (normalize_language_code language))
            (store w) = Some d ->
  AudioFile_init d = Ok a ->
  router_get_audio_by_language str_of_ObjectId language w
  = (Ok (to_response str_of_ObjectId a), w).
Proof.
  intros Hfind Hinit.
  unfold router_get_audio_by_language, http_errors, try_except.
  unfold bind at 1. unfold get_audio_by_language.
  destruct (normalized_is_fixed language) as [_ Hfix]. cbv zeta in Hfix.
  rewrite Hfix.
  cbv [log_and_reraise try_except bind ret raise on_host of_result find_one].
  by rewrite Hfind, Hinit.
Qed.

Lemma save_uploaded_file_denied st upload_file name h :
  AUDIO_FILES_PATH st ∈ denied h \/
  os_path_join (AUDIO_FILES_PATH st) name ∈ denied h ->
  exists p h', save_uploaded_file st upload_file name h
               = (Raise (OSError p), h') /\ files h' = files h.
Proof.
  intros Hden.
  unfold save_uploaded_file, try_except, bind, os_makedirs, write_file,
    logger, modify, ret, raise.
  destruct (decide (AUDIO_FILES_PATH st ∈ denied h)) as [Hd|Hd].
  { by eexists _, _. }
  destruct Hden as [Hden|Hden]; [done|].
  rewrite (decide_True _ _ Hden). by eexists _, _.
Qed.

Lemma In_literal_lowered (v : string) (l : list string) :
  In v l -> Forall (fun x => Py.lower x = x) l -> Py.lower v = v.
Proof. intros Hin Hall. rewrite List.Forall_forall in Hall. by apply Hall. Qed.

Lemma allowed_languages_lowered :
  Forall (fun x => Py.lower x = x) allowed_languages.
Proof. repeat constructor. Qed.

Lemma allowed_formats_lowered :
  Forall (fun x => Py.lower x = x) allowed_formats.
Proof. repeat constructor. Qed.

Lemma upload_model_init (st : Settings) (uuid4 : N) (file : UploadFile)
    (language : string) :
  In (normalize_language_code language) allowed_languages ->
  In (file_extension_of (default "" (filename file))) allowed_formats ->
  AudioFileCreate_init (normalize_language_code language)
    (unique_filename_of uuid4 file language)
    (generate_file_url st (unique_filename_of uuid4 file language))
    (Z.of_nat (length (content file))) None
    (file_extension_of (default "" (filename file)))
  = Ok (upload_model st uuid4 file language).
Proof.
  intros Hlang Hfmt.
  pose proof (In_literal_lowered _ _ Hlang allowed_languages_lowered) as Hll.
  pose proof (In_literal_lowered _ _ Hfmt allowed_formats_lowered) as Hfl.
  unfold AudioFileCreate_init.
  rewrite (proj2 (validate_language_Ok _ (normalize_language_code language)))
    by by rewrite Hll.
  rewrite (proj2 (validate_format_Ok _
             (file_extension_of (default "" (filename file)))))
    by by rewrite Hfl.
  reflexivity.
Qed.

Lemma upload_doc_init (st : Settings) (uuid4 : N) (inserted_id : ObjectId)
    (now now' : Z) (file : UploadFile) (language : string) :
  In (normalize_language_code language) allowed_languages ->
  In (file_extension_of (default "" (filename file))) allowed_formats ->
  let d := doc_of_create inserted_id now now'
             (upload_model st uuid4 file language) in
  AudioFile_init d = Ok (audio_of_doc d).
Proof.
  intros Hlang Hfmt d.
  apply AudioFile_init_normal; try done.
  - exact (In_literal_lowered _ _ Hlang allowed_languages_lowered).
  - exact (In_literal_lowered _ _ Hfmt allowed_formats_lowered).
Qed.

Lemma router_upload_ok (st : Settings) (uuid4 : N)
    (inserted_id : ObjectId) (now now' : Z) (file : UploadFile)
    (language : string) w :
  fst (validate_audio_file st file) = true ->
  In (normalize_language_code language) allowed_languages ->
  In (file_extension_of (default "" (filename file))) allowed_formats ->
  AUDIO_FILES_PATH st ∉ denied (host w) ->
  os_path_join (AUDIO_FILES_PATH st) (unique_filename_of uuid4 file language)
    ∉ denied (host w) ->
  ~ In inserted_id (ids (store w)) ->
  let d := doc_of_create inserted_id now now'
             (upload_model st uuid4 file language) in
  router_upload_audio_file str_of_ObjectId st uuid4 inserted_id now now'
                           file language w
  = (Ok {| message := "Audio file uploaded successfully";
           audio_file := to_response str_of_ObjectId (audio_of_doc d) |},
     mkWorld (host_after_save st uuid4 file language (host w))
             (store w ++ [d])).
Proof.
  intros Hvalid Hlang Hfmt Hdir Hpath Hfresh d.
  pose proof (upload_doc_init st uuid4 inserted_id now now' file language
                Hlang Hfmt) as Hinit. cbv zeta in Hinit. fold d in Hinit.
  rewrite (router_upload_saved st uuid4 inserted_id now now' file language
             w Hvalid Hdir Hpath).
  unfold http_errors, try_except. unfold bind at 1. unfold of_result.
  rewrite (upload_model_init st uuid4 file language Hlang Hfmt).
  unfold bind at 1.
  rewrite (create_audio_file_fresh inserted_id now now'
             (upload_model st uuid4 file language) (audio_of_doc d));
    done.
Qed.

(** X14. A successful upload. When the validator lets the file through,
    the normalised language and the extension are among those the model
    accepts, the host takes the write and the identifier is new, the
    handler stores the bytes under
    [language_uuidhex.extension] in the audio directory, with 32
    lower-case hexadecimal digits in the middle, appends one document and
    answers with it: its language is the normalised input, its format the
    lower-cased extension, its size the number of bytes written. If no
    earlier document has that language, a look-up by the same input
    returns this very record. *)
Theorem upload_stores_and_answers (st : Settings) (uuid4 : N)
    (inserted_id : ObjectId) (now now' : Z) (file : UploadFile)
    (language : string) w :
  fst (validate_audio_file st file) = true ->
  In (normalize_language_code language) allowed_languages ->
  In (file_extension_of (default "" (filename file))) allowed_formats ->
  AUDIO_FILES_PATH st ∉ denied (host w) ->
  os_path_join (AUDIO_FILES_PATH st) (unique_filename_of uuid4 file language)
    ∉ denied (host w) ->
  ~ In inserted_id (ids (store w)) ->
  let d := doc_of_create inserted_id now now'
             (upload_model st uuid4 file language) in
  let w' := mkWorld (host_after_save st uuid4 file language (host w))
                    (store w ++ [d]) in
  let answer := to_response str_of_ObjectId (audio_of_doc d) in
  router_upload_audio_file str_of_ObjectId st uuid4 inserted_id now now'
                           file language w
  = (Ok {| message := "Audio file uploaded successfully";
           audio_file := answer |}, w') /\
  r_language answer = normalize_language_code language /\
  r_format answer = file_extension_of (default "" (filename file)) /\
  r_file_size answer = Z.of_nat (length (content file)) /\
  r_filename answer
  = normalize_language_code language +:+ "_" +:+ uuid_hex uuid4 +:+ "."
    +:+ file_extension_of (default "" (filename file)) /\
  String.length (uuid_hex uuid4) = 32%nat /\
  all_chars is_hex_digit (uuid_hex uuid4) = true /\
  files (host w')
    !! os_path_join (AUDIO_FILES_PATH st) (r_filename answer)
  = Some (content file) /\
  ((forall x, In x (store w) ->
      doc_language x <> normalize_language_code language) ->
   router_get_audio_by_language str_of_ObjectId language w'
   = (Ok answer, w')).
Proof.
  intros Hvalid Hlang Hfmt Hdir Hpath Hfresh d w' answer.
  pose proof (upload_doc_init st uuid4 inserted_id now now' file language
                Hlang Hfmt) as Hinit. cbv zeta in Hinit. fold d in Hinit.
  split_and!; [|reflexivity..| | | |].
  - by apply router_upload_ok.
  - apply hex_go_length.
  - by apply hex_go_all_hex.
  - cbn [r_filename answer to_response audio_of_doc af_filename d
         doc_of_create doc_filename upload_model afc_filename w' host
         host_after_save with_log with_file files].
    apply lookup_insert_eq.
  - intros Hnone.
    apply (router_get_audio_by_language_found language w' d); [|done].
    cbn [store w'].
    clear -Hnone. induction (store w) as [|x l IH]; cbn [app List.find].
    + cbn [d doc_of_create doc_language upload_model afc_language].
      by rewrite String.eqb_refl.
    + destruct (String.eqb_spec (doc_language x)
                  (normalize_language_code language)) as [Heq|_].
      * exfalso. apply (Hnone x); [by left|done].
      * apply IH. intros y Hy. apply Hnone. by right.
Qed.

Lemma router_upload_cases (st : Settings) (uuid4 : N)
    (inserted_id : ObjectId) (now now' : Z) (file : UploadFile)
    (language : string) w :
  let d := doc_of_create inserted_id now now'
             (upload_model st uuid4 file language) in
  match router_upload_audio_file str_of_ObjectId st uuid4 inserted_id
          now now' file language w with
  | (Ok answer, w') =>
      ~ In inserted_id (ids (store w)) /\
      w' = mkWorld (host_after_save st uuid4 file language (host w))
                   (store w ++ [d]) /\
      audio_file answer = to_response str_of_ObjectId (audio_of_doc d)
  | (Raise e, w') =>
      store w' = store w /\
      ((e = HTTPException 400
              (default "" (snd (validate_audio_file st file))) /\
        fst (validate_audio_file st file) = false /\ w' = w) \/
       (e = HTTPException 500 "Failed to upload audio file" /\
        fst (validate_audio_file st file) = true))
  end.
Proof.
  intros d.
  destruct (fst (validate_audio_file st file)) eqn:Hvalid.
  2:{ unfold router_upload_audio_file.
      destruct (validate_audio_file st file) as [is_valid error_message].
      cbn [fst] in Hvalid. subst is_valid. cbn [negb snd].
      unfold http_errors, try_except, raise. by split; [|left]. }
  set (name := unique_filename_of uuid4 file language).
  destruct (decide (AUDIO_FILES_PATH st ∈ denied (host w) \/
                    os_path_join (AUDIO_FILES_PATH st) name
                      ∈ denied (host w))) as [Hden|Hok].
  { destruct (save_uploaded_file_denied st file name (host w) Hden)
      as (p & h' & Hsave & _).
    unfold router_upload_audio_file.
    destruct (validate_audio_file st file) as [is_valid error_message].
    cbn [fst] in Hvalid. subst is_valid. cbn [negb].
    fold (unique_filename_of uuid4 file language). fold name.
    unfold http_errors, try_except. unfold bind at 1.
    rewrite on_host_run, Hsave. cbn [fst snd].
    cbv [bind on_host logger modify raise]. cbn [host store].
    by split; [|right]. }
  assert (Hdir : AUDIO_FILES_PATH st ∉ denied (host w))
    by (intros Hin; apply Hok; by left).
  assert (Hpath : os_path_join (AUDIO_FILES_PATH st) name ∉ denied (host w))
    by (intros Hin; apply Hok; by right).
  rewrite (router_upload_saved st uuid4 inserted_id now now' file language
             w Hvalid Hdir Hpath).
  unfold http_errors, try_except. unfold bind at 1. unfold of_result.
  unfold AudioFileCreate_init.
  destruct (validate_language (normalize_language_code language))
    as [l|e] eqn:Hl.
  2:{ unfold validate_language in Hl.
      destruct (negb _) in Hl; [|done]. injection Hl as <-.
      cbv [bind on_host logger modify raise]. cbn [host store].
      by split; [|right]. }
  destruct (validate_format (file_extension_of (default "" (filename file))))
    as [f|e] eqn:Hf.
  2:{ unfold validate_format in Hf.
      destruct (negb _) in Hf; [|done]. injection Hf as <-.
      cbv [bind on_host logger modify raise]. cbn [host store].
      by split; [|right]. }
  apply validate_language_Ok in Hl as [-> Hlin].
  apply validate_format_Ok in Hf as [-> Hfin].
  destruct (normalized_is_fixed language) as [Hll _]. cbv zeta in Hll.
  assert (Hfl : Py.lower (file_extension_of (default "" (filename file)))
                = file_extension_of (default "" (filename file)))
    by apply lower_idemp.
  rewrite Hll in Hlin |- *. rewrite Hfl in Hfin |- *.
  fold (upload_model st uuid4 file language).
  unfold bind at 1.
  destruct (in_dec (fun x y => decide (x = y)) inserted_id (ids (store w)))
    as [Hdup|Hfresh].
  { rewrite (create_audio_file_duplicate inserted_id now now' _
               (mkWorld (host_after_save st uuid4 file language (host w))
                        (store w)) Hdup).
    cbv [bind on_host logger modify raise log_error]. cbn [host store].
    by split; [|right]. }
  pose proof (upload_doc_init st uuid4 inserted_id now now' file language
                Hlin Hfin) as Hinit. cbv zeta in Hinit. fold d in Hinit.
  rewrite (create_audio_file_fresh inserted_id now now'
             (upload_model st uuid4 file language) (audio_of_doc d));
    [|done|done].
  cbn [ret bind store host audio_file]. unfold ret. by split_and!.
Qed.



(** X16. An upload in a language the model does not accept leaves an
    orphan file. The validator looks at the file alone, so the handler
    writes the bytes to disk first and builds the model afterwards; when
    the normalised language is none of en, ar, english, arabic the
    constructor refuses it, the handler answers 500, no document is
    stored, and the file written under the new name stays on disk. *)
Theorem rejected_language_leaves_orphan_file (st : Settings) (uuid4 : N)
    (inserted_id : ObjectId) (now now' : Z) (file : UploadFile)
    (language : string) w :
  fst (validate_audio_file st file) = true ->
  ~ In (normalize_language_code language) allowed_languages ->
  AUDIO_FILES_PATH st ∉ denied (host w) ->
  os_path_join (AUDIO_FILES_PATH st) (unique_filename_of uuid4 file language)
    ∉ denied (host w) ->
  let r := router_upload_audio_file str_of_ObjectId st uuid4 inserted_id
             now now' file language w in
  fst r = Raise (HTTPException 500 "Failed to upload audio file") /\
  store (snd r) = store w /\
  files (host (snd r))
  = <[os_path_join (AUDIO_FILES_PATH st)
        (unique_filename_of uuid4 file language) := content file]>
      (files (host w)).
Proof.
  intros Hvalid Hlang Hdir Hpath r. unfold r.
  rewrite (router_upload_saved st uuid4 inserted_id now now' file language
             w Hvalid Hdir Hpath).
  unfold http_errors, try_except. unfold bind at 1. unfold of_result.
  unfold AudioFileCreate_init.
  destruct (validate_language (normalize_language_code language))
    as [l|e] eqn:Hl.
  { apply validate_language_Ok in Hl as [-> Hlin].
    destruct (normalized_is_fixed language) as [Hll _]. cbv zeta in Hll.
    by rewrite Hll in Hlin. }
  unfold validate_language in Hl.
  destruct (negb _) in Hl; [|done]. injection Hl as <-.
  cbv [bind on_host logger modify raise]. cbn [host store fst snd].
  done.
Qed.

End UploadHandler.

Lemma upload_stores_and_answers_witness :
  r_filename
    (to_response str_of_hex24
       (audio_of_doc
          (doc_of_create id_9 1 2
             (upload_model default_settings 255 mp3_upload " English "))))
  = "en_000000000000000000000000000000ff.mp3".
Proof.
  destruct (upload_stores_and_answers str_of_hex24 default_settings 255 id_9
              1 2 mp3_upload " English " sample_world)
    as (_ & _ & _ & _ & Hname & _).
  - vm_compute. reflexivity.
  - vm_compute. tauto.
  - vm_compute. tauto.
  - vm_compute. set_solver.
  - vm_compute. set_solver.
  - vm_compute. intuition discriminate.
  - rewrite Hname. vm_compute. reflexivity.
Defined.

Lemma rejected_language_leaves_orphan_file_witness :
  fst (router_upload_audio_file str_of_hex24 default_settings 255 id_9 1 2
         mp3_upload "fr" sample_world)
  = Raise (HTTPException 500 "Failed to upload audio file").
Proof.
  apply (rejected_language_leaves_orphan_file str_of_hex24 default_settings
           255 id_9 1 2 mp3_upload "fr" sample_world).
  - vm_compute. reflexivity.
  - vm_compute. intuition discriminate.
  - vm_compute. set_solver.
  - vm_compute. set_solver.
Defined.

(** ** The extension of a file name *)

Lemma split_nonempty (sep : ascii) (s : string) : Py.split sep s <> [].
Proof.
  destruct s as [|c s]; cbn [Py.split]; [done|].
  destruct (Ascii.eqb c sep); [done|]. by destruct (Py.split sep s).
Qed.

Lemma split_no_sep (sep : ascii) (s : string) :
  all_chars (fun c => negb (Ascii.eqb c sep)) s = true ->
  Py.split sep s = [s].
Proof.
  induction s as [|c s IH]; cbn [all_chars Py.split]; [done|].
  intros [Hc Hs]%andb_prop. apply negb_true_iff in Hc. rewrite Hc.
  by rewrite (IH Hs).
Qed.

Lemma split_app (sep : ascii) (a b : string) :
  Py.split sep (a +:+ String sep b) = Py.split sep a ++ Py.split sep b.
Proof.
  induction a as [|c a IH].
  - change ("" +:+ String sep b) with (String sep b). cbn [Py.split app].
    by rewrite Ascii.eqb_refl.
  - change (String c a +:+ String sep b)
      with (String c (a +:+ String sep b)).
    cbn [Py.split]. destruct (Ascii.eqb c sep); [by rewrite IH|].
    rewrite IH. pose proof (split_nonempty sep a) as Hne.
    by destruct (Py.split sep a).
Qed.

Lemma last_app_nonempty {A} (l l' : list A) (x : A) :
  l' <> [] -> List.last (l ++ l') x = List.last l' x.
Proof.
  intros Hne. induction l as [|a l IH]; [done|].
  cbn [app]. rewrite <- IH. cbn [List.last].
  destruct (l ++ l') eqn:Happ; [|done].
  by apply app_eq_nil in Happ as [_ ->].
Qed.

(** X17. The extension the validator and the upload handler work with is
    the lower-cased text after the last dot of the file name, and the whole
    lower-cased name when it has no dot: only the last dot counts, whatever
    stands before it. *)
Theorem extension_is_text_after_last_dot (base ext : string) :
  all_chars (fun c => negb (Ascii.eqb c ".")) ext = true ->
  file_extension_of (base +:+ "." +:+ ext) = Py.lower ext /\
  file_extension_of ext = Py.lower ext.
Proof.
  intros Hext. unfold file_extension_of, Py.last_item.
  change ("." +:+ ext) with (String "." ext).
  rewrite split_app, (last_app_nonempty _ _ _ (split_nonempty "." ext)).
  by rewrite (split_no_sep _ _ Hext).
Qed.

Lemma extension_is_text_after_last_dot_witness :
  file_extension_of "setup.exe.MP3" = "mp3" /\ file_extension_of "MP3" = "mp3".
Proof.
  apply (extension_is_text_after_last_dot "setup.exe" "MP3").
  vm_compute. reflexivity.
Defined.

(** X18. With the settings the code ships with, whatever the validator
    lets through has an extension that the model accepts as a format, so
    the model can refuse an upload for its language only; "ogg", which the
    model accepts, never passes the validator. *)
Theorem validated_format_fits_model (file : UploadFile) :
  fst (validate_audio_file default_settings file) = true ->
  In (file_extension_of (default "" (filename file))) allowed_formats /\
  file_extension_of (default "" (filename file)) <> "ogg" /\
  filename file <> None /\ filename file <> Some "".
Proof.
  rewrite validate_audio_file_in_order. unfold validate_in_order.
  cbn [checks_in_order List.find].
  destruct (check_passes default_settings file SizeLimit); cbn [negb fst];
    [|done].
  destruct (check_passes default_settings file FilenamePresent) eqn:Hname;
    cbn [negb fst]; [|done].
  destruct (check_passes default_settings file ExtensionAllowed) eqn:Hext;
    cbn [negb fst]; [|done].
  intros _. cbn [check_passes] in Hname, Hext.
  destruct (filename file) as [name|]; [|done].
  cbn [default from_option]. unfold id.
  apply mem_In in Hext. cbn [default_settings ALLOWED_AUDIO_FORMATS] in Hext.
  split_and!; [|by intros Heq; rewrite Heq in Hext; cbn in Hext;
                 intuition discriminate|done|].
  - unfold allowed_formats. cbn [In] in *. tauto.
  - intros [= ->]. done.
Qed.

Lemma validated_format_fits_model_witness :
  In (file_extension_of (default "" (filename mp3_upload))) allowed_formats.
Proof.
  apply (validated_format_fits_model mp3_upload).
  vm_compute. reflexivity.
Defined.

Section Lifecycle.
Context {ObjectId : Type} `{EqDecision ObjectId}.
Variable ObjectId_of_str : string -> option ObjectId.
Variable str_of_ObjectId : ObjectId -> string.
Implicit Types (w : @World ObjectId) (d : @Doc ObjectId).

Lemma router_serve_run (st : Settings) (name : string) w :
  router_serve_audio_file st name w
  = match files (host w) !! os_path_join (AUDIO_FILES_PATH st) name with
    | Some _ =>
        (Ok {| fr_path := os_path_join (AUDIO_FILES_PATH st) name;
               fr_media_type := "audio/mpeg"; fr_filename := name |}, w)
    | None => (Raise (HTTPException 404 "Audio file not found"), w)
    end.
Proof.
  unfold router_serve_audio_file, http_errors, try_except.
  cbv [bind on_host os_path_exists ret raise]. destruct w as [h docs].
  cbn [host store].
  destruct (files h !! os_path_join (AUDIO_FILES_PATH st) name) eqn:Hf.
  - by rewrite bool_decide_true by by eexists.
  - rewrite bool_decide_false; [done|]. by intros [? ?].
Qed.

Lemma remove_first_snoc (oid : ObjectId) (docs : list (@Doc ObjectId)) d :
  ~ In oid (ids docs) -> doc_id d = oid ->
  remove_first (has_id oid) (docs ++ [d]) = docs.
Proof.
  intros Hnot Hd. induction docs as [|d0 docs IH]; cbn [app remove_first].
  - unfold has_id. by rewrite bool_decide_true.
  - unfold has_id at 1. rewrite bool_decide_false.
    + f_equal. apply IH. intros Hin. apply Hnot. by right.
    + intros Heq. apply Hnot. by left.
Qed.

(** X19. The life of an upload. After a successful upload the serving
    handler finds the file under the name the answer carries and offers it
    as audio/mpeg, whatever its format; deleting the new record through the
    delete handler succeeds, puts the collection back to what it was before
    the upload and unlinks the file, after which the serving handler
    answers 404 and so does a second deletion. *)
Theorem upload_serve_delete_lifecycle (st : Settings) (uuid4 : N)
    (inserted_id : ObjectId) (now now' : Z) (file : UploadFile)
    (language audio_id : string) w :
  fst (validate_audio_file st file) = true ->
  In (normalize_language_code language) allowed_languages ->
  In (file_extension_of (default "" (filename file))) allowed_formats ->
  AUDIO_FILES_PATH st ∉ denied (host w) ->
  os_path_join (AUDIO_FILES_PATH st) (unique_filename_of uuid4 file language)
    ∉ denied (host w) ->
  ~ In inserted_id (ids (store w)) ->
  ObjectId_of_str audio_id = Some inserted_id ->
  let name := unique_filename_of uuid4 file language in
  let path := os_path_join (AUDIO_FILES_PATH st) name in
  let w1 := snd (router_upload_audio_file str_of_ObjectId st uuid4
                   inserted_id now now' file language w) in
  let w2 := snd (router_delete_audio_file ObjectId_of_str st audio_id w1) in
  router_serve_audio_file st name w1
  = (Ok {| fr_path := path; fr_media_type := "audio/mpeg";
           fr_filename := name |}, w1) /\
  files (host w1) !! path = Some (content file) /\
  fst (router_delete_audio_file ObjectId_of_str st audio_id w1)
  = Ok "Audio file deleted successfully" /\
  store w2 = store w /\
  files (host w2) = delete path (files (host w)) /\
  fst (router_serve_audio_file st name w2)
  = Raise (HTTPException 404 "Audio file not found") /\
  fst (router_delete_audio_file ObjectId_of_str st audio_id w2)
  = Raise (HTTPException 404 "Audio file not found").
Proof.
  intros Hvalid Hlang Hfmt Hdir Hpath Hfresh Hid name path w1 w2.
  set (d := doc_of_create inserted_id now now'
              (upload_model st uuid4 file language)).
  assert (Hw1 : w1 = mkWorld (host_after_save st uuid4 file language (host w))
                             (store w ++ [d])).
  { unfold w1. by rewrite router_upload_ok. }
  assert (Hfile : files (host w1) !! path = Some (content file)).
  { rewrite Hw1. cbn [host host_after_save with_log with_file files].
    apply lookup_insert_eq. }
  assert (Hinit : AudioFile_init d = Ok (audio_of_doc d))
    by by apply upload_doc_init.
  assert (Hfind : List.find (has_id inserted_id) (store w1) = Some d).
  { rewrite Hw1. cbn [store]. by apply find_has_id_snoc. }
  assert (Hdel : router_delete_audio_file ObjectId_of_str st audio_id w1
                 = (Ok "Audio file deleted successfully",
                    mkWorld (without_file (host w1) path) (store w))).
  { rewrite (router_delete_run _ st audio_id inserted_id w1 Hid).
    rewrite Hfind, Hinit. cbv zeta.
    change (file_path_of st (audio_of_doc d)) with path.
    rewrite Hfile. rewrite decide_False.
    - rewrite Hw1 at 2. cbn [store]. by rewrite remove_first_snoc.
    - by rewrite Hw1. }
  assert (Hw2 : w2 = mkWorld (without_file (host w1) path) (store w)).
  { unfold w2. by rewrite Hdel. }
  assert (Hgone : files (host w2) !! path = None).
  { rewrite Hw2. cbn [host without_file files]. apply lookup_delete_eq. }
  split_and!.
  - rewrite router_serve_run. fold path. by rewrite Hfile.
  - done.
  - by rewrite Hdel.
  - by rewrite Hw2.
  - rewrite Hw2, Hw1.
    cbn [host without_file host_after_save with_log with_file files].
    apply delete_insert_eq.
  - rewrite router_serve_run. fold path. by rewrite Hgone.
  - rewrite (router_delete_run _ st audio_id inserted_id w2 Hid).
    rewrite Hw2. cbn [store].
    by rewrite (proj2 (find_has_id_None inserted_id (store w)) Hfresh).
Qed.

End Lifecycle.

Lemma upload_serve_delete_lifecycle_witness :
  fst (router_serve_audio_file default_settings
         (unique_filename_of 255 mp3_upload "en")
         (snd (router_delete_audio_file hex24_of_str default_settings id_9
                 (snd (router_upload_audio_file str_of_hex24 default_settings
                         255 id_9 1 2 mp3_upload "en" sample_world)))))
  = Raise (HTTPException 404 "Audio file not found").
Proof.
  apply (upload_serve_delete_lifecycle hex24_of_str str_of_hex24
           default_settings 255 id_9 1 2 mp3_upload "en" id_9 sample_world).
  - vm_compute. reflexivity.
  - vm_compute. tauto.
  - vm_compute. tauto.
  - vm_compute. set_solver.
  - vm_compute. set_solver.
  - vm_compute. intuition discriminate.
  - vm_compute. reflexivity.
Defined.

Section Listing.
Context {ObjectId : Type} `{EqDecision ObjectId}.
Variable ObjectId_of_str : string -> option ObjectId.
Variable str_of_ObjectId : ObjectId -> string.
Implicit Types (w : @World ObjectId) (d : @Doc ObjectId)
               (docs : list (@Doc ObjectId)).

Lemma AudioFile_init_valid d :
  doc_valid d = true ->
  AudioFile_init d
  = Ok (mkAudio (doc_id d) (Py.lower (doc_language d)) (doc_filename d)
                (doc_url d) (doc_file_size d) (doc_duration d)
                (Py.lower (doc_format d)) (doc_created_at d)
                (doc_updated_at d)).
Proof.
  unfold doc_valid, AudioFile_init, validate_language, validate_format.
  intros [-> ->]%andb_prop. reflexivity.
Qed.

Lemma AudioFile_init_invalid d :
  doc_valid d = false -> exists msg, AudioFile_init d = Raise (ValidationError msg).
Proof.
  unfold doc_valid, AudioFile_init, validate_language, validate_format.
  destruct (Py.mem (Py.lower (doc_language d)) allowed_languages);
    cbn [andb negb]; [|by eexists].
  intros ->. cbn [negb]. by eexists.
Qed.

Lemma AudioFile_init_all_valid docs :
  forallb doc_valid docs = true ->
  exists l, AudioFile_init_all docs = Ok l /\
            Forall2 (shows str_of_ObjectId)
                    (List.map (to_response str_of_ObjectId) l) docs.
Proof.
  induction docs as [|d docs IH]; cbn [forallb AudioFile_init_all].
  - intros _. exists []. split; [done|constructor].
  - intros [Hd Hrest]%andb_prop. destruct (IH Hrest) as (l & -> & Hall).
    rewrite (AudioFile_init_valid d Hd). eexists. split; [done|].
    cbn [List.map]. constructor; [|done]. by unfold shows.
Qed.

Lemma AudioFile_init_all_invalid docs :
  forallb doc_valid docs = false ->
  exists msg, AudioFile_init_all docs = Raise (ValidationError msg).
Proof.
  induction docs as [|d docs IH]; cbn [forallb AudioFile_init_all]; [done|].
  destruct (doc_valid d) eqn:Hd; cbn [andb].
  - intros Hrest. destruct (IH Hrest) as (msg & ->).
    rewrite (AudioFile_init_valid d Hd). by eexists.
  - intros _. destruct (AudioFile_init_invalid d Hd) as (msg & ->).
    by eexists.
Qed.

Lemma forallb_doc_valid_false docs d :
  In d docs -> doc_valid d = false -> forallb doc_valid docs = false.
Proof.
  intros Hin Hd. apply not_true_is_false. intros Hall.
  rewrite forallb_forall in Hall. specialize (Hall d Hin). congruence.
Qed.

Lemma router_get_all_invalid w :
  forallb doc_valid (store w) = false ->
  exists h', router_get_all_audio_files str_of_ObjectId w
    = (Raise (HTTPException 500 "Failed to retrieve audio files"),
       mkWorld h' (store w)) /\ files h' = files (host w).
Proof.
  intros Hall. destruct (AudioFile_init_all_invalid _ Hall) as (msg & Hinit).
  unfold router_get_all_audio_files, get_all_audio_files.
  cbv [log_and_reraise try_except bind ret raise find_all of_result on_host
       logger modify].
  rewrite Hinit. cbn [host store]. by eexists.
Qed.

(** X20. The listing handler is all or nothing. When the model's
    validators accept every stored document, it answers with one entry per
    document, in insertion order, showing the document's identifier, file
    name, address and size and its language and format in lower case, and
    changes nothing. A single document they refuse takes the whole listing
    down: the answer is 500 "Failed to retrieve audio files", for every
    document alike, the collection and the files staying as they are. *)
Theorem listing_is_all_or_nothing w :
  let r := router_get_all_audio_files str_of_ObjectId w in
  if forallb doc_valid (store w) then
    exists l, r = (Ok l, w) /\ Forall2 (shows str_of_ObjectId) l (store w)
  else
    fst r = Raise (HTTPException 500 "Failed to retrieve audio files") /\
    store (snd r) = store w /\
    files (host (snd r)) = files (host w).
Proof.
  intros r. unfold r.
  destruct (forallb doc_valid (store w)) eqn:Hall.
  - destruct (AudioFile_init_all_valid _ Hall) as (l & Hinit & Hshows).
    exists (List.map (to_response str_of_ObjectId) l). split; [|done].
    unfold router_get_all_audio_files, get_all_audio_files.
    cbv [log_and_reraise try_except bind ret raise find_all of_result].
    by rewrite Hinit.
  - destruct (router_get_all_invalid w Hall) as (h' & -> & Hfiles).
    by cbn [fst snd store host].
Qed.

Lemma In_replace_first (oid : ObjectId) (f : Doc -> Doc) docs d :
  List.find (has_id oid) docs = Some d ->
  In (f d) (replace_first (has_id oid) f docs).
Proof.
  induction docs as [|d0 docs IH]; cbn [List.find replace_first]; [done|].
  destruct (has_id oid d0).
  - intros [= ->]. by left.
  - intros Hfind. right. by apply IH.
Qed.

Lemma update_audio_file_store now audio_id upd w :
  let w' := snd (update_audio_file ObjectId_of_str now audio_id upd w) in
  store w' = store w \/
  exists oid d,
    ObjectId_of_str audio_id = Some oid /\
    List.find (has_id oid) (store w) = Some d /\
    store w' = replace_first (has_id oid) (apply_set upd now) (store w).
Proof.
  intros w'. unfold w'. clear w'.
  destruct (ObjectId_of_str audio_id) as [oid|] eqn:Hid.
  - rewrite (update_audio_file_run _ now audio_id oid upd w Hid).
    destruct (List.find (has_id oid) (store w)) as [d|] eqn:Hfind;
      [|by left].
    destruct (decide (apply_set upd now d = d)); [by left|].
    right. exists oid, d. split_and!; [done|done|]. cbv zeta.
    cbn [store].
    destruct (List.find (has_id oid) (replace_first _ _ _)) as [d'|];
      [destruct (AudioFile_init d')|]; reflexivity.
  - left. unfold update_audio_file, ObjectId_init. rewrite Hid.
    by cbv [log_and_reraise try_except bind raise on_host logger modify].
Qed.

(** X21. An update can take the listing down. [update_audio_file] stores
    the new language without asking the model's validators, so after it
    has been called for a stored document with a language outside en, ar,
    english, arabic, whether it then reports an error or not, that document
    is in the collection with a language the model refuses and the listing
    handler answers 500 for the whole collection. *)
Theorem unvalidated_update_breaks_listing (now : Z) (audio_id : string)
    (oid : ObjectId) (upd : AudioFileUpdate) (language : string) d w :
  ObjectId_of_str audio_id = Some oid ->
  List.find (has_id oid) (store w) = Some d ->
  upd_language upd = Some language ->
  ~ In (Py.lower language) allowed_languages ->
  let w' := snd (update_audio_file ObjectId_of_str now audio_id upd w) in
  (exists d', In d' (store w') /\ doc_id d' = oid /\
              doc_language d' = language) /\
  fst (router_get_all_audio_files str_of_ObjectId w')
  = Raise (HTTPException 500 "Failed to retrieve audio files").
Proof.
  intros Hid Hfind Hupd Hbad w'.
  assert (Hlang : doc_language (apply_set upd now d) = language).
  { cbn [apply_set doc_language]. by rewrite Hupd. }
  assert (Hdoc : In (apply_set upd now d) (store w')).
  { unfold w'. rewrite (update_audio_file_run _ now audio_id oid upd w Hid).
    rewrite Hfind.
    destruct (decide (apply_set upd now d = d)) as [Heq|Hne].
    - cbn [snd]. rewrite Heq. by apply find_has_id_Some in Hfind as [? _].
    - cbv zeta.
      assert (Hin : In (apply_set upd now d)
                      (replace_first (has_id oid) (apply_set upd now)
                                     (store w)))
        by by apply In_replace_first.
      cbn [store].
      destruct (List.find (has_id oid) (replace_first _ _ _)) as [d'|];
        [destruct (AudioFile_init d')|]; exact Hin. }
  split.
  - exists (apply_set upd now d). split_and!; [done| |done].
    cbn [apply_set doc_id]. by apply find_has_id_Some in Hfind as [_ ?].
  - assert (Hinvalid : doc_valid (apply_set upd now d) = false).
    { unfold doc_valid. rewrite Hlang.
      destruct (Py.mem (Py.lower language) allowed_languages) eqn:Hm;
        [|done].
      by apply mem_In in Hm. }
    destruct (router_get_all_invalid w'
                (forallb_doc_valid_false _ _ Hdoc Hinvalid)) as (h' & -> & _).
    done.
Qed.

Lemma replace_first_ids (p : Doc -> bool) (f : Doc -> Doc) docs :
  (forall x, doc_id (f x) = doc_id x) ->
  ids (replace_first p f docs) = ids docs.
Proof.
  intros Hf. induction docs as [|d0 docs IH]; cbn [replace_first]; [done|].
  destruct (p d0); cbn [ids List.map]; [by rewrite Hf|].
  f_equal. exact IH.
Qed.

Lemma router_delete_store (st : Settings) (audio_id : string) w :
  let w' := snd (router_delete_audio_file ObjectId_of_str st audio_id w) in
  store w' = store w \/
  exists oid, ObjectId_of_str audio_id = Some oid /\
              store w' = remove_first (has_id oid) (store w).
Proof.
  intros w'. unfold w'. clear w'.
  destruct (ObjectId_of_str audio_id) as [oid|] eqn:Hid.
  - rewrite (router_delete_run _ st audio_id oid w Hid).
    destruct (List.find (has_id oid) (store w)) as [d|]; [|by left].
    destruct (AudioFile_init d) as [a|e]; [|by left].
    right. exists oid. split; [done|]. cbv zeta.
    destruct (files (host w) !! file_path_of st a); [|done].
    by destruct (decide (file_path_of st a ∈ denied (host w))).
  - left. by rewrite (router_delete_invalid _ st audio_id w Hid).
Qed.

(** X22. The identifiers in the collection stay distinct: no upload,
    deletion or update, whatever its arguments and whether it succeeds or
    fails, leaves two documents with the same identifier. *)
Theorem ids_stay_distinct (st : Settings) (uuid4 : N)
    (inserted_id : ObjectId) (now now' : Z) (file : UploadFile)
    (language audio_id : string) (upd : AudioFileUpdate) w :
  NoDup (ids (store w)) ->
  NoDup (ids (store (snd (router_upload_audio_file str_of_ObjectId st uuid4
                            inserted_id now now' file language w)))) /\
  NoDup (ids (store (snd (router_delete_audio_file ObjectId_of_str st
                            audio_id w)))) /\
  NoDup (ids (store (snd (update_audio_file ObjectId_of_str now audio_id upd
                            w)))).
Proof.
  intros Hnd. split_and!.
  - pose proof (router_upload_cases str_of_ObjectId st uuid4 inserted_id now
                  now' file language w) as Hcases. cbv zeta in Hcases.
    destruct (router_upload_audio_file str_of_ObjectId st uuid4 inserted_id
                now now' file language w) as [[answer|e] w'].
    + destruct Hcases as (Hfresh & -> & _). cbn [snd store].
      unfold ids. rewrite List.map_app. cbn [List.map doc_of_create doc_id].
      apply NoDup_app. split_and!; [done| |apply NoDup_singleton].
      intros x Hx ->%list_elem_of_singleton. apply Hfresh.
      by apply list_elem_of_In.
    + destruct Hcases as [Hst _]. cbn [snd]. by rewrite Hst.
  - destruct (router_delete_store st audio_id w) as [->|(oid & _ & ->)];
      [done|]. by apply remove_first_ids_NoDup.
  - destruct (update_audio_file_store now audio_id upd w)
      as [->|(oid & d & _ & _ & ->)]; [done|].
    by rewrite replace_first_ids.
Qed.

End Listing.

Lemma ids_stay_distinct_witness :
  NoDup (ids (store (snd (router_upload_audio_file str_of_hex24
                            default_settings 255 id_1 1 2 mp3_upload "en"
                            sample_world)))).
Proof.
  exact (proj1 (ids_stay_distinct hex24_of_str str_of_hex24 default_settings
                  255 id_1 1 2 mp3_upload "en" id_1 language_patch
                  sample_world sample_ids_NoDup)).
Defined.

Lemma unvalidated_update_breaks_listing_witness :
  fst (router_get_all_audio_files str_of_hex24
         (snd (update_audio_file hex24_of_str 7 id_1 language_patch
                 sample_world)))
  = Raise (HTTPException 500 "Failed to retrieve audio files").
Proof.
  apply (unvalidated_update_breaks_listing hex24_of_str str_of_hex24 7 id_1
           id_1 language_patch "FR" (sample_doc id_1 "en" "en_a.mp3")
           sample_world).
  - vm_compute. reflexivity.
  - vm_compute. reflexivity.
  - vm_compute. reflexivity.
  - vm_compute. intuition discriminate.
Defined.

Section LanguageLookup.
Context {ObjectId : Type}.
Implicit Types (w : @World ObjectId) (d : @Doc ObjectId).

(** The code [get_audio_by_language] searches for. *)
Lemma lookup_code_cases (language : string) :
  let code := if Py.mem (Py.lower language) ["english"; "en"] then "en"
              else if Py.mem (Py.lower language) ["arabic"; "ar"] then "ar"
              else Py.lower language in
  Py.lower code = code /\ code <> "english" /\ code <> "arabic" /\
  (Py.lower language = "english" -> code = "en") /\
  (Py.lower language = "arabic" -> code = "ar").
Proof.
  cbv zeta. unfold Py.mem. cbn [existsb].
  destruct (String.eqb_spec (Py.lower language) "english") as [->|Hen].
  { cbn [orb]. by split_and!. }
  destruct (String.eqb_spec (Py.lower language) "en") as [->|He].
  { cbn [orb]. split_and!; done. }
  cbn [orb].
  destruct (String.eqb_spec (Py.lower language) "arabic") as [->|Har].
  { cbn [orb]. by split_and!. }
  destruct (String.eqb_spec (Py.lower language) "ar") as [->|Ha].
  { cbn [orb]. split_and!; done. }
  cbn [orb]. split_and!; [apply lower_idemp|done..].
Qed.

Lemma get_audio_by_language_run (language : string) w :
  let code := if Py.mem (Py.lower language) ["english"; "en"] then "en"
              else if Py.mem (Py.lower language) ["arabic"; "ar"] then "ar"
              else Py.lower language in
  get_audio_by_language language w
  = match List.find (fun d => String.eqb (doc_language d) code) (store w) with
    | None => (Ok None, w)
    | Some d =>
        match AudioFile_init d with
        | Ok a => (Ok (Some a), w)
        | Raise e =>
            (Raise e,
             log_error w ("Error getting audio by language " +:+ language
                          +:+ ": ") e)
        end
    end.
Proof.
  cbv zeta. unfold get_audio_by_language.
  cbv [log_and_reraise try_except bind ret raise on_host of_result find_one
       logger modify log_error with_log].
  destruct (List.find _ (store w)) as [d|]; [|done].
  by destruct (AudioFile_init d).
Qed.

(** X23. The model accepts the long names english and arabic and stores
    them as they are, but the look-up by language searches for en and ar in
    their place: whatever the input and the collection, the record it
    returns never has the language english or arabic, so a document stored
    under a long name cannot be reached by language. The look-up changes
    nothing when it succeeds. *)
Theorem long_names_are_unreachable (language : string) (a : AudioFile) w w' :
  get_audio_by_language language w = (Ok (Some a), w') ->
  w' = w /\
  af_language a <> "english" /\ af_language a <> "arabic" /\
  validate_language "English" = Ok "english" /\
  validate_language "Arabic" = Ok "arabic" /\
  (Py.lower language = "english" -> af_language a = "en") /\
  (Py.lower language = "arabic" -> af_language a = "ar").
Proof.
  rewrite get_audio_by_language_run. cbv zeta.
  destruct (lookup_code_cases language) as (Hlow & Hen & Har & Hlong & Hlong').
  cbv zeta in Hlow, Hen, Har, Hlong, Hlong'.
  set (code := if Py.mem (Py.lower language) ["english"; "en"] then "en"
               else if Py.mem (Py.lower language) ["arabic"; "ar"] then "ar"
               else Py.lower language) in *.
  destruct (List.find _ (store w)) as [d|] eqn:Hfind; [|done].
  apply List.find_some in Hfind as [_ Hd]. apply String.eqb_eq in Hd.
  unfold AudioFile_init.
  destruct (validate_language (doc_language d)) as [l|] eqn:Hl; [|done].
  destruct (validate_format (doc_format d)) as [f|]; [|done].
  intros [= <- <-]. cbn [af_language].
  apply validate_language_Ok in Hl as [-> _]. rewrite Hd, Hlow.
  by split_and!.
Qed.

End LanguageLookup.

Lemma long_names_are_unreachable_witness :
  af_language (audio_of_doc (sample_doc id_1 "en" "en_a.mp3")) <> "english".
Proof.
  apply (long_names_are_unreachable "English"
           (audio_of_doc (sample_doc id_1 "en" "en_a.mp3"))
           sample_world sample_world).
  vm_compute. reflexivity.
Defined.

Section Seeding.
Context {ObjectId : Type} `{EqDecision ObjectId}.
Implicit Types (w : @World ObjectId) (d : @Doc ObjectId)
               (docs : list (@Doc ObjectId)) (p : @Process ObjectId)
               (supply : SampleFile -> ObjectId * Z * Z).

Lemma find_language_has (language : string) docs :
  has_language language docs
  = match List.find (fun d => String.eqb (doc_language d) language) docs with
    | Some _ => true
    | None => false
    end.
Proof.
  unfold has_language. induction docs as [|d docs IH];
    cbn [existsb List.find]; [done|].
  by destruct (String.eqb (doc_language d) language).
Qed.

Lemma has_language_app (language : string) docs docs' :
  has_language language (docs ++ docs')
  = has_language language docs || has_language language docs'.
Proof. unfold has_language. apply existsb_app. Qed.

Lemma existsb_has_id_In (oid : ObjectId) docs :
  existsb (has_id oid) docs = true <-> In oid (ids docs).
Proof.
  rewrite existsb_exists. unfold ids. rewrite in_map_iff. unfold has_id.
  split; intros (x & Hx & Hx'); exists x.
  - by apply bool_decide_eq_true in Hx'.
  - split; [done|]. by apply bool_decide_eq_true.
Qed.

(** The loop body on an entry of the script's list: it never raises, and
    touches neither the files nor the client. *)
Lemma seed_one_run supply (s : SampleFile) p :
  In s sample_files ->
  exists h' out',
    seed_one s (supply s).1.1 (supply s).1.2 (supply s).2 p
    = (Ok tt,
       mkProcess (mkWorld h' (seeded_store supply s (store (world p))))
                 (db_client p) out') /\
    files h' = files (host (world p)) /\
    denied h' = denied (host (world p)).
Proof.
  intros Hs. unfold seeded_store.
  rewrite find_language_has.
  assert (Hcode : (if Py.mem (Py.lower (sf_language s)) ["english"; "en"]
                   then "en"
                   else if Py.mem (Py.lower (sf_language s)) ["arabic"; "ar"]
                        then "ar" else Py.lower (sf_language s))
                  = sf_language s).
  { destruct Hs as [<-|[<-|[]]]; reflexivity. }
  assert (Hinit : AudioFileCreate_init (sf_language s) (sf_filename s)
                    (sf_url s) (sf_file_size s) (Some (sf_duration s))
                    (sf_format s)
                  = Ok (mkCreate (sf_language s) (sf_filename s)
                          (sf_file_size s) (Some (sf_duration s))
                          (sf_format s) (sf_url s))).
  { destruct Hs as [<-|[<-|[]]]; reflexivity. }
  assert (Hdoc : AudioFile_init (seeded_doc supply s)
                 = Ok (audio_of_doc (seeded_doc supply s))).
  { destruct Hs as [<-|[<-|[]]]; reflexivity. }
  unfold seed_one, try_except. unfold bind at 1.
  unfold on_world at 1. rewrite get_audio_by_language_run. cbv zeta.
  rewrite Hcode. destruct p as [[h docs] client out].
  cbn [world db_client stdout store host].
  destruct (List.find _ docs) as [d|] eqn:Hfind.
  - destruct (AudioFile_init d) as [a|e];
      cbv [print modify log_error with_log]; cbn [world db_client stdout host];
      by eexists _, _.
  - unfold bind at 1. rewrite Hinit. unfold bind at 1.
    unfold on_world. cbn [world db_client stdout].
    destruct (existsb (has_id (supply s).1.1) docs) eqn:Hex.
    + apply existsb_has_id_In in Hex.
      rewrite (create_audio_file_duplicate _ _ _ _ (mkWorld h docs) Hex).
      cbv [print modify log_error with_log].
      cbn [world db_client stdout host store]. by eexists _, _.
    + assert (Hfresh : ~ In (supply s).1.1 (ids (store (mkWorld h docs)))).
      { intros Hin%existsb_has_id_In. cbn [store] in Hin. congruence. }
      rewrite (create_audio_file_fresh _ _ _ _ _ (mkWorld h docs) Hfresh Hdoc).
      cbv [print modify]. cbn [world db_client stdout host store].
      by eexists _, _.
Qed.

Lemma seeded_store_has supply (s : SampleFile) docs :
  has_language (sf_language s) docs = true ->
  seeded_store supply s docs = docs.
Proof. unfold seeded_store. by intros ->. Qed.

Lemma for_each_seed supply (l : list SampleFile) p :
  (forall s, In s l -> In s sample_files) ->
  exists h' out',
    for_each l
      (fun file_data =>
         let '(inserted_id, now, now') := supply file_data in
         seed_one file_data inserted_id now now') p
    = (Ok tt,
       mkProcess
         (mkWorld h' (fold_left (fun docs s => seeded_store supply s docs) l
                                (store (world p))))
         (db_client p) out') /\
    files h' = files (host (world p)) /\
    denied h' = denied (host (world p)).
Proof.
  revert p. induction l as [|s l IH]; intros p Hl; cbn [for_each fold_left].
  - destruct p as [[h docs] c out]. by eexists _, _.
  - destruct (seed_one_run supply s p) as (h1 & out1 & Hrun & Hf1 & Hd1).
    { apply Hl. by left. }
    destruct (supply s) as [[inserted_id now] now'] eqn:Hsup.
    cbn [fst snd] in Hrun. rewrite Hrun.
    destruct (IH (mkProcess (mkWorld h1 (seeded_store supply s
                                           (store (world p))))
                            (db_client p) out1)) as (h2 & out2 & -> & Hf2 & Hd2).
    { intros s' Hs'. apply Hl. by right. }
    cbn [world store host db_client] in *. eexists _, _.
    split_and!; [done|congruence|congruence].
Qed.

(** The script never raises; it reaches the collection only when the
    client could be made, the ping succeeded and the audio directory could
    be made, and never touches the files. *)
Lemma seed_database_run (st : Settings) (client ping : result unit) supply p :
  exists h' c' out',
    seed_database st client ping supply p
    = (Ok tt,
       mkProcess
         (mkWorld h'
            (if seeding_reaches_loop st client ping (host (world p))
             then fold_left (fun docs s => seeded_store supply s docs)
                            sample_files (store (world p))
             else store (world p)))
         c' out') /\
    files h' = files (host (world p)) /\
    denied h' = denied (host (world p)).
Proof.
  unfold seed_database, try_finally, try_except, seeding_reaches_loop.
  unfold bind at 1. unfold connect_to_mongo, try_except. unfold bind at 1.
  destruct p as [[h docs] c out]. cbn [world host store].
  destruct client as [[]|e].
  2:{ cbv [bind on_world on_host logger modify raise print
           close_mongo_connection get ret].
      cbn [world host store db_client stdout].
      destruct c; cbn [world host store db_client stdout]; by eexists _, _, _. }
  cbv [bind modify]. cbn [world host store db_client stdout].
  destruct ping as [[]|e].
  2:{ cbv [bind on_world on_host logger modify raise print
           close_mongo_connection get ret].
      cbn [world host store db_client stdout]. by eexists _, _, _. }
  cbv [on_world on_host logger modify print os_makedirs].
  cbn [world host store db_client stdout denied].
  destruct (decide (AUDIO_FILES_PATH st ∈ denied h)) as [Hden|Hfree].
  { rewrite bool_decide_false by by intros ?.
    cbv [close_mongo_connection get bind on_world on_host logger modify ret].
    cbn [world host store db_client stdout]. by eexists _, _, _. }
  rewrite bool_decide_true by done.
  match goal with
  | |- context [for_each sample_files ?body ?q] =>
      destruct (for_each_seed supply sample_files q)
        as (h1 & out1 & Hloop & Hf1 & Hd1); [done|]
  end.
  rewrite Hloop.
  cbv [close_mongo_connection get bind on_world on_host logger modify ret].
  cbn [world host store db_client stdout] in *. by eexists _, _, _.
Qed.

(** X24. Seeding twice adds nothing. Run against a database it can reach,
    with identifiers the collection does not hold yet, the seeding script
    never fails, leaves the files alone and appends its sample for en and
    its sample for ar, each only if no document had that language before.
    Afterwards both languages have a document, and a second run, whatever
    the driver gives it, leaves the collection exactly as the first run
    left it. *)
Theorem seeding_twice_adds_nothing (st : Settings) supply
    (client' ping' : result unit) supply' p :
  AUDIO_FILES_PATH st ∉ denied (host (world p)) ->
  (forall s, In s sample_files ->
     ~ In (supply s).1.1 (ids (store (world p)))) ->
  (forall s s', In s sample_files -> In s' sample_files ->
     (supply s).1.1 = (supply s').1.1 -> s = s') ->
  let p1 := snd (seed_database st (Ok tt) (Ok tt) supply p) in
  let p2 := snd (seed_database st client' ping' supply' p1) in
  fst (seed_database st (Ok tt) (Ok tt) supply p) = Ok tt /\
  fst (seed_database st client' ping' supply' p1) = Ok tt /\
  store (world p1)
  = store (world p)
    ++ List.map (seeded_doc supply)
         (List.filter
            (fun s => negb (has_language (sf_language s) (store (world p))))
            sample_files) /\
  (forall s, In s sample_files ->
     has_language (sf_language s) (store (world p1)) = true) /\
  files (host (world p1)) = files (host (world p)) /\
  store (world p2) = store (world p1).
Proof.
  intros Hfree Hfresh Hinj p1 p2.
  destruct (seed_database_run st (Ok tt) (Ok tt) supply p)
    as (h1 & c1 & out1 & Hrun1 & Hf1 & Hd1).
  assert (Hp1 : p1 = snd (seed_database st (Ok tt) (Ok tt) supply p))
    by reflexivity.
  rewrite Hrun1 in Hp1 |- *. cbn [snd fst] in Hp1.
  unfold seeding_reaches_loop in Hp1. rewrite bool_decide_true in Hp1 by done.
  destruct (seed_database_run st client' ping' supply' p1)
    as (h2 & c2 & out2 & Hrun2 & Hf2 & Hd2).
  assert (Hp2 : p2 = snd (seed_database st client' ping' supply' p1))
    by reflexivity.
  rewrite Hrun2 in Hp2 |- *. cbn [snd fst] in Hp2.
  clearbody p1 p2. clear Hrun1 Hrun2.
  set (docs := store (world p)) in *.
  set (en := {| sf_language := "en";
                sf_filename := "sample_english.mp3";
                sf_url := "https://elevenlab-clone-backend.vercel.app/api/audio/files/sample_english.mp3";
                sf_file_size := 1024000; sf_duration := 30.5;
                sf_format := "mp3" |}).
  set (ar := {| sf_language := "ar";
                sf_filename := "sample_arabic.mp3";
                sf_url := "https://elevenlab-clone-backend.vercel.app/api/audio/files/sample_arabic.mp3";
                sf_file_size := 1200000; sf_duration := 35.2;
                sf_format := "mp3" |}).
  assert (Hsamples : sample_files = [en; ar]) by reflexivity.
  assert (Hen : In en sample_files) by (rewrite Hsamples; by left).
  assert (Har : In ar sample_files) by (rewrite Hsamples; right; by left).
  assert (Hne : (supply ar).1.1 <> (supply en).1.1).
  { intros Heq. by specialize (Hinj ar en Har Hen Heq). }
  assert (Hid_en : existsb (has_id (supply en).1.1) docs = false).
  { apply not_true_is_false. intros Hin%existsb_has_id_In.
    by apply (Hfresh en). }
  assert (Hid_ar : forall l, l = [] \/ l = [seeded_doc supply en] ->
            existsb (has_id (supply ar).1.1) (docs ++ l) = false).
  { intros l Hl. rewrite existsb_app. apply orb_false_intro.
    - apply not_true_is_false. intros Hin%existsb_has_id_In.
      by apply (Hfresh ar).
    - destruct Hl as [->| ->]; [done|]. cbn [existsb orb].
      unfold has_id, seeded_doc, doc_of_create. cbn [doc_id].
      rewrite bool_decide_false by (intros Heq; by apply Hne). done. }
  assert (Hstore : store (world p1)
                   = docs ++ (if has_language "en" docs then []
                              else [seeded_doc supply en])
                          ++ (if has_language "ar" docs then []
                              else [seeded_doc supply ar])).
  { rewrite Hp1. cbn [world store]. rewrite Hsamples. cbn [fold_left].
    unfold seeded_store at 2. change (sf_language en) with "en".
    rewrite Hid_en.
    destruct (has_language "en" docs) eqn:Hhas_en.
    - unfold seeded_store. change (sf_language ar) with "ar".
      specialize (Hid_ar [] (or_introl eq_refl)). rewrite app_nil_r in Hid_ar.
      rewrite Hid_ar. cbn [app].
      destruct (has_language "ar" docs); [by rewrite app_nil_r|done].
    - unfold seeded_store. change (sf_language ar) with "ar".
      rewrite (Hid_ar _ (or_intror eq_refl)).
      rewrite has_language_app.
      change (has_language "ar" [seeded_doc supply en]) with false.
      rewrite orb_false_r.
      destruct (has_language "ar" docs);
        [by rewrite app_nil_r|by rewrite <- app_assoc]. }
  assert (Hboth : forall s, In s sample_files ->
            has_language (sf_language s) (store (world p1)) = true).
  { intros s Hs. rewrite Hstore, !has_language_app.
    rewrite Hsamples in Hs. destruct Hs as [<-|[<-|[]]].
    - change (sf_language en) with "en".
      destruct (has_language "en" docs); [done|].
      change (has_language "en" [seeded_doc supply en]) with true.
      by rewrite orb_true_r.
    - change (sf_language ar) with "ar".
      destruct (has_language "ar" docs); [done|].
      change (has_language "ar" [seeded_doc supply ar]) with true.
      by rewrite !orb_true_r. }
  split_and!; [done|done| |done| |].
  - rewrite Hstore, Hsamples. cbn [List.filter].
    change (sf_language en) with "en". change (sf_language ar) with "ar".
    by destruct (has_language "en" docs), (has_language "ar" docs).
  - rewrite Hp1. cbn [world host]. done.
  - rewrite Hp2. cbn [world store].
    destruct (seeding_reaches_loop st client' ping' (host (world p1)));
      [|done].
    rewrite Hsamples. cbn [fold_left].
    rewrite (seeded_store_has supply' en) by by apply Hboth.
    by rewrite (seeded_store_has supply' ar) by by apply Hboth.
Qed.

End Seeding.

Lemma seeding_twice_adds_nothing_witness :
  store (world (snd (seed_database default_settings (Ok tt) (Ok tt)
                       sample_supply (fresh_process sample_world))))
  = store (world (fresh_process sample_world))
    ++ List.map (seeded_doc sample_supply)
         (List.filter
            (fun s => negb (has_language (sf_language s)
                              (store (world (fresh_process sample_world)))))
            sample_files).
Proof.
  destruct (seeding_twice_adds_nothing default_settings sample_supply
              (Ok tt) (Ok tt) sample_supply (fresh_process sample_world))
    as (_ & _ & Hstore & _).
  - vm_compute. set_solver.
  - intros s Hs. vm_compute in Hs. destruct Hs as [<-|[<-|[]]];
      vm_compute; intuition discriminate.
  - intros s s' Hs Hs'. vm_compute in Hs, Hs'.
    destruct Hs as [<-|[<-|[]]], Hs' as [<-|[<-|[]]];
      vm_compute; intros; congruence.
  - exact Hstore.
Defined.
